(** * Weather summariser: analysis, content selection and realisation

    A shallow embedding of the Python sources under [Template/code]
    ([dataset_analyzer.py], [content_planner.py], [lexicalizer.py],
    [template_realizer.py], [summarizer.py]) and of the single-file variant
    [ai.py], followed by the properties proved about them.

    Conventions of the embedding.
    - A Python [float] is an IEEE 754 binary64 number: Rocq's primitive
      [float].  A decimal literal of the source ([0.2], [0.6], ...) is the
      same literal here and rounds to the same binary64 value.
    - A Python [dict] with a fixed set of keys is a record whose fields are
      named after the keys; a [dict] that is iterated or grows by
      assignment is an association list in insertion order ([Py.dict]).
    - A raised exception is the [Raise] case of [Py.result].
    - What pandas and scipy compute numerically (mean, standard deviation,
      Pearson correlation, least squares), and the power [**] of the C
      library, is a field of the record
      [Backend], and the decimal rendering of a value by [format] is the
      parameter [format_value] of the realizer: the code is verified for
      every such library, and the instances of [Reference] are used to
      run it.  What pandas does structurally (column membership,
      [idxmax], [min], [max], grouping by season and by year) is written
      out. *)

From Stdlib Require Import Floats ZArith List String Ascii Bool Lia.
From Stdlib Require Import DecimalString.
Import ListNotations.

Set Warnings "-inexact-float,-register-all".
Set Implicit Arguments.

(* ================================================================== *)
(** * Part I: the model                                                 *)
(* ================================================================== *)

(** ** Python runtime notions shared by all the modules *)

Module Py.

(** Exceptions the code can raise, with the offending key or a message. *)
Inductive exn : Type :=
| KeyError (key : string)
| TypeError (msg : string)
| ValueError (msg : string)
| AttributeError (msg : string)
| IndexError (msg : string)
| OverflowError (msg : string).

Inductive result (A : Type) : Type :=
| Ok (a : A)
| Raise (e : exn).

Arguments Ok {A} a.
Arguments Raise {A} e.

Definition bind {A B : Type} (r : result A) (k : A -> result B) : result B :=
  match r with
  | Ok a => k a
  | Raise e => Raise e
  end.

Definition is_ok {A : Type} (r : result A) : bool :=
  match r with Ok _ => true | Raise _ => false end.

(** Comparisons on floats as Python writes them.  Every comparison with a
    NaN is [False], except [!=], which is [True]. *)
Definition flt (x y : float) : bool := (x <? y)%float.
Definition fgt (x y : float) : bool := (y <? x)%float.
Definition fge (x y : float) : bool := (y <=? x)%float.
Definition fle (x y : float) : bool := (x <=? y)%float.
Definition feq (x y : float) : bool := (x =? y)%float.
Definition fne (x y : float) : bool := negb (x =? y)%float.
Definition fabs (x : float) : float := abs x.
Definition isnan (x : float) : bool := negb (x =? x)%float.

(** The float nearest to an integer, ties to even; an integer beyond the
    range of the floats gives an infinity.  Below [2^63] the conversion
    of the machine is used, which rounds in the same way. *)
Definition float_of_Z (z : Z) : float :=
  if Z.ltb (Z.abs z) (2 ^ 63) then
    match z with
    | Z0 => 0%float
    | Zpos _ => of_uint63 (Uint63.of_Z z)
    | Zneg _ => (- of_uint63 (Uint63.of_Z (- z)))%float
    end
  else SF2Prim (binary_normalize prec emax z 0 false).

(** An [int] used where the code mixes [int] and [float]: Python converts
    it to the nearest float and raises [OverflowError] when there is
    none. *)
Definition float_of_int (z : Z) : result float :=
  let f := float_of_Z z in
  if (f =? infinity)%float || (f =? neg_infinity)%float
  then Raise (OverflowError "int too large to convert to float")
  else Ok f.

(** A [dict] with string keys, in insertion order.  Assigning to a key
    that is present replaces its value in place. *)
Definition dict (V : Type) : Type := list (string * V).

Fixpoint dict_get {V : Type} (k : string) (d : dict V) : option V :=
  match d with
  | [] => None
  | (k', v) :: d' => if String.eqb k k' then Some v else dict_get k d'
  end.

Definition dict_mem {V : Type} (k : string) (d : dict V) : bool :=
  match dict_get k d with Some _ => true | None => false end.

Fixpoint dict_set {V : Type} (k : string) (v : V) (d : dict V) : dict V :=
  match d with
  | [] => [(k, v)]
  | (k', v') :: d' =>
      if String.eqb k k' then (k, v) :: d' else (k', v') :: dict_set k v d'
  end.

Definition dict_keys {V : Type} (d : dict V) : list string := map fst d.

(** The dictionary without the key [k]. *)
Definition dict_remove {V : Type} (k : string) (d : dict V) : dict V :=
  filter (fun entry => negb (String.eqb k (fst entry))) d.

(** [d[k]]: the value, or [KeyError]. *)
Definition dict_item {V : Type} (k : string) (d : dict V) : result V :=
  match dict_get k d with
  | Some v => Ok v
  | None => Raise (KeyError k)
  end.

(** [str.lower] on the ASCII letters, which is all the column names of the
    deployed schema need: the other bytes are kept. *)
Definition lower_ascii (c : ascii) : ascii :=
  let n := nat_of_ascii c in
  if (Nat.leb 65 n && Nat.leb n 90)%bool then ascii_of_nat (n + 32) else c.

Fixpoint lower (s : string) : string :=
  match s with
  | EmptyString => EmptyString
  | String c s' => String (lower_ascii c) (lower s')
  end.

(** [sub in s] on strings. *)
Fixpoint contains (sub s : string) : bool :=
  if String.prefix sub s then true
  else match s with
       | EmptyString => false
       | String _ s' => contains sub s'
       end.

(** [s.replace(a, b)] for single characters. *)
Fixpoint replace_char (a b : ascii) (s : string) : string :=
  match s with
  | EmptyString => EmptyString
  | String c s' => String (if Ascii.eqb c a then b else c) (replace_char a b s')
  end.

(** [sep.join(parts)]. *)
Fixpoint join (sep : string) (parts : list string) : string :=
  match parts with
  | [] => EmptyString
  | [p] => p
  | p :: rest => (p ++ sep ++ join sep rest)%string
  end.

(** Truth value of a string: non-empty. *)
Definition str_truthy (s : string) : bool :=
  match s with EmptyString => false | String _ _ => true end.

Definition str_of_Z (z : Z) : string := NilZero.string_of_int (Z.to_int z).

End Py.

Export Py.

Notation "x <- r ;; k" := (Py.bind r (fun x => k))
  (at level 61, r at next level, right associativity).

(** ** Calendar dates, as far as the code looks into them *)

Module Calendar.

Record Date : Type := mkDate { year : Z; month : Z; day : Z }.

Definition date_eqb (a b : Date) : bool :=
  (Z.eqb (year a) (year b) && Z.eqb (month a) (month b) && Z.eqb (day a) (day b))%bool.

Definition date_ltb (a b : Date) : bool :=
  (Z.ltb (year a) (year b)
   || (Z.eqb (year a) (year b)
       && (Z.ltb (month a) (month b)
           || (Z.eqb (month a) (month b) && Z.ltb (day a) (day b)))))%bool.

Definition is_leap (y : Z) : bool :=
  ((Z.eqb (y mod 4) 0 && negb (Z.eqb (y mod 100) 0)) || Z.eqb (y mod 400) 0)%bool.

Definition days_before_month (y m : Z) : Z :=
  let base := nth (Z.to_nat (m - 1))
                  [0; 31; 59; 90; 120; 151; 181; 212; 243; 273; 304; 334]%Z 0%Z in
  if (Z.ltb 2 m && is_leap y)%bool then (base + 1)%Z else base.

(** [date.dt.dayofyear]. *)
Definition dayofyear (d : Date) : Z := (days_before_month (year d) (month d) + day d)%Z.

Definition month_name (m : Z) : string :=
  nth (Z.to_nat (m - 1))
      ["January"; "February"; "March"; "April"; "May"; "June"; "July";
       "August"; "September"; "October"; "November"; "December"]%string
      ""%string.

Definition two_digits (n : Z) : string :=
  if Z.ltb n 10 then ("0" ++ str_of_Z n)%string else str_of_Z n.

(** [date.strftime("%B %d, %Y")]; pandas timestamps have four-digit years. *)
Definition strftime_long (d : Date) : string :=
  (month_name (month d) ++ " " ++ two_digits (day d) ++ ", " ++ str_of_Z (year d))%string.

(** Smallest and largest date of a column; [None] is pandas' [NaT], the
    answer on an empty column. *)
Fixpoint date_min (l : list Date) : option Date :=
  match l with
  | [] => None
  | d :: l' =>
      match date_min l' with
      | None => Some d
      | Some m => Some (if date_ltb m d then m else d)
      end
  end.

Fixpoint date_max (l : list Date) : option Date :=
  match l with
  | [] => None
  | d :: l' =>
      match date_max l' with
      | None => Some d
      | Some m => Some (if date_ltb d m then m else d)
      end
  end.

End Calendar.

Export Calendar.

(** ** [lexicalizer.py]: numbers to words *)

Module Lexicalizer.

(** [Lexicalizer.describe_trend(slope, r_squared, var_type)]. *)
Definition describe_trend (slope r_squared : float) (var_type : string) : string :=
  if flt r_squared 0.2 then "remained relatively stable"%string
  else
    let magnitude := fabs slope in
    let direction := if fgt slope 0 then "increasing"%string else "decreasing"%string in
    if String.eqb var_type "temperature" then
      let strength :=
        if fgt magnitude 0.5 then "significant"%string
        else if fgt magnitude 0.2 then "moderate"%string
        else "slight"%string in
      ("showed " ++ strength ++ " " ++ direction)%string
    else if String.eqb var_type "precipitation" then
      let strength :=
        if fgt magnitude 2 then "substantially"%string
        else if fgt magnitude 1 then "moderately"%string
        else "slightly"%string in
      (strength ++ " " ++ direction)%string
    else
      let direction := if fgt slope 0 then "increased"%string else "decreased"%string in
      direction.

(** [Lexicalizer.describe_temperature(temp)], Celsius breakpoints. *)
Definition describe_temperature (temp : float) : string :=
  if flt temp 0 then "freezing"%string
  else if flt temp 8 then "cold"%string
  else if flt temp 16 then "cool"%string
  else if flt temp 25 then "mild"%string
  else if flt temp 32 then "warm"%string
  else "hot"%string.

(** [Lexicalizer.describe_variability(cv)]. *)
Definition describe_variability (cv : float) : string :=
  if fgt cv 1.0 then "highly variable"%string
  else if fgt cv 0.6 then "quite variable"%string
  else if fgt cv 0.3 then "moderately variable"%string
  else "relatively stable"%string.

(** [Lexicalizer.format_date(date)]. *)
Definition format_date (d : Date) : string := strftime_long d.

End Lexicalizer.

(** ** The [Lexicalizer] class of [ai.py] *)

Module AiLexicalizer.

(** [Lexicalizer.describe_trend] of [ai.py]: the direction word is chosen
    before the variable type is looked at, and replaced in two branches. *)
Definition describe_trend (slope r_squared : float) (var_type : string) : string :=
  if flt r_squared 0.2 then "remained relatively stable"%string
  else
    let magnitude := fabs slope in
    let direction := if fgt slope 0 then "warming"%string else "cooling"%string in
    if String.eqb var_type "temperature" then
      let strength :=
        if fgt magnitude 0.5 then "significant"%string
        else if fgt magnitude 0.2 then "moderate"%string
        else "slight"%string in
      ("showed " ++ strength ++ " " ++ direction)%string
    else if String.eqb var_type "precipitation" then
      let direction := if fgt slope 0 then "increasing"%string else "decreasing"%string in
      let strength :=
        if fgt magnitude 2 then "substantially"%string
        else if fgt magnitude 1 then "moderately"%string
        else "slightly"%string in
      (strength ++ " " ++ direction)%string
    else
      let direction := if fgt slope 0 then "increased"%string else "decreased"%string in
      direction.

(** [Lexicalizer.describe_temperature] of [ai.py], Fahrenheit breakpoints. *)
Definition describe_temperature (temp : float) : string :=
  if flt temp 32 then "freezing"%string
  else if flt temp 50 then "cold"%string
  else if flt temp 65 then "cool"%string
  else if flt temp 75 then "mild"%string
  else if flt temp 85 then "warm"%string
  else "hot"%string.

End AiLexicalizer.

(** ** The statistics structure built by the analyzer and read by the planner

    Each record is one of the dictionaries of [dataset_analyzer.py]; a
    field is the key of the same name (prefixed where two dictionaries
    share a key).  A value that the code leaves absent or sets to [None]
    is [None] here. *)

Module Stats.

(** [_compute_basic_info]: [start_date], [end_date], [n_records], [station]. *)
Record BasicInfo : Type := mkBasicInfo {
  start_date : option Date;
  end_date : option Date;
  n_records : Z;
  station : string
}.

(** [_summarize_primary]: [mean], [std], [min], [max],
    [coefficient_of_variation]. *)
Record Summary : Type := mkSummary {
  summary_mean : float;
  summary_std : float;
  summary_min : float;
  summary_max : float;
  coefficient_of_variation : float
}.

(** [_compute_range]: each key is set only when a supporting column
    resolves to it. *)
Record RangeInfo : Type := mkRangeInfo {
  absolute_min : option float;
  absolute_max : option float
}.

(** [_detect_trend]. *)
Record Trend : Type := mkTrend {
  slope : float;
  r_value : float;
  r_squared : float;
  p_value : float;
  direction : string
}.

(** [_compute_seasonal_patterns]: a season without rows is [None]; the key
    [range] is [seasonal_range]. *)
Record Seasonal : Type := mkSeasonal {
  summer : option float;
  winter : option float;
  spring : option float;
  fall : option float;
  seasonal_range : float
}.

(** [_compute_yearly_comparisons]. *)
Record Yearly : Type := mkYearly {
  yearly_mean : float;
  yearly_std : float;
  highest_year : Z;
  highest_value : float;
  lowest_year : Z;
  lowest_value : float;
  highest_zscore : float;
  lowest_zscore : float
}.

(** One entry of [_identify_extremes]: [value], [date]. *)
Record Extreme : Type := mkExtreme {
  value : float;
  date : Date
}.

Record Extremes : Type := mkExtremes {
  highest : option Extreme;
  lowest : option Extreme
}.

(** The entry [real_feel_diff] of [_analyze_optional_features]. *)
Record RealFeel : Type := mkRealFeel {
  avg_difference : float;
  is_negative : bool
}.

(** The dictionary [analyze] stores under a group name. *)
Record Bundle : Type := mkBundle {
  summary : Summary;
  range : option RangeInfo;
  trend : Trend;
  seasonal : option Seasonal;
  yearly : option Yearly;
  extremes : option Extremes;
  optional_features : option RealFeel
}.

(** An element of [strongest_trends]: [name], [r_squared], [direction],
    [slope]. *)
Record TrendingVar : Type := mkTrendingVar {
  name : string;
  tv_r_squared : float;
  tv_direction : string;
  tv_slope : float
}.

(** [most_variable]: [variable], [cv]. *)
Record MostVariable : Type := mkMostVariable {
  variable : string;
  cv : float
}.

(** A value of the [correlations] mapping: [correlation], [relationship]. *)
Record Correlation : Type := mkCorrelation {
  correlation : float;
  relationship : string
}.

(** [_detect_cross_variable_patterns]: [strongest_trends] and
    [most_variable] are keys that may be missing, [correlations] is always
    set. *)
Record Patterns : Type := mkPatterns {
  strongest_trends : option (list TrendingVar);
  most_variable : option MostVariable;
  correlations : dict Correlation
}.

(** The result of [analyze]: the keys [basic] and [patterns], and one key
    per analysed group.  The code keeps the three in one dictionary, in
    which [patterns] always holds the patterns and [basic] holds the basic
    information unless an analysed group is named [basic]; [groups] holds
    the other keys. *)
Record Statistics : Type := mkStatistics {
  basic : BasicInfo;
  groups : dict Bundle;
  patterns : option Patterns
}.

(** Truth value of a dictionary whose keys are all optional. *)
Definition extremes_truthy (e : Extremes) : bool :=
  match highest e, lowest e with
  | None, None => false
  | _, _ => true
  end.

Definition range_truthy (r : RangeInfo) : bool :=
  match absolute_min r, absolute_max r with
  | None, None => false
  | _, _ => true
  end.

End Stats.

Export Stats.

(** ** [content_planner.py]: what to narrate *)

Module ContentPlanner.

(** The three thresholds of the command line ([summarize.py]). *)
Record Config : Type := mkConfig {
  r2_threshold : float;
  p_value_threshold : float;
  extreme_threshold : float
}.

(** The dictionary built for the [pattern_correlation] fact: [variables],
    [correlation], [relationship]. *)
Record MaxCorr : Type := mkMaxCorr {
  variables : string;
  mc_correlation : float;
  mc_relationship : string
}.

(** The second component of a fact. *)
Inductive Payload : Type :=
| PBasic (b : BasicInfo)
| PBundle (b : Bundle)
| PTrend (t : Trend)
| PSeasonal (s : Seasonal)
| PYearly (y : Yearly)
| PExtremes (e : Extremes)
| PSecondary (l : list (string * Bundle))
| PTrends (l : list TrendingVar)
| PCorrelation (m : option MaxCorr).

Definition Fact : Type := (string * Payload)%type.

Section Planner.

Variable config : Config.

(** [_is_trend_significant(trend_stats)]; the argument is what
    [.get('trend')] returned. *)
Definition _is_trend_significant (trend_stats : option Trend) : bool :=
  match trend_stats with
  | None => false
  | Some t =>
      (fge (r_squared t) (r2_threshold config)
       && flt (p_value t) (p_value_threshold config))%bool
  end.

(** [_is_yearly_comparison_notable(yearly_stats)]. *)
Definition _is_yearly_comparison_notable (yearly_stats : option Yearly) : bool :=
  match yearly_stats with
  | None => false
  | Some y =>
      (fge (fabs (highest_zscore y)) (extreme_threshold config)
       || fge (fabs (lowest_zscore y)) (extreme_threshold config))%bool
  end.

(** The first test of [_is_variable_notable]: high variability. *)
Definition high_variability (var_stats : Bundle) : bool :=
  fgt (coefficient_of_variation (summary var_stats)) 0.6.

(** [_is_variable_notable(var_stats)]; a bundle is never an empty
    dictionary, so the guard [if not var_stats] does not fire. *)
Definition _is_variable_notable (var_stats : Bundle) : bool :=
  if high_variability var_stats then true
  else if fgt (r_squared (trend var_stats)) (r2_threshold config) then true
  else
    match yearly var_stats with
    | Some y =>
        if fgt (fabs (highest_zscore y)) (extreme_threshold config) then true
        else false
    | None => false
    end.

(** The body of the loop over the primary variables: the facts appended
    for one of them. *)
Definition primary_step (stats : Statistics) (content : list Fact)
    (primary_var : string) : list Fact :=
  match dict_get primary_var (groups stats) with
  | None => content
  | Some b =>
      let content := content ++ [((primary_var ++ "_summary")%string, PBundle b)] in
      let content :=
        if _is_trend_significant (Some (trend b))
        then content ++ [((primary_var ++ "_trend")%string, PTrend (trend b))]
        else content in
      let content :=
        match seasonal b with
        | Some s => content ++ [((primary_var ++ "_seasonal")%string, PSeasonal s)]
        | None => content
        end in
      let content :=
        match yearly b with
        | Some y =>
            if _is_yearly_comparison_notable (Some y)
            then content ++ [((primary_var ++ "_yearly")%string, PYearly y)]
            else content
        | None => content
        end in
      let content :=
        match extremes b with
        | Some e =>
            if extremes_truthy e
            then content ++ [((primary_var ++ "_extremes")%string, PExtremes e)]
            else content
        | None => content
        end in
      content
  end.

(** The body of the loop over the secondary variables. *)
Definition secondary_step (stats : Statistics)
    (secondary_vars : list (string * Bundle)) (var : string)
    : list (string * Bundle) :=
  match dict_get var (groups stats) with
  | Some b =>
      if _is_variable_notable b then secondary_vars ++ [(var, b)]
      else secondary_vars
  | None => secondary_vars
  end.

(** The body of the scan of the correlation mapping: the running
    [(max_corr, max_corr_vars)]. *)
Definition corr_step (acc : float * option MaxCorr)
    (entry : string * Correlation) : float * option MaxCorr :=
  let '(max_corr, max_corr_vars) := acc in
  let '(corr_stat, c) := entry in
  if fgt (correlation c) max_corr
  then (correlation c,
        Some {| variables := corr_stat;
                mc_correlation := correlation c;
                mc_relationship := relationship c |})
  else (max_corr, max_corr_vars).

Definition primary_vars : list string := ["temperature"; "precipitation"]%string.

Definition secondary_var_names : list string :=
  ["wind_speed"; "relative_humidity"; "rain"; "snow";
   "precipitation_hours"; "sunshine_duration"]%string.

(** [select_content()]. *)
Definition select_content (stats : Statistics) : list Fact :=
  let content := [("overview"%string, PBasic (basic stats))] in
  let content := fold_left (primary_step stats) primary_vars content in
  let secondary_vars := fold_left (secondary_step stats) secondary_var_names [] in
  let content :=
    match secondary_vars with
    | [] => content
    | _ :: _ => content ++ [("other_conditions"%string, PSecondary secondary_vars)]
    end in
  let content :=
    match patterns stats with
    | None => content
    | Some p =>
        let content :=
          match strongest_trends p with
          | Some (t :: ts) => content ++ [("pattern_trends"%string, PTrends (t :: ts))]
          | _ => content
          end in
        let '(_, max_corr_vars) := fold_left corr_step (correlations p) (0%float, None) in
        content ++ [("pattern_correlation"%string, PCorrelation max_corr_vars)]
    end in
  content.

End Planner.

End ContentPlanner.

(** ** The table and the numerical libraries *)

Module Frame.

(** The table after [_load_data]: the [date] column and the numeric
    columns by name, all of one length; a row label is a position. *)
Record DataFrame : Type := mkDataFrame {
  df_dates : list Date;
  df_columns : dict (list float)
}.

(** [col in df.columns], for a numeric column. *)
Definition in_columns (df : DataFrame) (col : string) : bool :=
  dict_mem col (df_columns df).

(** [df[col]], used by the code only behind [col in df.columns]. *)
Definition column (df : DataFrame) (col : string) : list float :=
  match dict_get col (df_columns df) with
  | Some l => l
  | None => []
  end.

(** The five values [scipy.stats.linregress] returns. *)
Record LinregressResult : Type := mkLinregressResult {
  lr_slope : float;
  lr_intercept : float;
  lr_rvalue : float;
  lr_pvalue : float;
  lr_stderr : float
}.

(** What the code asks of pandas, scipy and the C library on numbers.
    [float_pow x n] is [x ** n] for a float [x] and an [int] [n], which
    Python hands to the [pow] of the C library. *)
Record Backend : Type := mkBackend {
  series_mean : list float -> float;
  series_std : list float -> float;
  series_corr : list float -> list float -> float;
  linregress : list float -> list float -> result LinregressResult;
  float_pow : float -> Z -> float
}.

(** The scan behind [Series.idxmax] and [Series.idxmin]: NaN entries are
    skipped and the first position holding the best value is kept.
    [better b v] says that [v] beats the best value [b] seen so far. *)
Fixpoint arg_best (better : float -> float -> bool) (l : list float) (i : nat)
    (best : option (nat * float)) : option (nat * float) :=
  match l with
  | [] => best
  | v :: l' =>
      let best' :=
        if isnan v then best
        else match best with
             | None => Some (i, v)
             | Some (_, b) => if better b v then Some (i, v) else best
             end in
      arg_best better l' (S i) best'
  end.

(** [Series.idxmax()]: raises on a column with no number in it. *)
Definition idxmax (l : list float) : result nat :=
  match arg_best flt l 0 None with
  | Some (i, _) => Ok i
  | None => Raise (ValueError "attempt to get argmax of an empty sequence")
  end.

(** [Series.idxmin()]. *)
Definition idxmin (l : list float) : result nat :=
  match arg_best fgt l 0 None with
  | Some (i, _) => Ok i
  | None => Raise (ValueError "attempt to get argmin of an empty sequence")
  end.

(** [Series.max()] and [Series.min()]: NaN on a column with no number. *)
Definition series_max (l : list float) : float :=
  match arg_best flt l 0 None with
  | Some (_, v) => v
  | None => nan
  end.

Definition series_min (l : list float) : float :=
  match arg_best fgt l 0 None with
  | Some (_, v) => v
  | None => nan
  end.

(** [df.loc[idx, col]] on a list of cells. *)
Definition loc {A : Type} (idx : nat) (cells : list A) : result A :=
  match nth_error cells idx with
  | Some a => Ok a
  | None => Raise (KeyError "row label")
  end.

(** Element-wise difference of two columns. *)
Fixpoint series_sub (a b : list float) : list float :=
  match a, b with
  | x :: a', y :: b' => (x - y)%float :: series_sub a' b'
  | _, _ => []
  end.

End Frame.

Export Frame.

(** ** [dataset_analyzer.py]: the statistics *)

Module DatasetAnalyzer.

(** One entry of [variable_groups]: [primary], [supporting], [comparison]. *)
Record GroupConfig : Type := mkGroupConfig {
  primary : string;
  supporting : list string;
  comparison : list string
}.

Section Analyzer.

Variable backend : Backend.
Variable df : DataFrame.
Variable station_name : string.
Variable variable_groups : dict GroupConfig.

(** [_compute_basic_info()]. *)
Definition _compute_basic_info : BasicInfo :=
  {| start_date := date_min (df_dates df);
     end_date := date_max (df_dates df);
     n_records := Z.of_nat (List.length (df_dates df));
     station := station_name |}.

(** [_summarize_primary(col)]. *)
Definition _summarize_primary (col : string) : Summary :=
  let mean := series_mean backend (column df col) in
  let std := series_std backend (column df col) in
  {| summary_mean := mean;
     summary_std := std;
     summary_min := series_min (column df col);
     summary_max := series_max (column df col);
     coefficient_of_variation := if fne mean 0 then (std / mean)%float else 0%float |}.

(** The body of the loop of [_compute_range]. *)
Definition range_step (range_info : RangeInfo) (col : string) : RangeInfo :=
  if in_columns df col then
    if contains "min" (lower col)
    then {| absolute_min := Some (series_min (column df col));
            absolute_max := absolute_max range_info |}
    else if contains "max" (lower col)
    then {| absolute_min := absolute_min range_info;
            absolute_max := Some (series_max (column df col)) |}
    else range_info
  else range_info.

(** [_compute_range(supporting_cols)]. *)
Definition _compute_range (supporting_cols : list string) : option RangeInfo :=
  match supporting_cols with
  | [] => None
  | _ :: _ =>
      let range_info :=
        fold_left range_step supporting_cols
                  {| absolute_min := None; absolute_max := None |} in
      if range_truthy range_info then Some range_info else None
  end.

(** The time index of [_detect_trend]: [year + dayofyear / 365.25]. *)
Definition year_numeric (d : Date) : float :=
  (float_of_Z (year d) + float_of_Z (dayofyear d) / 365.25)%float.

(** [_detect_trend(col)]: whatever [linregress] raises goes up. *)
Definition _detect_trend (col : string) : result Trend :=
  r <- linregress backend (map year_numeric (df_dates df)) (column df col) ;;
  Ok {| slope := lr_slope r;
        r_value := lr_rvalue r;
        r_squared := float_pow backend (lr_rvalue r) 2;
        p_value := lr_pvalue r;
        direction := if fgt (lr_slope r) 0 then "increasing"%string
                     else "decreasing"%string |}.

(** [get_season(month)] of [_compute_seasonal_patterns]. *)
Definition get_season (month : Z) : string :=
  if existsb (Z.eqb month) [12; 1; 2]%Z then "winter"%string
  else if existsb (Z.eqb month) [3; 4; 5]%Z then "spring"%string
  else if existsb (Z.eqb month) [6; 7; 8]%Z then "summer"%string
  else "fall"%string.

(** The cells of a column whose row satisfies a test on its date. *)
Fixpoint rows_where (test : Date -> bool) (dates : list Date) (cells : list float)
    : list float :=
  match dates, cells with
  | d :: dates', v :: cells' =>
      if test d then v :: rows_where test dates' cells'
      else rows_where test dates' cells'
  | _, _ => []
  end.

(** [groupby('season')[col].mean()]: one mean per season that has rows,
    the keys in sorted order. *)
Definition seasonal_means (col : string) : dict float :=
  flat_map
    (fun season =>
       match rows_where (fun d => String.eqb (get_season (month d)) season)
                        (df_dates df) (column df col) with
       | [] => []
       | g => [(season, series_mean backend g)]
       end)
    ["fall"; "spring"; "summer"; "winter"]%string.

(** [_compute_seasonal_patterns(col)]. *)
Definition _compute_seasonal_patterns (col : string) : option Seasonal :=
  let seasonal := seasonal_means col in
  match seasonal with
  | [] => None
  | _ :: _ =>
      Some {| summer := dict_get "summer" seasonal;
              winter := dict_get "winter" seasonal;
              spring := dict_get "spring" seasonal;
              fall := dict_get "fall" seasonal;
              seasonal_range := (series_max (map snd seasonal)
                                 - series_min (map snd seasonal))%float |}
  end.

(** The distinct years of the table in increasing order. *)
Fixpoint insert_year (y : Z) (l : list Z) : list Z :=
  match l with
  | [] => [y]
  | x :: l' =>
      if Z.ltb y x then y :: l
      else if Z.eqb y x then l
      else x :: insert_year y l'
  end.

Definition years_of (dates : list Date) : list Z :=
  fold_left (fun acc d => insert_year (year d) acc) dates [].

(** [groupby(date.dt.year)[col].mean()]. *)
Definition yearly_means (col : string) : list (Z * float) :=
  map (fun y =>
         (y, series_mean backend
               (rows_where (fun d => Z.eqb (year d) y) (df_dates df) (column df col))))
      (years_of (df_dates df)).

(** [_compute_yearly_comparisons(col)]. *)
Definition _compute_yearly_comparisons (col : string) : result (option Yearly) :=
  let yearly := yearly_means col in
  match yearly with
  | [] => Ok None
  | _ :: _ =>
      let mean_val := series_mean backend (map snd yearly) in
      let std_val := series_std backend (map snd yearly) in
      hi <- idxmax (map snd yearly) ;;
      lo <- idxmin (map snd yearly) ;;
      h <- loc hi yearly ;;
      l <- loc lo yearly ;;
      Ok (Some {| yearly_mean := mean_val;
                  yearly_std := std_val;
                  highest_year := fst h;
                  highest_value := snd h;
                  lowest_year := fst l;
                  lowest_value := snd l;
                  highest_zscore := if fgt std_val 0
                                    then ((snd h - mean_val) / std_val)%float
                                    else 0%float;
                  lowest_zscore := if fgt std_val 0
                                   then ((snd l - mean_val) / std_val)%float
                                   else 0%float |})
  end.

(** [next((c for c in supporting_cols if token in c.lower()), primary_col)]. *)
Definition resolve_col (token : string) (primary_col : string)
    (supporting_cols : list string) : string :=
  match find (fun c => contains token (lower c)) supporting_cols with
  | Some c => c
  | None => primary_col
  end.

(** One side of [_identify_extremes]: the row picked by [idxmax] or
    [idxmin] in the resolved column, when the table has that column. *)
Definition extreme_of (pick : list float -> result nat) (col : string)
    : result (option Extreme) :=
  if in_columns df col then
    idx <- pick (column df col) ;;
    v <- loc idx (column df col) ;;
    d <- loc idx (df_dates df) ;;
    Ok (Some {| value := v; date := d |})
  else Ok None.

(** [_identify_extremes(primary_col, supporting_cols)]. *)
Definition _identify_extremes (primary_col : string) (supporting_cols : list string)
    : result (option Extremes) :=
  let max_col := resolve_col "max" primary_col supporting_cols in
  hi <- extreme_of idxmax max_col ;;
  let min_col := resolve_col "min" primary_col supporting_cols in
  lo <- extreme_of idxmin min_col ;;
  let extremes := {| highest := hi; lowest := lo |} in
  Ok (if extremes_truthy extremes then Some extremes else None).

(** The body of the loop of [_analyze_optional_features]. *)
Definition feature_step (primary_col : string) (features : option RealFeel)
    (col : string) : option RealFeel :=
  if negb (in_columns df col) then features
  else
    let d := series_sub (column df col) (column df primary_col) in
    let diff := series_mean backend (map fabs d) in
    if fgt diff 5
    then Some {| avg_difference := diff;
                 is_negative := flt (series_mean backend d) 0 |}
    else features.

(** [_analyze_optional_features(primary_col, comparison_cols)]. *)
Definition _analyze_optional_features (primary_col : string)
    (comparison_cols : list string) : option RealFeel :=
  fold_left (feature_step primary_col) comparison_cols None.

(** Stable insertion by decreasing [r_squared]: the order
    [sort(key=..., reverse=True)] gives. *)
Fixpoint insert_desc (x : TrendingVar) (l : list TrendingVar) : list TrendingVar :=
  match l with
  | [] => [x]
  | y :: l' =>
      if flt (tv_r_squared y) (tv_r_squared x) then x :: l
      else y :: insert_desc x l'
  end.

Definition sort_desc (l : list TrendingVar) : list TrendingVar :=
  fold_left (fun acc x => insert_desc x acc) l [].

(** Pattern 1, the body of the loop over the groups. *)
Definition trending_step (results : dict Bundle) (trending_vars : list TrendingVar)
    (var_name : string) : list TrendingVar :=
  match dict_get var_name results with
  | Some b =>
      if fgt (r_squared (trend b)) 0.3
      then trending_vars ++ [{| name := var_name;
                                tv_r_squared := r_squared (trend b);
                                tv_direction := direction (trend b);
                                tv_slope := slope (trend b) |}]
      else trending_vars
  | None => trending_vars
  end.

(** Pattern 2, the body of the loop over the groups. *)
Definition variability_step (results : dict Bundle) (variability : dict float)
    (var_name : string) : dict float :=
  match dict_get var_name results with
  | Some b => dict_set var_name (coefficient_of_variation (summary b)) variability
  | None => variability
  end.

(** [max(items, key=lambda x: x[1])]: the first item no later item beats. *)
Definition max_by_value (items : dict float) : option (string * float) :=
  match items with
  | [] => None
  | first :: rest =>
      Some (fold_left (fun best item => if fgt (snd item) (snd best) then item else best)
                      rest first)
  end.

(** [var_name in results] while [results] holds the key [basic] and the
    analysed groups. *)
Definition in_results (results : dict Bundle) (var_name : string) : bool :=
  (String.eqb var_name "basic" || dict_mem var_name results)%bool.

(** The key of a pair in the [correlations] mapping. *)
Definition pair_key (a b : string) : string := (a ++ "_and_" ++ b)%string.

(** Pattern 3, the body of the inner loop: the pair of the groups at
    positions [i < j] of the schema. *)
Definition corr_pair (results : dict Bundle) (vi : string * GroupConfig)
    (correlations : dict Correlation) (vj : string * GroupConfig) : dict Correlation :=
  if (in_results results (fst vi) && in_results results (fst vj))%bool then
    let i_col := primary (snd vi) in
    let j_col := primary (snd vj) in
    if (in_columns df i_col && in_columns df j_col)%bool then
      let corr := series_corr backend (column df i_col) (column df j_col) in
      if fgt (fabs corr) 0.5
      then dict_set (pair_key (fst vi) (fst vj))
                    {| correlation := corr;
                       relationship := if flt corr 0 then "inverse"%string
                                       else "direct"%string |}
                    correlations
      else correlations
    else correlations
  else correlations.

(** Pattern 3, the two nested loops. *)
Fixpoint corr_loops (results : dict Bundle) (variables_list : list (string * GroupConfig))
    (correlations : dict Correlation) : dict Correlation :=
  match variables_list with
  | [] => correlations
  | vi :: rest =>
      corr_loops results rest (fold_left (corr_pair results vi) rest correlations)
  end.

(** [_detect_cross_variable_patterns(results)]. *)
Definition _detect_cross_variable_patterns (results : dict Bundle) : Patterns :=
  let trending_vars :=
    fold_left (trending_step results) (dict_keys variable_groups) [] in
  let variability :=
    fold_left (variability_step results) (dict_keys variable_groups) [] in
  {| strongest_trends :=
       match trending_vars with
       | [] => None
       | _ :: _ => Some (firstn 2 (sort_desc trending_vars))
       end;
     most_variable :=
       match max_by_value variability with
       | Some most_variable =>
           if fgt (snd most_variable) 0.5
           then Some {| variable := fst most_variable; cv := snd most_variable |}
           else None
       | None => None
       end;
     correlations := corr_loops results variable_groups [] |}.

(** The body of the loop of [analyze]: the seven sub-computations of a
    group, in the order the dictionary display evaluates them. *)
Definition analyze_group (results : dict Bundle) (group : string * GroupConfig)
    : result (dict Bundle) :=
  let '(group_name, group_config) := group in
  let primary_col := primary group_config in
  if in_columns df primary_col then
    let summary_ := _summarize_primary primary_col in
    let range_ := _compute_range (supporting group_config) in
    trend_ <- _detect_trend primary_col ;;
    let seasonal_ := _compute_seasonal_patterns primary_col in
    yearly_ <- _compute_yearly_comparisons primary_col ;;
    extremes_ <- _identify_extremes primary_col (supporting group_config) ;;
    let optional_ :=
      _analyze_optional_features (primary group_config) (comparison group_config) in
    Ok (dict_set group_name
                 {| summary := summary_;
                    range := range_;
                    trend := trend_;
                    seasonal := seasonal_;
                    yearly := yearly_;
                    extremes := extremes_;
                    optional_features := optional_ |}
                 results)
  else Ok results.

Fixpoint analyze_groups (groups : list (string * GroupConfig)) (results : dict Bundle)
    : result (dict Bundle) :=
  match groups with
  | [] => Ok results
  | g :: groups' =>
      results' <- analyze_group results g ;;
      analyze_groups groups' results'
  end.

(** [analyze()].  The code keeps [basic], the bundles and [patterns] in
    one dictionary.  [patterns] is computed from the dictionary that holds
    the bundles and is assigned last, so that it replaces the bundle of a
    group named [patterns]: the record keeps the other bundles.  It holds
    what the dictionary holds when no analysed group is named [basic],
    which is the case of the deployed schema; the bundle of a group of
    that name would replace the basic information. *)
Definition analyze : result Statistics :=
  let basic_ := _compute_basic_info in
  results <- analyze_groups variable_groups [] ;;
  Ok {| basic := basic_;
        groups := dict_remove "patterns" results;
        patterns := Some (_detect_cross_variable_patterns results) |}.

End Analyzer.

End DatasetAnalyzer.

(** ** Python values as the realizer sees them

    [template_realizer.py] treats a payload as an untyped dictionary: it
    copies it, tests keys, and hands it to [str.format].  [pyval] is the
    part of Python's values this needs; [PyOf] writes each record of
    [Stats] as the dictionary it stands for. *)

Module PyVal.

Inductive pyval : Type :=
| VNone
| VBool (b : bool)
| VInt (z : Z)
| VFloat (f : float)
| VStr (s : string)
| VDate (d : Date)
| VNaT
| VDict (d : list (string * pyval))
| VList (l : list pyval).

(** [data[key]]. *)
Definition getitem (data : pyval) (key : string) : result pyval :=
  match data with
  | VDict d => dict_item key d
  | VList _ => Raise (TypeError "list indices must be integers or slices, not str")
  | VStr _ => Raise (TypeError "string indices must be integers, not 'str'")
  | _ => Raise (TypeError "object is not subscriptable")
  end.

Definition is_str (s : string) (v : pyval) : bool :=
  match v with VStr s' => String.eqb s' s | _ => false end.

(** [key in data]. *)
Definition py_in (key : string) (data : pyval) : result bool :=
  match data with
  | VDict d => Ok (dict_mem key d)
  | VList l => Ok (existsb (is_str key) l)
  | VStr s => Ok (contains key s)
  | _ => Raise (TypeError "argument is not iterable")
  end.

(** Truth value. *)
Definition truthy (v : pyval) : bool :=
  match v with
  | VNone => false
  | VBool b => b
  | VInt z => negb (Z.eqb z 0)
  | VFloat f => fne f 0
  | VStr s => str_truthy s
  | VDate _ => true
  | VNaT => true
  | VDict d => match d with [] => false | _ :: _ => true end
  | VList l => match l with [] => false | _ :: _ => true end
  end.

(** A value used as a number; arithmetic and ordering on anything else
    raise [TypeError]. *)
Definition as_float (v : pyval) : result float :=
  match v with
  | VFloat f => Ok f
  | VInt z => float_of_int z
  | VBool b => Ok (if b then 1%float else 0%float)
  | _ => Raise (TypeError "unsupported operand type")
  end.

(** The bound method [v.get]: only a dictionary has one.  Python looks
    the method up before it evaluates the arguments of the call. *)
Definition get_method (v : pyval) : result (dict pyval) :=
  match v with
  | VDict d => Ok d
  | _ => Raise (AttributeError "object has no attribute 'get'")
  end.

(** [d.get(key, default)]. *)
Definition get_default (d : dict pyval) (key : string) (default : pyval) : pyval :=
  match dict_get key d with
  | Some x => x
  | None => default
  end.

End PyVal.

Export PyVal.

Module PyOf.

Definition opt {A : Type} (f : A -> pyval) (o : option A) : pyval :=
  match o with Some a => f a | None => VNone end.

(** The entries of a dictionary whose keys are set conditionally. *)
Definition entry {A : Type} (key : string) (f : A -> pyval) (o : option A)
    : list (string * pyval) :=
  match o with Some a => [(key, f a)] | None => [] end.

Definition of_date (o : option Date) : pyval :=
  match o with Some d => VDate d | None => VNaT end.

Definition of_basic (b : BasicInfo) : pyval :=
  VDict [("start_date"%string, of_date (start_date b));
         ("end_date"%string, of_date (end_date b));
         ("n_records"%string, VInt (n_records b));
         ("station"%string, VStr (station b))].

Definition of_summary (s : Summary) : pyval :=
  VDict [("mean"%string, VFloat (summary_mean s));
         ("std"%string, VFloat (summary_std s));
         ("min"%string, VFloat (summary_min s));
         ("max"%string, VFloat (summary_max s));
         ("coefficient_of_variation"%string, VFloat (coefficient_of_variation s))].

Definition of_range (r : RangeInfo) : pyval :=
  VDict (entry "absolute_min" VFloat (absolute_min r)
         ++ entry "absolute_max" VFloat (absolute_max r)).

Definition of_trend (t : Trend) : pyval :=
  VDict [("slope"%string, VFloat (slope t));
         ("r_value"%string, VFloat (r_value t));
         ("r_squared"%string, VFloat (r_squared t));
         ("p_value"%string, VFloat (p_value t));
         ("direction"%string, VStr (direction t))].

Definition of_seasonal (s : Seasonal) : pyval :=
  VDict [("summer"%string, opt VFloat (summer s));
         ("winter"%string, opt VFloat (winter s));
         ("spring"%string, opt VFloat (spring s));
         ("fall"%string, opt VFloat (fall s));
         ("range"%string, VFloat (seasonal_range s))].

Definition of_yearly (y : Yearly) : pyval :=
  VDict [("yearly_mean"%string, VFloat (yearly_mean y));
         ("yearly_std"%string, VFloat (yearly_std y));
         ("highest_year"%string, VInt (highest_year y));
         ("highest_value"%string, VFloat (highest_value y));
         ("lowest_year"%string, VInt (lowest_year y));
         ("lowest_value"%string, VFloat (lowest_value y));
         ("highest_zscore"%string, VFloat (highest_zscore y));
         ("lowest_zscore"%string, VFloat (lowest_zscore y))].

Definition of_extreme (e : Extreme) : pyval :=
  VDict [("value"%string, VFloat (value e)); ("date"%string, VDate (date e))].

Definition of_extremes (e : Extremes) : pyval :=
  VDict (entry "highest" of_extreme (highest e) ++ entry "lowest" of_extreme (lowest e)).

Definition of_real_feel (r : RealFeel) : pyval :=
  VDict [("real_feel_diff"%string,
          VDict [("avg_difference"%string, VFloat (avg_difference r));
                 ("is_negative"%string, VBool (is_negative r))])].

Definition of_bundle (b : Bundle) : pyval :=
  VDict [("summary"%string, of_summary (summary b));
         ("range"%string, opt of_range (range b));
         ("trend"%string, of_trend (trend b));
         ("seasonal"%string, opt of_seasonal (seasonal b));
         ("yearly"%string, opt of_yearly (yearly b));
         ("extremes"%string, opt of_extremes (extremes b));
         ("optional_features"%string, opt of_real_feel (optional_features b))].

Definition of_trending (t : TrendingVar) : pyval :=
  VDict [("name"%string, VStr (name t));
         ("r_squared"%string, VFloat (tv_r_squared t));
         ("direction"%string, VStr (tv_direction t));
         ("slope"%string, VFloat (tv_slope t))].

Definition of_max_corr (m : option ContentPlanner.MaxCorr) : pyval :=
  match m with
  | None => VDict []
  | Some c =>
      VDict [("variables"%string, VStr (ContentPlanner.variables c));
             ("correlation"%string, VFloat (ContentPlanner.mc_correlation c));
             ("relationship"%string, VStr (ContentPlanner.mc_relationship c))]
  end.

(** The payload of a fact as the object the planner appended.  A pair
    [(name, bundle)] of [other_conditions] is written as a two-element
    list. *)
Definition of_payload (p : ContentPlanner.Payload) : pyval :=
  match p with
  | ContentPlanner.PBasic b => of_basic b
  | ContentPlanner.PBundle b => of_bundle b
  | ContentPlanner.PTrend t => of_trend t
  | ContentPlanner.PSeasonal s => of_seasonal s
  | ContentPlanner.PYearly y => of_yearly y
  | ContentPlanner.PExtremes e => of_extremes e
  | ContentPlanner.PSecondary l =>
      VList (map (fun nb => VList [VStr (fst nb); of_bundle (snd nb)]) l)
  | ContentPlanner.PTrends l => VList (map of_trending l)
  | ContentPlanner.PCorrelation m => of_max_corr m
  end.

End PyOf.

(** ** [template_realizer.py]: facts to sentences *)

Module TemplateRealizer.

(** A parsed replacement field [{name:spec}] or the text between two
    fields. *)
Inductive piece : Type :=
| Lit (text : string)
| Field (name spec : string).

Inductive scan_mode : Type :=
| InLit (acc : string)
| InName (acc : string)
| InSpec (name acc : string).

Definition snoc (s : string) (c : ascii) : string := (s ++ String c EmptyString)%string.

Definition flush (acc : string) : list piece :=
  match acc with EmptyString => [] | _ => [Lit acc] end.

(** The fields of a format string.  The templates of the registry use
    [{name}] and [{name:spec}] only: no doubled brace, no conversion, no
    attribute or index. *)
Fixpoint parse_template (s : string) (m : scan_mode) : list piece :=
  match s with
  | EmptyString =>
      match m with
      | InLit acc => flush acc
      | _ => []
      end
  | String c s' =>
      match m with
      | InLit acc =>
          if Ascii.eqb c "{" then flush acc ++ parse_template s' (InName EmptyString)
          else parse_template s' (InLit (snoc acc c))
      | InName acc =>
          if Ascii.eqb c "}" then Field acc EmptyString :: parse_template s' (InLit EmptyString)
          else if Ascii.eqb c ":" then parse_template s' (InSpec acc EmptyString)
          else parse_template s' (InName (snoc acc c))
      | InSpec name acc =>
          if Ascii.eqb c "}" then Field name acc :: parse_template s' (InLit EmptyString)
          else parse_template s' (InSpec name (snoc acc c))
      end
  end.

(** What a call can observe and change besides its result: the draws of
    the random generator still to come, and the lines printed so far. *)
Record World : Type := mkWorld {
  draws : list nat;
  printed : list string
}.

(** [random.choice(seq)] on a non-empty sequence: the next draw picks the
    position. *)
Definition random_choice (seq : list string) (w : World) : string * World :=
  match draws w with
  | [] => (nth 0 seq EmptyString, w)
  | n :: rest =>
      (nth (n mod List.length seq) seq EmptyString,
       {| draws := rest; printed := printed w |})
  end.

Definition print (line : string) (w : World) : World :=
  {| draws := draws w; printed := printed w ++ [line] |}.

(** [_initialize_templates()]. *)
Definition templates : dict (list string) :=
  [("overview",
    ["This analysis covers daily weather observations from {station}, spanning {start_date} to {end_date}."]);
   ("temperature_summary",
    ["Temperatures averaged {mean:.1f}°C, ranging from {absolute_min:.1f}°C to {absolute_max:.1f}°C.";
     "Over this period, temperatures ranged from {absolute_min:.1f}°C to {absolute_max:.1f}°C, with a mean of {mean:.1f}°C."]);
   ("temperature_trend",
    ["Temperature {trend_desc} over the study period."]);
   ("temperature_seasonal",
    ["Seasonally, summer months averaged {summer:.1f}°C while winter months averaged {winter:.1f}°C, showing a {range:.1f}°C seasonal variation."]);
   ("temperature_yearly",
    ["{highest_year} was the warmest year at {highest_value:.1f}°C, while {lowest_year} was the coolest at {lowest_value:.1f}°C."]);
   ("temperature_extremes",
    ["The hottest temperature recorded was {highest_value:.1f}°C on {highest_date}, and the coldest was {lowest_value:.1f}°C on {lowest_date}."]);
   ("precipitation_summary",
    ["Precipitation totaled {total:.1f} mm over the period, averaging {annual_avg:.1f} mm annually.";
     "Annual precipitation averaged {annual_avg:.1f} mm, with a total of {total:.1f} mm recorded."]);
   ("precipitation_trend",
    ["Precipitation {trend_desc} over time."]);
   ("precipitation_extremes",
    ["The heaviest single-day precipitation was {highest_value:.2f} mm on {highest_date}."]);
   ("other_conditions_combined",
    ["Other conditions included {conditions_desc}."]);
   ("pattern_trends_multi",
    ["Notably, {var1} and {var2} both showed strong trends over the period."]);
   ("pattern_correlation",
    ["The variables {vars} were the strongest correlated, having a {relationship} relationship."])
  ]%string.

Section Realizer.

(** Python's [format(value, spec)], which [str.format] applies to each
    field. *)
Variable format_value : pyval -> string -> result string.

(** [template.format] with the entries of [formatted_data] as keywords,
    on the parsed template: the first field without a key raises
    [KeyError]. *)
Fixpoint format_pieces (ps : list piece) (formatted_data : dict pyval) : result string :=
  match ps with
  | [] => Ok EmptyString
  | Lit text :: ps' =>
      rest <- format_pieces ps' formatted_data ;;
      Ok (text ++ rest)%string
  | Field name spec :: ps' =>
      v <- dict_item name formatted_data ;;
      s <- format_value v spec ;;
      rest <- format_pieces ps' formatted_data ;;
      Ok (s ++ rest)%string
  end.

Definition str_format (template : string) (formatted_data : dict pyval) : result string :=
  format_pieces (parse_template template (InLit EmptyString)) formatted_data.

(** [self.lexicalizer.format_date(value)]: [value.strftime(...)]. *)
Definition format_date (v : pyval) : result pyval :=
  match v with
  | VDate d => Ok (VStr (Lexicalizer.format_date d))
  | VNaT => Raise (ValueError "NaTType does not support strftime")
  | _ => Raise (AttributeError "object has no attribute 'strftime'")
  end.

(** [self.lexicalizer.describe_trend(slope, r_squared, var_type)] on
    untyped arguments.  [r_squared < 0.2] is evaluated first and raises
    [TypeError] on a value that is not a number; [slope] is looked at only
    when that test fails, so below 0.2 the answer does not depend on it. *)
Definition describe_trend (slope r_squared : pyval) (var_type : string) : result pyval :=
  r <- as_float r_squared ;;
  if flt r 0.2 then Ok (VStr "remained relatively stable")
  else
    s <- as_float slope ;;
    Ok (VStr (Lexicalizer.describe_trend s r var_type)).

(** The date rewriting at the head of [_prepare_data]. *)
Definition prepare_date (key : string) (formatted : dict pyval) : result (dict pyval) :=
  match dict_get key formatted with
  | Some v =>
      s <- format_date v ;;
      Ok (dict_set key s formatted)
  | None => Ok formatted
  end.

(** The branch [fact_type == 'temperature_summary']. *)
Definition prepare_temperature_summary (data : pyval) (formatted : dict pyval)
    : result (dict pyval) :=
  has_range <- py_in "range" data ;;
  use_range <- (if has_range then r <- getitem data "range" ;; Ok (truthy r)
                else Ok false) ;;
  formatted <-
    (if use_range then
       r <- getitem data "range" ;;
       get <- get_method r ;;
       s <- getitem data "summary" ;;
       smin <- getitem s "min" ;;
       let formatted := dict_set "absolute_min" (get_default get "absolute_min" smin)
                                 formatted in
       r <- getitem data "range" ;;
       get <- get_method r ;;
       s <- getitem data "summary" ;;
       smax <- getitem s "max" ;;
       Ok (dict_set "absolute_max" (get_default get "absolute_max" smax) formatted)
     else
       s <- getitem data "summary" ;;
       smin <- getitem s "min" ;;
       let formatted := dict_set "absolute_min" smin formatted in
       s <- getitem data "summary" ;;
       smax <- getitem s "max" ;;
       Ok (dict_set "absolute_max" smax formatted)) ;;
  s <- getitem data "summary" ;;
  m <- getitem s "mean" ;;
  Ok (dict_set "mean" m formatted).

(** The branches [fact_type == '..._trend']. *)
Definition prepare_trend (var_type : string) (data : pyval) (formatted : dict pyval)
    : result (dict pyval) :=
  sl <- getitem data "slope" ;;
  r2 <- getitem data "r_squared" ;;
  desc <- describe_trend sl r2 var_type ;;
  Ok (dict_set "trend_desc" desc formatted).

(** The branch [fact_type == 'precipitation_summary']. *)
Definition prepare_precipitation_summary (data : pyval) (formatted : dict pyval)
    : result (dict pyval) :=
  s <- getitem data "summary" ;;
  m <- getitem s "mean" ;;
  mean <- as_float m ;;
  n <- as_float (match dict_get "n_records" formatted with
                 | Some v => v
                 | None => VInt 1826
                 end) ;;
  let formatted := dict_set "total" (VFloat (mean * n)%float) formatted in
  s <- getitem data "summary" ;;
  m <- getitem s "mean" ;;
  mean <- as_float m ;;
  Ok (dict_set "annual_avg" (VFloat (mean * 365.25)%float) formatted).

(** One side of the branch ['extremes' in fact_type]. *)
Definition prepare_extreme (side : string) (data : pyval) (formatted : dict pyval)
    : result (dict pyval) :=
  present <- py_in side data ;;
  if present then
    e <- getitem data side ;;
    v <- getitem e "value" ;;
    let formatted := dict_set (side ++ "_value")%string v formatted in
    e <- getitem data side ;;
    d <- getitem e "date" ;;
    s <- format_date d ;;
    Ok (dict_set (side ++ "_date")%string s formatted)
  else Ok formatted.

(** The branch [fact_type == 'pattern_correlation']. *)
Definition prepare_pattern_correlation (data : pyval) (formatted : dict pyval)
    : result (dict pyval) :=
  corr <- getitem data "correlation" ;;
  rel <- getitem data "relationship" ;;
  let formatted :=
    dict_set "relationship"
             (VStr (if is_str "inverse" rel then "inverse" else "positive")) formatted in
  vars <- getitem data "variables" ;;
  match vars with
  | VStr s => Ok (dict_set "vars" (VStr (replace_char "_" " " s)) formatted)
  | _ => Raise (AttributeError "object has no attribute 'replace'")
  end.

(** [_prepare_data(fact_type, data)]. *)
Definition _prepare_data (fact_type : string) (data : pyval) : result (dict pyval) :=
  let formatted := match data with VDict d => d | _ => [] end in
  formatted <- prepare_date "start_date" formatted ;;
  formatted <- prepare_date "end_date" formatted ;;
  formatted <-
    (if String.eqb fact_type "temperature_summary"
     then prepare_temperature_summary data formatted else Ok formatted) ;;
  formatted <-
    (if String.eqb fact_type "temperature_trend"
     then prepare_trend "temperature" data formatted else Ok formatted) ;;
  formatted <-
    (if String.eqb fact_type "precipitation_summary"
     then prepare_precipitation_summary data formatted else Ok formatted) ;;
  formatted <-
    (if String.eqb fact_type "precipitation_trend"
     then prepare_trend "precipitation" data formatted else Ok formatted) ;;
  formatted <-
    (if contains "extremes" fact_type then
       formatted <- prepare_extreme "highest" data formatted ;;
       prepare_extreme "lowest" data formatted
     else Ok formatted) ;;
  formatted <-
    (if String.eqb fact_type "pattern_correlation"
     then prepare_pattern_correlation data formatted else Ok formatted) ;;
  Ok formatted.

(** The warning [realize] prints when [format] raises [KeyError]. *)
Definition missing_key_warning (key fact_type : string) : string :=
  ("Warning: Missing key '" ++ key ++ "' for template " ++ fact_type)%string.

(** [realize(fact_type, data)]: only the [KeyError] of [format] is caught. *)
Definition realize (fact_type : string) (data : pyval) (w : World)
    : result (string * World) :=
  match dict_get fact_type templates with
  | None => Ok (EmptyString, w)
  | Some choices =>
      let '(template, w) := random_choice choices w in
      formatted_data <- _prepare_data fact_type data ;;
      match str_format template formatted_data with
      | Ok text => Ok (text, w)
      | Raise (KeyError key) => Ok (EmptyString, print (missing_key_warning key fact_type) w)
      | Raise e => Raise e
      end
  end.

(** The description of one secondary variable. *)
Definition describe_condition (var_name : string) (var_data : Bundle) : result string :=
  mean_val <- format_value (VFloat (summary_mean (summary var_data))) ".1f" ;;
  if String.eqb var_name "wind_speed"
  then Ok ("wind speed averaging " ++ mean_val ++ " kmh")%string
  else if String.eqb var_name "rain"
  then Ok ("rain averaging " ++ mean_val ++ " mm")%string
  else if String.eqb var_name "snow"
  then Ok ("snow averaging " ++ mean_val ++ " cm")%string
  else if String.eqb var_name "relative_humidity"
  then Ok ("relative humidity averaging " ++ mean_val ++ "%")%string
  else Ok (replace_char "_" " " var_name ++ " averaging " ++ mean_val)%string.

Fixpoint describe_conditions (secondary_vars : list (string * Bundle))
    : result (list string) :=
  match secondary_vars with
  | [] => Ok []
  | (var_name, var_data) :: rest =>
      desc <- describe_condition var_name var_data ;;
      descriptions <- describe_conditions rest ;;
      Ok (desc :: descriptions)
  end.

(** [realize_combined_conditions(secondary_vars)]. *)
Definition realize_combined_conditions (secondary_vars : list (string * Bundle))
    : result string :=
  descriptions <- describe_conditions secondary_vars ;;
  match descriptions with
  | [d0] => Ok ("Other conditions included " ++ d0 ++ ".")%string
  | [d0; d1] => Ok ("Other conditions included " ++ d0 ++ " and " ++ d1 ++ ".")%string
  | [] => Raise (IndexError "list index out of range")
  | _ =>
      Ok ("Other conditions included " ++ join ", " (removelast descriptions)
          ++ ", and " ++ last descriptions EmptyString ++ ".")%string
  end.

End Realizer.

End TemplateRealizer.

(** ** [summarizer.py]: the pipeline *)

Module Summarizer.

Import DatasetAnalyzer ContentPlanner TemplateRealizer.

(** [self.variable_groups] of [Summarizer.__init__]. *)
Definition variable_groups : dict GroupConfig :=
  [("temperature",
    {| primary := "temperature_2m_mean (°C)";
       supporting := ["temperature_2m_min (°C)"; "temperature_2m_max (°C)"];
       comparison := ["apparent_temperature_mean (°C)"] |});
   ("precipitation",
    {| primary := "precipitation_sum (mm)"; supporting := []; comparison := [] |});
   ("rain",
    {| primary := "rain_sum (mm)"; supporting := []; comparison := [] |});
   ("snow",
    {| primary := "snowfall_sum (cm)"; supporting := []; comparison := [] |});
   ("precipitation_hours",
    {| primary := "precipitation_hours (h)"; supporting := []; comparison := [] |});
   ("wind_speed",
    {| primary := "wind_speed_10m_mean (km/h)";
       supporting := ["wind_speed_10m_min (km/h)"; "wind_speed_10m_max (km/h)"];
       comparison := ["wind_gusts_10m_mean (km/h)"] |});
   ("relative_humidity",
    {| primary := "relative_humidity_2m_mean (%)";
       supporting := ["relative_humidity_2m_min (%)"; "relative_humidity_2m_max (%)"];
       comparison := [] |});
   ("sunshine_duration",
    {| primary := "sunshine_duration (s)"; supporting := []; comparison := [] |})
  ]%string.

Section Pipeline.

Variable backend : Backend.
Variable format_value : pyval -> string -> result string.

(** The body of the loop of [generate_summary]: the sentence of one fact. *)
Definition render_fact (fact : Fact) (w : World) : result (string * World) :=
  let '(fact_type, data) := fact in
  if String.eqb fact_type "other_conditions" then
    match data with
    | PSecondary secondary_vars =>
        sentence <- realize_combined_conditions format_value secondary_vars ;;
        Ok (sentence, w)
    | _ => Raise (TypeError "cannot unpack non-iterable object")
    end
  else realize format_value fact_type (PyOf.of_payload data) w.

(** The loop of [generate_summary]: the non-empty sentences, in order. *)
Fixpoint render_all (content : list Fact) (sentences : list string) (w : World)
    : result (list string * World) :=
  match content with
  | [] => Ok (sentences, w)
  | fact :: rest =>
      sw <- render_fact fact w ;;
      let '(sentence, w) := sw in
      render_all rest
                 (if str_truthy sentence then sentences ++ [sentence] else sentences) w
  end.

(** The text generation of [generate_summary], from the planned content. *)
Definition summarize_content (content : list Fact) (w : World) : result (string * World) :=
  sw <- render_all content [] w ;;
  let '(sentences, w) := sw in
  Ok (join " " sentences, w).

(** [generate_summary()] on the table [_load_data] returned. *)
Definition generate_summary (config : Config) (df : DataFrame) (station_name : string)
    (w : World) : result (string * World) :=
  stats <- analyze backend df station_name variable_groups ;;
  let content := select_content config stats in
  summarize_content content w.

End Pipeline.

End Summarizer.

(** ** Instances of the libraries, to run the model

    Plain textbook versions of what the code asks of pandas, scipy and
    [format], on which the model can be evaluated.  The proofs of Part II
    hold for every [Backend] and every [format_value]. *)

Module Reference.

Definition fsum (l : list float) : float := fold_left (fun a x => (a + x)%float) l 0%float.

Definition flen (l : list float) : float := float_of_Z (Z.of_nat (List.length l)).

(** [numpy.mean]: NaN on an empty array, and NaN as soon as a cell is. *)
Definition plain_mean (l : list float) : float := (fsum l / flen l)%float.

(** The cells that the reductions of pandas look at: a NaN is skipped. *)
Definition numbers (l : list float) : list float :=
  filter (fun x => negb (isnan x)) l.

(** [Series.mean()]: the mean of the numbers, NaN when there is none. *)
Definition ref_mean (l : list float) : float := plain_mean (numbers l).

Definition sq_dev (m : float) (l : list float) : float :=
  fsum (map (fun x => ((x - m) * (x - m))%float) l).

(** [Series.std()], the sample deviation of the numbers: NaN on fewer
    than two of them. *)
Definition ref_std (l : list float) : float :=
  match numbers l with
  | [] | [_] => nan
  | ns => sqrt (sq_dev (plain_mean ns) ns / (flen ns - 1))%float
  end.

Fixpoint co_dev (mx my : float) (xs ys : list float) : float :=
  match xs, ys with
  | x :: xs', y :: ys' => ((x - mx) * (y - my) + co_dev mx my xs' ys')%float
  | _, _ => 0%float
  end.

(** Pearson's formula on two columns of numbers. *)
Definition pearson (xs ys : list float) : float :=
  (co_dev (plain_mean xs) (plain_mean ys) xs ys
   / sqrt (sq_dev (plain_mean xs) xs * sq_dev (plain_mean ys) ys))%float.

(** The rows in which both columns hold a number. *)
Definition valid_pairs (xs ys : list float) : list (float * float) :=
  filter (fun p => (negb (isnan (fst p)) && negb (isnan (snd p)))%bool) (combine xs ys).

(** The result of a correlation is kept within [-1, 1]. *)
Definition clip_unit (r : float) : float :=
  if fgt r 1 then 1%float else if flt r (-1) then (-1)%float else r.

(** [Series.corr], Pearson, over the rows where both columns hold a
    number: NaN when a column is constant. *)
Definition ref_corr (xs ys : list float) : float :=
  let ps := valid_pairs xs ys in
  clip_unit (pearson (map fst ps) (map snd ps)).

Definition all_equal (l : list float) : bool :=
  match l with
  | [] => true
  | x :: l' => forallb (fun y => feq y x) l'
  end.

(** [scipy.stats.linregress(x, y)]: it refuses empty inputs and inputs
    whose [x] values are all identical; when a variance is 0, [r] is NaN
    if the covariance is 0 as well and 0 otherwise.  The two-sided
    p-value of the t statistic is left to [pvalue_of], and the standard
    error, which the code does not read, is not computed. *)
Definition ref_linregress (pvalue_of : float -> nat -> float) (x y : list float)
    : result LinregressResult :=
  match x, y with
  | [], _ | _, [] => Raise (ValueError "Inputs must not be empty.")
  | _, _ =>
      if (all_equal x && Nat.ltb 1 (List.length x))%bool
      then Raise (ValueError
                    "Cannot calculate a linear regression if all x values are identical")
      else
        let mx := plain_mean x in
        let my := plain_mean y in
        let ssxm := (sq_dev mx x / flen x)%float in
        let ssym := (sq_dev my y / flen y)%float in
        let ssxym := (co_dev mx my x y / flen x)%float in
        let r := if (feq ssxm 0 || feq ssym 0)%bool
                 then (if feq ssxym 0 then nan else 0%float)
                 else clip_unit (ssxym / sqrt (ssxm * ssym))%float in
        let slope := (ssxym / ssxm)%float in
        Ok {| lr_slope := slope;
              lr_intercept := (my - slope * mx)%float;
              lr_rvalue := r;
              lr_pvalue := pvalue_of r (List.length x);
              lr_stderr := 0%float |}
  end.

(** [x ** n] by repeated multiplication: the square is the correctly
    rounded product of [x] with itself, from which the [pow] of a C
    library can differ in the last place. *)
Definition ref_pow (x : float) (n : Z) : float :=
  match n with
  | Z0 => 1%float
  | Zpos p => Pos.iter (fun a => (a * x)%float) 1%float p
  | Zneg p => (1 / Pos.iter (fun a => (a * x)%float) 1%float p)%float
  end.

Definition ref_backend (pvalue_of : float -> nat -> float) : Backend :=
  {| series_mean := ref_mean;
     series_std := ref_std;
     series_corr := ref_corr;
     linregress := ref_linregress pvalue_of;
     float_pow := ref_pow |}.

(** Round [num / den] to the nearest integer, ties to even. *)
Definition round_half_even (num den : Z) : Z :=
  let q := (num / den)%Z in
  let r := (num mod den)%Z in
  if Z.ltb (2 * r) den then q
  else if Z.ltb den (2 * r) then (q + 1)%Z
  else if Z.even q then q else (q + 1)%Z.

Fixpoint zeros (n : nat) : string :=
  match n with O => EmptyString | S n' => String "0" (zeros n') end.

(** The decimal digits of [q] with a point before the last [p] of them. *)
Definition fixed_digits (q : Z) (p : nat) : string :=
  let s := str_of_Z q in
  let s := (zeros (S p - String.length s) ++ s)%string in
  let k := (String.length s - p)%nat in
  match p with
  | O => s
  | _ => (substring 0 k s ++ "." ++ substring k p s)%string
  end.

(** [format(f, '.pf')]: the exact binary value, correctly rounded. *)
Definition format_fixed (f : float) (p : nat) : string :=
  match Prim2SF f with
  | S754_nan => "nan"%string
  | S754_infinity s => if s then "-inf"%string else "inf"%string
  | S754_zero s => ((if s then "-" else "") ++ fixed_digits 0 p)%string
  | S754_finite s m e =>
      let scaled := (Z.pos m * 10 ^ Z.of_nat p)%Z in
      let q := if Z.leb 0 e then (scaled * 2 ^ e)%Z
               else round_half_even scaled (2 ^ (- e)) in
      ((if s then "-" else "") ++ fixed_digits q p)%string
  end.

Definition iso_date (d : Date) : string :=
  (str_of_Z (year d) ++ "-" ++ two_digits (month d) ++ "-" ++ two_digits (day d))%string.

(** The precision of the two float specifications the templates use. *)
Definition fixed_spec (spec : string) : option nat :=
  if String.eqb spec ".1f" then Some 1%nat
  else if String.eqb spec ".2f" then Some 2%nat
  else None.

(** [format(value, spec)] for the values and specifications that occur
    in the templates; a float without specification is not covered. *)
Definition ref_format_value (v : pyval) (spec : string) : result string :=
  match v, fixed_spec spec with
  | VFloat f, Some p => Ok (format_fixed f p)
  | VInt z, Some p => f <- float_of_int z ;; Ok (format_fixed f p)
  | VBool b, Some p => Ok (format_fixed (if b then 1 else 0) p)
  | VStr _, Some _ => Raise (ValueError "Unknown format code 'f' for object of type 'str'")
  | _, Some _ => Raise (TypeError "unsupported format string passed to __format__")
  | VStr s, None => Ok s
  | VInt z, None => Ok (str_of_Z z)
  | VBool b, None => Ok (if b then "True" else "False")%string
  | VNone, None => Ok "None"%string
  | VNaT, None => Ok "NaT"%string
  | VDate d, None => Ok (iso_date d)
  | _, None => Raise (ValueError "not covered by this instance")
  end.

End Reference.

(** ** Definitions used to state the properties *)

(** An order-preserving key for the numbers among the floats: ordering
    two floats is ordering their keys lexicographically, and NaN has no
    key. *)

Module FloatOrder.

Definition key : Type := (Z * Z * Z)%type.

Definition sf_rank (x : spec_float) : option key :=
  match x with
  | S754_nan => None
  | S754_zero _ => Some (0, 0, 0)%Z
  | S754_infinity s => Some (if s then (-2)%Z else 2%Z, 0%Z, 0%Z)
  | S754_finite s m e =>
      if s then Some ((-1)%Z, (- e)%Z, Z.neg m) else Some (1%Z, e, Z.pos m)
  end.

Definition rank (x : float) : option key := sf_rank (Prim2SF x).

Definition key_lt (a b : key) : Prop :=
  let '(a1, a2, a3) := a in
  let '(b1, b2, b3) := b in
  (a1 < b1 \/ (a1 = b1 /\ (a2 < b2 \/ (a2 = b2 /\ a3 < b3))))%Z.

Definition key_cmp (a b : key) : comparison :=
  let '(a1, a2, a3) := a in
  let '(b1, b2, b3) := b in
  match (a1 ?= b1)%Z with
  | Eq => match (a2 ?= b2)%Z with
          | Eq => (a3 ?= b3)%Z
          | c => c
          end
  | c => c
  end.

End FloatOrder.

(** The wording of a trend as the specification lays it out: a strength
    tier picked from the magnitude by two thresholds, and a direction
    word picked by the sign of the slope. *)

Module Wording.

Definition tier (strong_above moderate_above : float) (strong moderate slight : string)
    (magnitude : float) : string :=
  if fgt magnitude strong_above then strong
  else if fgt magnitude moderate_above then moderate
  else slight.

Definition direction_word (positive otherwise : string) (slope : float) : string :=
  if fgt slope 0 then positive else otherwise.

End Wording.

(** The planner's output for a primary variable as the specification
    lays it out: the summary always, then the trend, seasonal, yearly and
    extremes facts, each under its own condition. *)

Module Planned.

Import ContentPlanner.

Definition when {A : Type} (c : bool) (x : A) : list A := if c then [x] else [].

Definition primary_facts (config : Config) (stats : Statistics) (g : string) : list Fact :=
  match dict_get g (groups stats) with
  | None => []
  | Some b =>
      [((g ++ "_summary")%string, PBundle b)]
      ++ when (fge (r_squared (trend b)) (r2_threshold config)
               && flt (p_value (trend b)) (p_value_threshold config))
              ((g ++ "_trend")%string, PTrend (trend b))
      ++ match seasonal b with
         | Some s => [((g ++ "_seasonal")%string, PSeasonal s)]
         | None => []
         end
      ++ match yearly b with
         | Some y =>
             when (fge (fabs (highest_zscore y)) (extreme_threshold config)
                   || fge (fabs (lowest_zscore y)) (extreme_threshold config))
                  ((g ++ "_yearly")%string, PYearly y)
         | None => []
         end
      ++ match extremes b with
         | Some e => when (extremes_truthy e) ((g ++ "_extremes")%string, PExtremes e)
         | None => []
         end
  end.

(** The facts that follow the primary variables: the notable secondary
    variables bundled in one [other_conditions] fact, then the pattern
    facts. *)
Definition cross_facts (config : Config) (stats : Statistics) : list Fact :=
  match fold_left (secondary_step config stats) secondary_var_names [] with
  | [] => []
  | sv :: svs => [("other_conditions"%string, PSecondary (sv :: svs))]
  end
  ++ match patterns stats with
     | None => []
     | Some p =>
         match strongest_trends p with
         | Some (t :: ts) => [("pattern_trends"%string, PTrends (t :: ts))]
         | _ => []
         end
         ++ [("pattern_correlation"%string,
              PCorrelation (snd (fold_left corr_step (correlations p) (0%float, None))))]
     end.

(** The kinds of the facts that follow the primary variables. *)
Definition is_cross_kind (kind : string) : bool :=
  (String.eqb kind "other_conditions" || String.eqb kind "pattern_trends"
   || String.eqb kind "pattern_correlation")%bool.

Definition has_suffix (suffix s : string) : bool :=
  (Nat.leb (String.length suffix) (String.length s)
   && String.eqb (substring (String.length s - String.length suffix)
                            (String.length suffix) s) suffix)%bool.

(** The number of facts whose kind ends in [suffix]: ["_trend"] for the
    trend facts, ["_yearly"] for the yearly comparisons. *)
Definition count_kind (suffix : string) (content : list Fact) : nat :=
  List.length (filter (fun f => has_suffix suffix (fst f)) content).

(** Whether the planner reports the trend, and the yearly comparison, of
    a group. *)
Definition reports_trend (config : Config) (stats : Statistics) (g : string) : bool :=
  match dict_get g (groups stats) with
  | Some b => _is_trend_significant config (Some (trend b))
  | None => false
  end.

Definition reports_yearly (config : Config) (stats : Statistics) (g : string) : bool :=
  match dict_get g (groups stats) with
  | Some b => _is_yearly_comparison_notable config (yearly b)
  | None => false
  end.

End Planned.

(** What it is for a row to hold the extreme value of a column, and for a
    column to be the one an extreme is looked up in. *)

Module Extremum.

Import FloatOrder.

(** [v], at position [i], is the greatest number of [col], and no earlier
    position holds a value equal to it. *)
Definition first_maximum (col : list float) (i : nat) (v : float) : Prop :=
  nth_error col i = Some v
  /\ isnan v = false
  /\ (forall u, In u col -> isnan u = false -> fle u v = true)
  /\ (forall j u, j < i -> nth_error col j = Some u -> feq u v = false).

(** The same for the least number. *)
Definition first_minimum (col : list float) (i : nat) (v : float) : Prop :=
  nth_error col i = Some v
  /\ isnan v = false
  /\ (forall u, In u col -> isnan u = false -> fle v u = true)
  /\ (forall j u, j < i -> nth_error col j = Some u -> feq u v = false).

(** [c] is the first supporting column whose lower-cased name contains
    [token], or the primary column when there is none. *)
Definition resolves_to (token primary_col : string) (supporting_cols : list string)
    (c : string) : Prop :=
  (exists before after,
      supporting_cols = before ++ c :: after
      /\ contains token (lower c) = true
      /\ forall x, In x before -> contains token (lower x) = false)
  \/ (c = primary_col
      /\ forall x, In x supporting_cols -> contains token (lower x) = false).

(** The state of the scan behind [idxmax] and [idxmin] after the cells
    [seen], for an order [lt] on keys in which the scan looks for the
    greatest: the kept cell is at its position, nothing seen beats it, and
    everything before it is strictly worse. *)
Definition best_so_far (lt : key -> key -> Prop) (seen : list float)
    (best : option (nat * float)) : Prop :=
  match best with
  | None => forall u, In u seen -> rank u = None
  | Some (i, b) =>
      nth_error seen i = Some b
      /\ exists kb, rank b = Some kb
         /\ (forall u ku, In u seen -> rank u = Some ku -> ~ lt kb ku)
         /\ (forall j u ku, j < i -> nth_error seen j = Some u ->
                            rank u = Some ku -> lt ku kb)
  end.

End Extremum.

(** The unordered pairs of the schema and the entry each one is due in
    the [correlations] mapping. *)

Module Pairs.

Import DatasetAnalyzer.





(** The bundle [analyze] stores for a group, from the results of its
    three sub-computations that can raise. *)
Definition bundle_of (backend : Backend) (df : DataFrame) (cfg : GroupConfig)
    (t : Trend) (y : option Yearly) (e : option Extremes) : Bundle :=
  {| summary := _summarize_primary backend df (primary cfg);
     range := _compute_range df (supporting cfg);
     trend := t;
     seasonal := _compute_seasonal_patterns backend df (primary cfg);
     yearly := y;
     extremes := e;
     optional_features :=
       _analyze_optional_features backend df (primary cfg) (comparison cfg) |}.

(** The trend dictionary built from a regression result. *)
Definition trend_of (backend : Backend) (r : LinregressResult) : Trend :=
  {| slope := lr_slope r;
     r_value := lr_rvalue r;
     r_squared := float_pow backend (lr_rvalue r) 2;
     p_value := lr_pvalue r;
     direction := if fgt (lr_slope r) 0 then "increasing"%string
                  else "decreasing"%string |}.

(** A boolean test that the strings of a list are pairwise distinct. *)
Fixpoint distinct (l : list string) : bool :=
  match l with
  | [] => true
  | x :: rest => (negb (existsb (String.eqb x) rest) && distinct rest)%bool
  end.



End Pairs.

(** The sentences of a planned content, one per fact. *)

Module Rendering.

Import ContentPlanner TemplateRealizer Summarizer.

(** The fact kinds the registry of templates knows. *)
Definition registered (kind : string) : bool := dict_mem kind templates.

(** The facts that can give a sentence: those of a registered kind, and
    [other_conditions], which the summarizer renders apart. *)
Definition reaches_a_template (f : Fact) : bool :=
  (registered (fst f) || String.eqb (fst f) "other_conditions")%bool.

(** The sentence of each fact in the planner's order, empty ones
    included. *)
Fixpoint render_each (format_value : pyval -> string -> result string)
    (content : list Fact) (w : World) : result (list string * World) :=
  match content with
  | [] => Ok ([], w)
  | fact :: rest =>
      sw <- render_fact format_value fact w ;;
      rw <- render_each format_value rest (snd sw) ;;
      Ok (fst sw :: fst rw, snd rw)
  end.

End Rendering.

(** Concrete statistics and tables on which the code is run. *)

Module Sample.

Import ContentPlanner DatasetAnalyzer.

Definition config : Config :=
  {| r2_threshold := 0.3; p_value_threshold := 0.05; extreme_threshold := 2.0 |}.

Definition basic_info : BasicInfo :=
  {| start_date := Some (mkDate 2021 1 1);
     end_date := Some (mkDate 2021 12 31);
     n_records := 365;
     station := "Oslo" |}.

(** A temperature bundle with a clear warming trend and one hot year. *)
Definition warm_bundle : Bundle :=
  {| summary := {| summary_mean := 15.0; summary_std := 3.0; summary_min := 2.5;
                   summary_max := 31.0; coefficient_of_variation := 0.2 |};
     range := None;
     trend := {| slope := 0.8; r_value := 0.7; r_squared := 0.49; p_value := 0.01;
                 direction := "increasing" |};
     seasonal := None;
     yearly := Some {| yearly_mean := 15.0; yearly_std := 1.0;
                       highest_year := 2021; highest_value := 17.5;
                       lowest_year := 2019; lowest_value := 14.0;
                       highest_zscore := 2.5; lowest_zscore := -1.0 |};
     extremes := None;
     optional_features := None |}.

Definition stats_with (p : option Patterns) : Statistics :=
  {| basic := basic_info; groups := [("temperature"%string, warm_bundle)]; patterns := p |}.

(** The only strong correlation is an inverse one. *)
Definition inverse_only : Patterns :=
  {| strongest_trends := None;
     most_variable := None;
     correlations :=
       [("temperature_and_relative_humidity"%string,
         {| correlation := -0.9; relationship := "inverse" |})] |}.

(** A strong inverse pair next to a weaker direct one. *)
Definition inverse_and_direct : Patterns :=
  {| strongest_trends := None;
     most_variable := None;
     correlations :=
       [("temperature_and_relative_humidity"%string,
         {| correlation := -0.9; relationship := "inverse" |});
        ("precipitation_and_rain"%string,
         {| correlation := 0.6; relationship := "direct" |})] |}.

(** No pair is correlated strongly. *)
Definition no_correlation : Patterns :=
  {| strongest_trends := None; most_variable := None; correlations := [] |}.

(** Three days of a constant temperature, and three days of a
    temperature that averages zero. *)
Definition three_days : list Date :=
  [mkDate 2021 1 1; mkDate 2021 1 2; mkDate 2021 1 3].

Definition constant_table : DataFrame :=
  {| df_dates := three_days;
     df_columns := [("temp"%string, [15.0; 15.0; 15.0]%float)] |}.

Definition zero_mean_table : DataFrame :=
  {| df_dates := three_days;
     df_columns := [("temp"%string, [-2.0; 0.0; 2.0]%float)] |}.

(** The p-value of the reference regression is not modelled: it is
    reported as 0.01. *)
Definition backend : Backend := Reference.ref_backend (fun _ _ => 0.01%float).

(** Three days with daily minima and maxima; the maximum 35 is reached
    on the second and on the third day, the minimum -1 on the first and
    the second. *)
Definition extremes_table : DataFrame :=
  {| df_dates := three_days;
     df_columns := [("temp"%string, [10.0; 20.0; 15.0]%float);
                    ("temp_min"%string, [-1.0; -1.0; 4.0]%float);
                    ("temp_max"%string, [30.0; 35.0; 35.0]%float)] |}.

(** Two rows of the same day: fewer than two distinct time points. *)
Definition same_day_table : DataFrame :=
  {| df_dates := [mkDate 2021 1 1; mkDate 2021 1 1];
     df_columns := [("temperature_2m_mean (°C)"%string, [10.0; 12.0]%float)] |}.

(** A single row. *)
Definition one_row_table : DataFrame :=
  {| df_dates := [mkDate 2021 1 1];
     df_columns := [("temperature_2m_mean (°C)"%string, [10.0]%float)] |}.

(** Three days of temperature and precipitation. *)
Definition two_group_table : DataFrame :=
  {| df_dates := three_days;
     df_columns := [("temperature_2m_mean (°C)"%string, [10.0; 12.0; 14.0]%float);
                    ("precipitation_sum (mm)"%string, [3.0; 2.0; 1.0]%float)] |}.

(** A schema in which two different pairs of groups have the same key
    ["a_and_b_and_c"], and a table for it: the columns of [a] and
    [b_and_c] are perfectly correlated, those of [a_and_b] and [c] are not
    correlated at all. *)
Definition plain_group (col : string) : GroupConfig :=
  {| primary := col; supporting := []; comparison := [] |}.



(** A bundle of extremes whose [lowest] side is missing, as when the
    table lacks the column of daily minima. *)
Definition highest_only : Extremes :=
  {| highest := Some {| value := 35.0; date := mkDate 2021 7 14 |}; lowest := None |}.

Definition world : TemplateRealizer.World :=
  {| TemplateRealizer.draws := [0; 1; 0; 1]; TemplateRealizer.printed := [] |}.

(** A wind bundle that is notable by its variability (CV 0.75), and
    statistics that hold nothing else. *)
Definition windy_bundle : Bundle :=
  {| summary := {| summary_mean := 12.0; summary_std := 9.0; summary_min := 0.0;
                   summary_max := 48.0; coefficient_of_variation := 0.75 |};
     range := None;
     trend := {| slope := 0.01; r_value := 0.1; r_squared := 0.01; p_value := 0.6;
                 direction := "increasing" |};
     seasonal := None;
     yearly := None;
     extremes := None;
     optional_features := None |}.

Definition windy_stats : Statistics :=
  {| basic := basic_info;
     groups := [("wind_speed"%string, windy_bundle)];
     patterns := None |}.

End Sample.

(** ** [ai.py]: the column names of the loaded table *)

Module AiSummarizer.

(** The entry that the loop of [WeatherSummarizer._standardize_columns]
    adds to [column_mapping] for a column, if it adds one.  In Python
    [a and b or c] is [(a and b) or c]. *)
Definition standard_name (col : string) : option string :=
  let col_lower := lower col in
  if ((contains "temp" col_lower && contains "mean" col_lower)
      || String.eqb col_lower "tavg")%bool
  then Some "temp_mean"%string
  else if ((contains "temp" col_lower && contains "min" col_lower)
           || String.eqb col_lower "tmin")%bool
  then Some "temp_min"%string
  else if ((contains "temp" col_lower && contains "max" col_lower)
           || String.eqb col_lower "tmax")%bool
  then Some "temp_max"%string
  else if (contains "precip" col_lower || String.eqb col_lower "prcp")%bool
  then
    if (contains "mean" col_lower || contains "avg" col_lower)%bool
    then Some "precipitation_mean"%string
    else if contains "max" col_lower then Some "precipitation_max"%string
    else if negb (contains "min" col_lower) then Some "precipitation_mean"%string
    else None
  else if (contains "wind" col_lower && contains "speed" col_lower)%bool
  then
    if (contains "mean" col_lower || contains "avg" col_lower)%bool
    then Some "wind_speed_mean"%string
    else if contains "max" col_lower then Some "wind_speed_max"%string
    else None
  else if contains "humid" col_lower
  then
    if (contains "mean" col_lower || contains "avg" col_lower
        || String.eqb col_lower "humidity")%bool
    then Some "humidity_mean"%string
    else None
  else None.

(** [df.rename(columns=column_mapping)] on one column name. *)
Definition rename_column (col : string) : string :=
  match standard_name col with
  | Some name => name
  | None => col
  end.

(** [_standardize_columns(df)], on the column names of the table. *)
Definition _standardize_columns (columns : list string) : list string :=
  map rename_column columns.

(** The names the mapping can give. *)
Definition standard_names : list string :=
  ["temp_mean"; "temp_min"; "temp_max"; "precipitation_mean"; "precipitation_max";
   "wind_speed_mean"; "wind_speed_max"; "humidity_mean"]%string.

End AiSummarizer.

(** ** More definitions used to state properties *)

(** The rungs of the two ladders of adjectives, from the lowest. *)

Module Ladder.

Definition position (rungs : list string) (word : string) : nat :=
  (fix go (l : list string) (n : nat) : nat :=
     match l with
     | [] => n
     | w :: l' => if String.eqb w word then n else go l' (S n)
     end) rungs 0.

Definition warmth (word : string) : nat :=
  position ["freezing"; "cold"; "cool"; "mild"; "warm"; "hot"]%string word.

Definition steadiness (word : string) : nat :=
  position ["highly variable"; "quite variable"; "moderately variable";
            "relatively stable"]%string word.

End Ladder.

(** The vocabulary of the planner, and what its output is made of. *)

Module Vocabulary.

Import ContentPlanner.

(** [a] is [b] with some elements left out. *)
Inductive Subseq {A : Type} : list A -> list A -> Prop :=
| Subseq_nil : forall l, Subseq [] l
| Subseq_take : forall x a b, Subseq a b -> Subseq (x :: a) (x :: b)
| Subseq_skip : forall x a b, Subseq a b -> Subseq a (x :: b).

(** The kinds of the facts of a primary variable, in the order of the
    appends. *)
Definition primary_kinds (g : string) : list string :=
  [g ++ "_summary"; g ++ "_trend"; g ++ "_seasonal"; g ++ "_yearly";
   g ++ "_extremes"]%string.

Definition cross_kinds : list string :=
  ["other_conditions"; "pattern_trends"; "pattern_correlation"]%string.

(** Every kind [select_content] can emit, in the order of emission. *)
Definition planner_kinds : list string :=
  "overview"%string :: primary_kinds "temperature" ++ primary_kinds "precipitation"
    ++ cross_kinds.

(** The secondary variables that are analysed and notable, in the order
    of the planner's list. *)
Definition notable_secondary (config : Config) (stats : Statistics)
    : list (string * Bundle) :=
  flat_map (fun var =>
              match dict_get var (groups stats) with
              | Some b => if _is_variable_notable config b then [(var, b)] else []
              | None => []
              end)
           secondary_var_names.

(** The state of the scan of the correlation mapping after the entries
    [seen]: either nothing was kept, the running maximum is still 0 and no
    entry seen is above 0; or the kept dictionary copies an entry seen
    that is above 0 and that no entry seen exceeds. *)
Definition scan_ok (seen : dict Correlation) (acc : float * option MaxCorr) : Prop :=
  match snd acc with
  | None =>
      fst acc = 0%float
      /\ forall k c, In (k, c) seen -> fgt (correlation c) 0 = false
  | Some m =>
      exists c,
        In (variables m, c) seen
        /\ fst acc = correlation c
        /\ mc_correlation m = correlation c
        /\ mc_relationship m = relationship c
        /\ fgt (correlation c) 0 = true
        /\ forall k' c', In (k', c') seen -> fgt (correlation c') (correlation c) = false
  end.

End Vocabulary.

(** ** What the loops of the analyzer select *)

Module Selected.

Import DatasetAnalyzer.

(** The last element of a list that passes a test. *)
Definition last_match {A : Type} (test : A -> bool) (l : list A) : option A :=
  find test (rev l).

(** The supporting columns that assign [absolute_min], and those that
    assign [absolute_max]: the second test is an [elif]. *)
Definition sets_min (df : DataFrame) (col : string) : bool :=
  (in_columns df col && contains "min" (lower col))%bool.

Definition sets_max (df : DataFrame) (col : string) : bool :=
  (in_columns df col && negb (contains "min" (lower col))
   && contains "max" (lower col))%bool.

(** The mean absolute difference between a comparison column and the
    primary column, and the comparison columns for which it is notable. *)
Definition feature_diff (backend : Backend) (df : DataFrame) (primary_col col : string)
    : float :=
  series_mean backend (map fabs (series_sub (column df col) (column df primary_col))).

Definition notable_feature (backend : Backend) (df : DataFrame) (primary_col col : string)
    : bool :=
  (in_columns df col && fgt (feature_diff backend df primary_col col) 5)%bool.

Definition real_feel_of (backend : Backend) (df : DataFrame) (primary_col col : string)
    : RealFeel :=
  {| avg_difference := feature_diff backend df primary_col col;
     is_negative :=
       flt (series_mean backend (series_sub (column df col) (column df primary_col))) 0 |}.

(** The cells of a column in the rows of a season, and their mean when
    there are such rows. *)
Definition season_cells (df : DataFrame) (col season : string) : list float :=
  rows_where (fun d => String.eqb (get_season (month d)) season)
             (df_dates df) (column df col).

Definition season_mean (backend : Backend) (df : DataFrame) (col season : string)
    : option float :=
  match season_cells df col season with
  | [] => None
  | g => Some (series_mean backend g)
  end.

(** The mean of a column over the rows of a year. *)
Definition year_mean (backend : Backend) (df : DataFrame) (col : string) (y : Z) : float :=
  series_mean backend
    (rows_where (fun d => Z.eqb (year d) y) (df_dates df) (column df col)).

(** Strictly increasing integers. *)
Fixpoint increasing (l : list Z) : Prop :=
  match l with
  | [] => True
  | x :: l' => (forall y, In y l' -> (x < y)%Z) /\ increasing l'
  end.

End Selected.

(** The groups that [_detect_cross_variable_patterns] ranks and the order
    it puts them in. *)

Module Strongest.

Import DatasetAnalyzer.

(** The entry appended for a group. *)
Definition trending_of (var_name : string) (b : Bundle) : TrendingVar :=
  {| name := var_name;
     tv_r_squared := r_squared (trend b);
     tv_direction := direction (trend b);
     tv_slope := slope (trend b) |}.

(** The entries of the analysed groups, among [keys], whose trend has an
    [r_squared] above 0.3, in the order of [keys]. *)
Definition trending_candidates (results : dict Bundle) (keys : list string)
    : list TrendingVar :=
  flat_map (fun v =>
              match dict_get v results with
              | Some b => if fgt (r_squared (trend b)) 0.3 then [trending_of v b] else []
              | None => []
              end) keys.

(** No entry is followed by one of a greater [r_squared]. *)
Fixpoint descending (l : list TrendingVar) : Prop :=
  match l with
  | [] => True
  | x :: l' =>
      (forall y, In y l' -> fle (tv_r_squared y) (tv_r_squared x) = true)
      /\ descending l'
  end.

(** The groups of the schema that [analyze] gives a bundle: those whose
    primary column is in the table. *)
Definition analysed_groups (df : DataFrame) (schema : dict GroupConfig) : list string :=
  map fst (filter (fun g => in_columns df (primary (snd g))) schema).

(** [a] is before [b], and [a] is not after [b]. *)
Definition date_lt (a b : Date) : Prop :=
  (year a < year b
   \/ (year a = year b
       /\ (month a < month b \/ (month a = month b /\ day a < day b))))%Z.

Definition date_leb (a b : Date) : bool := negb (date_ltb b a).

End Strongest.

(** What [_prepare_data] may change in a payload. *)

Module Prepared.

(** The keys that the branches of [_prepare_data] assign. *)
Definition derived_keys : list string :=
  ["start_date"; "end_date"; "absolute_min"; "absolute_max"; "mean"; "trend_desc";
   "total"; "annual_avg"; "highest_value"; "highest_date"; "lowest_value";
   "lowest_date"; "relationship"; "vars"]%string.

(** [b] has the keys of [a], and the value of [a] under every key outside
    [keys]. *)
Definition frame (keys : list string) (a b : dict pyval) : Prop :=
  (forall k, ~ In k keys -> dict_get k b = dict_get k a)
  /\ (forall k, dict_mem k a = true -> dict_mem k b = true).

(** The dictionary [_prepare_data] starts from. *)
Definition payload_dict (data : pyval) : dict pyval :=
  match data with VDict d => d | _ => [] end.

(** The facts whose kind has templates: the ones [realize] draws for. *)
Definition registered_facts (content : list ContentPlanner.Fact)
    : list ContentPlanner.Fact :=
  filter (fun f => Rendering.registered (fst f)) content.

(** An entry of the correlation mapping as the analyzer writes it: the
    label follows the sign, and the correlation is strong. *)
Definition labelled (c : Correlation) : Prop :=
  relationship c = (if flt (correlation c) 0 then "inverse"%string else "direct"%string)
  /\ fgt (fabs (correlation c)) 0.5 = true.

End Prepared.

(** Tables on which the analyzer is run. *)

Module Tables.

Import DatasetAnalyzer.

(** Three days with an apparent temperature eight degrees under the
    measured one. *)
Definition feels_table : DataFrame :=
  {| df_dates := Sample.three_days;
     df_columns := [("temp"%string, [10.0; 12.0; 14.0]%float);
                    ("feels"%string, [2.0; 4.0; 6.0]%float)] |}.

(** Days of three years and three seasons. *)
Definition years_table : DataFrame :=
  {| df_dates := [mkDate 2020 1 15; mkDate 2019 7 1; mkDate 2021 4 2;
                  mkDate 2019 7 2; mkDate 2020 1 16];
     df_columns := [("temp"%string, [1.0; 21.0; 9.0; 23.0; 3.0]%float)] |}.

(** Three days of temperature and of a precipitation that falls on the
    last day only. *)
Definition showers_table : DataFrame :=
  {| df_dates := Sample.three_days;
     df_columns := [("temperature_2m_mean (°C)"%string, [10.0; 12.0; 14.0]%float);
                    ("precipitation_sum (mm)"%string, [0.0; 0.0; 9.0]%float)] |}.

(** A schema of two groups for the table of the apparent temperature,
    results that hold both groups, and statistics with the patterns
    computed from them. *)
Definition feels_pair_schema : dict GroupConfig :=
  [("temp", Sample.plain_group "temp"); ("feels", Sample.plain_group "feels")]%string.

Definition pair_results : dict Bundle :=
  [("temp", Sample.warm_bundle); ("feels", Sample.warm_bundle)]%string.

Definition pair_stats : Statistics :=
  {| basic := Sample.basic_info;
     groups := pair_results;
     patterns := Some (_detect_cross_variable_patterns
                         Sample.backend feels_table feels_pair_schema pair_results) |}.

(** Three days of temperature and nothing else. *)
Definition warm_days_table : DataFrame :=
  {| df_dates := Sample.three_days;
     df_columns := [("temperature_2m_mean (°C)"%string, [10.0; 12.0; 14.0]%float)] |}.

(** Three days at a constant 0.1. *)
Definition tenths_table : DataFrame :=
  {| df_dates := Sample.three_days;
     df_columns := [("temp"%string, [0.1; 0.1; 0.1]%float)] |}.

(** A schema whose one group is named [patterns]. *)
Definition patterns_schema : dict GroupConfig :=
  [("patterns"%string, Sample.plain_group "temperature_2m_mean (°C)")].

End Tables.

(* ================================================================== *)
(** * Part II: properties                                               *)
(* ================================================================== *)

(** ** The order of the floats *)

Module FloatOrderFacts.

Import FloatOrder.

Lemma key_cmp_spec (a b : key) :
  CompareSpec (a = b) (key_lt a b) (key_lt b a) (key_cmp a b).
Proof.
  destruct a as [[a1 a2] a3], b as [[b1 b2] b3]; unfold key_cmp, key_lt.
  destruct (Z.compare_spec a1 b1); [| constructor; lia | constructor; lia].
  destruct (Z.compare_spec a2 b2); [| constructor; lia | constructor; lia].
  destruct (Z.compare_spec a3 b3); constructor; subst; auto; lia.
Qed.

Lemma key_lt_irrefl (a : key) : ~ key_lt a a.
Proof. destruct a as [[? ?] ?]; simpl; lia. Qed.

Lemma key_lt_trans (a b c : key) : key_lt a b -> key_lt b c -> key_lt a c.
Proof. destruct a as [[? ?] ?], b as [[? ?] ?], c as [[? ?] ?]; simpl; lia. Qed.

Lemma key_lt_total (a b : key) : key_lt a b \/ a = b \/ key_lt b a.
Proof. destruct (key_cmp_spec a b); auto. Qed.

(** The comparison of the IEEE specification is the comparison of keys. *)
Lemma SFcompare_rank (x y : spec_float) :
  SFcompare x y =
  match sf_rank x, sf_rank y with
  | Some a, Some b => Some (key_cmp a b)
  | _, _ => None
  end.
Proof.
  destruct x as [sx | sx | | sx mx ex], y as [sy | sy | | sy my ey];
    try destruct sx; try destruct sy; try reflexivity.
  cbn. rewrite Z.compare_opp, (Z.compare_antisym ex ey).
  destruct (ex ?= ey)%Z; reflexivity.
Qed.

Lemma ltb_rank (x y : float) :
  flt x y = true <-> exists a b, rank x = Some a /\ rank y = Some b /\ key_lt a b.
Proof.
  unfold flt, rank. rewrite FloatAxioms.ltb_spec. unfold SFltb. rewrite SFcompare_rank.
  destruct (sf_rank (Prim2SF x)) as [a |], (sf_rank (Prim2SF y)) as [b |];
    try (split; [discriminate | intros (? & ? & ? & ? & ?); discriminate]).
  destruct (key_cmp_spec a b) as [E | L | G]; split;
    try discriminate; try reflexivity; intros H; eauto.
  - destruct H as (a' & b' & Ha & Hb & Hlt). inversion Ha; inversion Hb; subst.
    exfalso; eapply key_lt_irrefl; eauto.
  - destruct H as (a' & b' & Ha & Hb & Hlt). inversion Ha; inversion Hb; subst.
    exfalso; eapply key_lt_irrefl, key_lt_trans; eauto.
Qed.

Lemma leb_rank (x y : float) :
  fle x y = true <->
  exists a b, rank x = Some a /\ rank y = Some b /\ (a = b \/ key_lt a b).
Proof.
  unfold fle, rank. rewrite FloatAxioms.leb_spec. unfold SFleb. rewrite SFcompare_rank.
  destruct (sf_rank (Prim2SF x)) as [a |], (sf_rank (Prim2SF y)) as [b |];
    try (split; [discriminate | intros (? & ? & ? & ? & ?); discriminate]).
  destruct (key_cmp_spec a b) as [E | L | G]; split;
    try discriminate; try reflexivity; intros H; eauto 6.
  destruct H as (a' & b' & Ha & Hb & Hlt). inversion Ha; inversion Hb; subst.
  exfalso. destruct Hlt as [E | L].
  - subst. eapply key_lt_irrefl; eauto.
  - eapply key_lt_irrefl, key_lt_trans; eauto.
Qed.

Lemma eqb_rank (x y : float) :
  feq x y = true <-> exists a, rank x = Some a /\ rank y = Some a.
Proof.
  unfold feq, rank. rewrite FloatAxioms.eqb_spec. unfold SFeqb. rewrite SFcompare_rank.
  destruct (sf_rank (Prim2SF x)) as [a |], (sf_rank (Prim2SF y)) as [b |];
    try (split; [discriminate | intros (? & ? & ?); discriminate]).
  destruct (key_cmp_spec a b) as [E | L | G]; split;
    try discriminate; try reflexivity; intros H.
  - subst; eauto.
  - destruct H as (a' & Ha & Hb). inversion Ha; inversion Hb; subst.
    exfalso; eapply key_lt_irrefl; eauto.
  - destruct H as (a' & Ha & Hb). inversion Ha; inversion Hb; subst.
    exfalso; eapply key_lt_irrefl; eauto.
Qed.

Lemma isnan_rank (x : float) : isnan x = false <-> exists a, rank x = Some a.
Proof.
  unfold isnan. change ((x =? x)%float) with (feq x x).
  split; intros H.
  - apply negb_false_iff, eqb_rank in H. destruct H as (a & H & _); eauto.
  - apply negb_false_iff, eqb_rank. destruct H as (a & H); eauto.
Qed.

Lemma isnan_true_rank (x : float) : isnan x = true <-> rank x = None.
Proof.
  split; intros H.
  - destruct (rank x) eqn:E; [| reflexivity].
    assert (isnan x = false) by (apply isnan_rank; eauto). congruence.
  - destruct (isnan x) eqn:E; [reflexivity |].
    apply isnan_rank in E. destruct E as (a & E). congruence.
Qed.

(** [<=] is transitive: raising a threshold keeps what was below it. *)
Lemma fle_trans (x y z : float) : fle x y = true -> fle y z = true -> fle x z = true.
Proof.
  intros H1 H2. apply leb_rank in H1, H2. apply leb_rank.
  destruct H1 as (a & b & Ha & Hb & Hab), H2 as (b' & c & Hb' & Hc & Hbc).
  rewrite Hb in Hb'. inversion Hb'; subst b'.
  exists a, c. repeat split; auto.
  destruct Hab as [-> | Hab], Hbc as [-> | Hbc]; eauto using key_lt_trans.
Qed.

Lemma flt_trans (x y z : float) : flt x y = true -> flt y z = true -> flt x z = true.
Proof.
  intros H1 H2. apply ltb_rank in H1, H2. apply ltb_rank.
  destruct H1 as (a & b & Ha & Hb & Hab), H2 as (b' & c & Hb' & Hc & Hbc).
  rewrite Hb in Hb'. inversion Hb'; subst b'.
  exists a, c. eauto using key_lt_trans.
Qed.

(** Among numbers, "not less" is "greater or equal". *)
Lemma fle_of_not_flt (x y : float) :
  isnan x = false -> isnan y = false -> flt x y = false -> fle y x = true.
Proof.
  intros Hx Hy H. apply isnan_rank in Hx, Hy.
  destruct Hx as (a & Ha), Hy as (b & Hb). apply leb_rank.
  exists b, a. repeat split; auto.
  destruct (key_lt_total a b) as [L | [E | G]]; auto.
  assert (flt x y = true) by (apply ltb_rank; eauto). congruence.
Qed.

(** A float equal to zero is one of the two zeros. *)
Lemma feq_zero_inv (x : float) :
  feq x 0 = true -> exists s, Prim2SF x = S754_zero s.
Proof.
  intros H. apply eqb_rank in H. destruct H as (a & Hx & H0).
  unfold rank in *. change (Prim2SF 0) with (S754_zero false) in H0.
  simpl in H0. inversion H0; subst a.
  destruct (Prim2SF x) as [s | s | | s m e]; eauto; simpl in Hx;
    try discriminate; destruct s; discriminate.
Qed.

(** What is above something is a number. *)
Lemma fgt_number_left (x y : float) : fgt x y = true -> isnan x = false.
Proof.
  unfold fgt. change ((y <? x)%float) with (flt y x). intros H.
  apply ltb_rank in H. destruct H as (a & b & _ & Hb & _).
  apply isnan_rank. eauto.
Qed.

End FloatOrderFacts.

(** ** The lexicalizer *)

Module LexicalizerFacts.

Import Wording.

Open Scope string_scope.

(** In [lexicalizer.py] a significant rise of temperature is worded
    "increasing", and a variable of another kind gets the bare word
    "increased": neither "warming" nor "increasing" appears. *)
Lemma describe_trend_temperature_not_warming :
  Lexicalizer.describe_trend 1 0.9 "temperature" = "showed significant increasing"
  /\ contains "warming" (Lexicalizer.describe_trend 1 0.9 "temperature") = false
  /\ Lexicalizer.describe_trend 1 0.9 "wind_speed" = "increased"
  /\ contains "increasing" (Lexicalizer.describe_trend 1 0.9 "wind_speed") = false
  /\ contains "increasing" (AiLexicalizer.describe_trend 1 0.9 "wind_speed") = false.
Proof. repeat split; reflexivity. Qed.

(** C3, as the code has it.  Both variants answer "remained relatively
    stable" whenever [r_squared < 0.2], whatever the slope.  Otherwise the
    temperature kind takes its tier from [|slope|] against 0.5 and 0.2 and
    the precipitation kind against 2 and 1; the direction word is chosen
    by [slope > 0], so a zero or NaN slope takes the second word.  For
    temperature the words are "increasing"/"decreasing" in
    [lexicalizer.py] and "warming"/"cooling" in [ai.py]; for precipitation
    both say "increasing"/"decreasing"; any other kind gets the bare word
    "increased"/"decreased" with no tier. *)
Theorem describe_trend_wording (slope r_squared : float) (kind : string) :
  (flt r_squared 0.2 = true ->
   Lexicalizer.describe_trend slope r_squared kind = "remained relatively stable"
   /\ AiLexicalizer.describe_trend slope r_squared kind = "remained relatively stable")
  /\
  (flt r_squared 0.2 = false ->
   (kind = "temperature" ->
    Lexicalizer.describe_trend slope r_squared kind =
      "showed " ++ tier 0.5 0.2 "significant" "moderate" "slight" (fabs slope)
      ++ " " ++ direction_word "increasing" "decreasing" slope
    /\ AiLexicalizer.describe_trend slope r_squared kind =
      "showed " ++ tier 0.5 0.2 "significant" "moderate" "slight" (fabs slope)
      ++ " " ++ direction_word "warming" "cooling" slope)
   /\
   (kind = "precipitation" ->
    Lexicalizer.describe_trend slope r_squared kind =
      tier 2 1 "substantially" "moderately" "slightly" (fabs slope)
      ++ " " ++ direction_word "increasing" "decreasing" slope
    /\ AiLexicalizer.describe_trend slope r_squared kind =
      Lexicalizer.describe_trend slope r_squared kind)
   /\
   (kind <> "temperature" -> kind <> "precipitation" ->
    Lexicalizer.describe_trend slope r_squared kind =
      direction_word "increased" "decreased" slope
    /\ AiLexicalizer.describe_trend slope r_squared kind =
      direction_word "increased" "decreased" slope)).
Proof.
  unfold Lexicalizer.describe_trend, AiLexicalizer.describe_trend, tier, direction_word.
  split; intros Hr; rewrite Hr.
  - split; reflexivity.
  - split; [| split].
    + intros ->. split; reflexivity.
    + intros ->. split; reflexivity.
    + intros Ht Hp.
      apply String.eqb_neq in Ht, Hp. rewrite Ht, Hp. split; reflexivity.
Qed.

(** The theorem at a cooling of 0.3 degrees a year with [r_squared] 0.5. *)
Lemma describe_trend_wording_witness :
  Lexicalizer.describe_trend (-0.3) 0.5 "temperature" = "showed moderate decreasing"
  /\ AiLexicalizer.describe_trend (-0.3) 0.5 "temperature" = "showed moderate cooling".
Proof.
  destruct (describe_trend_wording (-0.3) 0.5 "temperature") as [_ H].
  destruct (H eq_refl) as [Ht _].
  exact (Ht eq_refl).
Defined.

End LexicalizerFacts.

(** ** The content planner *)

Module PlannerFacts.

Import ContentPlanner Planned FloatOrderFacts.

(** One turn of the loop over the primary variables appends the facts
    the specification lists for that variable. *)
Lemma primary_step_app (config : Config) (stats : Statistics) (content : list Fact)
    (g : string) :
  primary_step config stats content g = content ++ primary_facts config stats g.
Proof.
  unfold primary_step, primary_facts, _is_trend_significant,
    _is_yearly_comparison_notable, when.
  destruct (dict_get g (groups stats)) as [b |]; [| now rewrite app_nil_r].
  destruct (fge (r_squared (trend b)) (r2_threshold config)
            && flt (p_value (trend b)) (p_value_threshold config))%bool;
    destruct (seasonal b); destruct (yearly b) as [y |];
    try destruct (fge (fabs (highest_zscore y)) (extreme_threshold config)
                  || fge (fabs (lowest_zscore y)) (extreme_threshold config))%bool;
    destruct (extremes b) as [e |]; try destruct (extremes_truthy e);
    rewrite <- ?app_assoc; simpl; rewrite ?app_nil_r; reflexivity.
Qed.

(** The output of [select_content], piece by piece. *)
Lemma select_content_shape (config : Config) (stats : Statistics) :
  select_content config stats =
    ("overview"%string, PBasic (basic stats))
      :: primary_facts config stats "temperature"
      ++ primary_facts config stats "precipitation"
      ++ cross_facts config stats.
Proof.
  unfold select_content, cross_facts, primary_vars. cbn [fold_left].
  rewrite !primary_step_app.
  destruct (fold_left (secondary_step config stats) secondary_var_names [])
    as [| sv svs];
    destruct (patterns stats) as [p |];
    try destruct (strongest_trends p) as [[| t ts] |];
    try destruct (fold_left corr_step (correlations p) (0%float, None)) as [mc mcv];
    rewrite <- ?app_assoc; simpl; rewrite ?app_nil_r; reflexivity.
Qed.

Lemma cross_facts_kinds (config : Config) (stats : Statistics) :
  forallb (fun f => is_cross_kind (fst f)) (cross_facts config stats) = true.
Proof.
  unfold cross_facts.
  destruct (fold_left (secondary_step config stats) secondary_var_names [])
    as [| sv svs];
    destruct (patterns stats) as [p |];
    try destruct (strongest_trends p) as [[| t ts] |]; reflexivity.
Qed.

(** C6.  [select_content] emits the overview fact first, then the facts
    of temperature, then those of precipitation: for a group that is
    present the summary fact always, the trend fact exactly when
    [r_squared >= r2_threshold] and [p_value < p_value_threshold], the
    seasonal fact exactly when the seasonal sub-bundle is there, the yearly
    fact exactly when one of the two z-scores reaches [extreme_threshold]
    in absolute value, the extremes fact exactly when the extremes
    sub-bundle is non-empty (in this order).  What follows is made of
    [other_conditions] and pattern facts only. *)
Theorem select_content_order (config : Config) (stats : Statistics) :
  exists rest,
    select_content config stats =
      ("overview"%string, PBasic (basic stats))
        :: primary_facts config stats "temperature"
        ++ primary_facts config stats "precipitation"
        ++ rest
    /\ forallb (fun f => is_cross_kind (fst f)) rest = true.
Proof.
  exists (cross_facts config stats). split.
  - apply select_content_shape.
  - apply cross_facts_kinds.
Qed.

Lemma count_kind_app (suffix : string) (a b : list Fact) :
  count_kind suffix (a ++ b) = count_kind suffix a + count_kind suffix b.
Proof. unfold count_kind. now rewrite filter_app, length_app. Qed.

Lemma cross_kind_inv (kind : string) :
  is_cross_kind kind = true ->
  kind = "other_conditions"%string \/ kind = "pattern_trends"%string
  \/ kind = "pattern_correlation"%string.
Proof.
  unfold is_cross_kind. intros H.
  apply orb_true_iff in H. destruct H as [H | H];
    [apply orb_true_iff in H; destruct H as [H | H] |];
    apply String.eqb_eq in H; auto.
Qed.

(** The facts after the primary variables are neither trend facts nor
    yearly comparisons. *)
Lemma count_kind_cross (rest : list Fact) :
  forallb (fun f => is_cross_kind (fst f)) rest = true ->
  count_kind "_trend" rest = 0 /\ count_kind "_yearly" rest = 0.
Proof.
  induction rest as [| [kind payload] rest IH]; intros H; [split; reflexivity |].
  simpl in H. apply andb_true_iff in H. destruct H as [Hk Hrest].
  destruct (IH Hrest) as [IHt IHy].
  change (count_kind "_trend" ((kind, payload) :: rest))
    with (count_kind "_trend" ([(kind, payload)] ++ rest)).
  change (count_kind "_yearly" ((kind, payload) :: rest))
    with (count_kind "_yearly" ([(kind, payload)] ++ rest)).
  rewrite !count_kind_app, IHt, IHy.
  destruct (cross_kind_inv _ Hk) as [-> | [-> | ->]]; split; reflexivity.
Qed.

Lemma count_primary_facts (config : Config) (stats : Statistics) (g : string) :
  g = "temperature"%string \/ g = "precipitation"%string ->
  count_kind "_trend" (primary_facts config stats g)
    = Nat.b2n (reports_trend config stats g)
  /\ count_kind "_yearly" (primary_facts config stats g)
    = Nat.b2n (reports_yearly config stats g).
Proof.
  unfold primary_facts, reports_trend, reports_yearly, _is_trend_significant,
    _is_yearly_comparison_notable, when.
  intros [-> | ->];
    (destruct (dict_get _ (groups stats)) as [b |]; [| split; reflexivity]);
    destruct (fge (r_squared (trend b)) (r2_threshold config)
              && flt (p_value (trend b)) (p_value_threshold config))%bool;
    destruct (seasonal b); destruct (yearly b) as [y |];
    try destruct (fge (fabs (highest_zscore y)) (extreme_threshold config)
                  || fge (fabs (lowest_zscore y)) (extreme_threshold config))%bool;
    destruct (extremes b) as [e |]; try destruct (extremes_truthy e);
    split; reflexivity.
Qed.

(** The trend facts and the yearly comparisons of the whole output. *)
Lemma count_select_content (config : Config) (stats : Statistics) :
  count_kind "_trend" (select_content config stats)
    = Nat.b2n (reports_trend config stats "temperature")
      + Nat.b2n (reports_trend config stats "precipitation")
  /\ count_kind "_yearly" (select_content config stats)
    = Nat.b2n (reports_yearly config stats "temperature")
      + Nat.b2n (reports_yearly config stats "precipitation").
Proof.
  rewrite select_content_shape.
  destruct (count_kind_cross _ (cross_facts_kinds config stats)) as [Rt Ry].
  destruct (count_primary_facts config stats (g := "temperature") (or_introl eq_refl))
    as [Tt Ty].
  destruct (count_primary_facts config stats (g := "precipitation") (or_intror eq_refl))
    as [Pt Py].
  change (?x :: ?l) with ([x] ++ l).
  rewrite !count_kind_app, Tt, Ty, Pt, Py, Rt, Ry.
  split; simpl; lia.
Qed.

Lemma reports_trend_antitone (stats : Statistics) (g : string) (r1 r2 p e : float) :
  fle r1 r2 = true ->
  reports_trend (mkConfig r2 p e) stats g = true ->
  reports_trend (mkConfig r1 p e) stats g = true.
Proof.
  unfold reports_trend, _is_trend_significant. intros Hle.
  destruct (dict_get g (groups stats)) as [b |]; [| discriminate].
  simpl. rewrite !andb_true_iff. intros [Hr Hp]. split; [| exact Hp].
  unfold fge in *. exact (fle_trans Hle Hr).
Qed.

Lemma reports_yearly_antitone (stats : Statistics) (g : string) (r p e1 e2 : float) :
  fle e1 e2 = true ->
  reports_yearly (mkConfig r p e2) stats g = true ->
  reports_yearly (mkConfig r p e1) stats g = true.
Proof.
  unfold reports_yearly, _is_yearly_comparison_notable. intros Hle.
  destruct (dict_get g (groups stats)) as [b |]; [| discriminate].
  destruct (yearly b) as [y |]; [| discriminate].
  simpl. rewrite !orb_true_iff. unfold fge.
  intros [H | H]; [left | right]; exact (fle_trans Hle H).
Qed.

Lemma b2n_le (a b : bool) : (a = true -> b = true) -> Nat.b2n a <= Nat.b2n b.
Proof. destruct a, b; simpl; intros H; try lia; specialize (H eq_refl); discriminate. Qed.

(** C4.  With the statistics fixed, raising [r2_threshold] never adds a
    trend fact to the planner's output, and raising [extreme_threshold]
    never adds a yearly comparison. *)
Theorem threshold_monotonicity (stats : Statistics) (p : float) :
  (forall r1 r2 e, fle r1 r2 = true ->
     count_kind "_trend" (select_content (mkConfig r2 p e) stats)
     <= count_kind "_trend" (select_content (mkConfig r1 p e) stats))
  /\
  (forall r e1 e2, fle e1 e2 = true ->
     count_kind "_yearly" (select_content (mkConfig r p e2) stats)
     <= count_kind "_yearly" (select_content (mkConfig r p e1) stats)).
Proof.
  split.
  - intros r1 r2 e Hle.
    destruct (count_select_content (mkConfig r2 p e) stats) as [-> _].
    destruct (count_select_content (mkConfig r1 p e) stats) as [-> _].
    apply Nat.add_le_mono; apply b2n_le; apply reports_trend_antitone; exact Hle.
  - intros r e1 e2 Hle.
    destruct (count_select_content (mkConfig r p e2) stats) as [_ ->].
    destruct (count_select_content (mkConfig r p e1) stats) as [_ ->].
    apply Nat.add_le_mono; apply b2n_le; apply reports_yearly_antitone; exact Hle.
Qed.

(** The theorem on the sample statistics: the trend with [r_squared] 0.49
    is reported under the threshold 0.3 and dropped under 0.6; the year
    2.5 deviations high is reported under 2.0 and dropped under 3.0. *)
Lemma threshold_monotonicity_witness :
  (count_kind "_trend" (select_content (mkConfig 0.6 0.05 2.0) (Sample.stats_with None))
   <= count_kind "_trend" (select_content (mkConfig 0.3 0.05 2.0) (Sample.stats_with None)))
  /\
  (count_kind "_yearly" (select_content (mkConfig 0.3 0.05 3.0) (Sample.stats_with None))
   <= count_kind "_yearly" (select_content (mkConfig 0.3 0.05 2.0) (Sample.stats_with None))).
Proof.
  destruct (threshold_monotonicity (Sample.stats_with None) 0.05) as [Ht Hy].
  split.
  - apply (Ht 0.3 0.6 2.0)%float. reflexivity.
  - apply (Hy 0.3 2.0 3.0)%float. reflexivity.
Defined.

Example threshold_counts :
  count_kind "_trend" (select_content (mkConfig 0.6 0.05 2.0) (Sample.stats_with None)) = 0
  /\ count_kind "_trend" (select_content (mkConfig 0.3 0.05 2.0) (Sample.stats_with None)) = 1
  /\ count_kind "_yearly" (select_content (mkConfig 0.3 0.05 3.0) (Sample.stats_with None)) = 0
  /\ count_kind "_yearly" (select_content (mkConfig 0.3 0.05 2.0) (Sample.stats_with None)) = 1.
Proof. repeat split; reflexivity. Qed.

(** The scan of the correlation mapping keeps nothing when no entry is
    above zero: the running maximum starts at 0 and the test is [>]. *)
Lemma corr_scan_no_positive (entries : dict Correlation) :
  (forall k c, In (k, c) entries -> fgt (correlation c) 0 = false) ->
  fold_left corr_step entries (0%float, None) = (0%float, None).
Proof.
  induction entries as [| [k c] entries IH]; intros H; [reflexivity |].
  simpl. rewrite (H k c (or_introl eq_refl)). apply IH.
  intros k' c' Hin. apply (H k' c'). now right.
Qed.

(** Whenever the statistics hold a [patterns] entry, the last fact is a
    [pattern_correlation] fact, whatever the correlation mapping holds. *)
Lemma pattern_correlation_emitted (config : Config) (stats : Statistics) (p : Patterns) :
  patterns stats = Some p ->
  last (select_content config stats) ("overview"%string, PBasic (basic stats))
  = ("pattern_correlation"%string,
     PCorrelation (snd (fold_left corr_step (correlations p) (0%float, None)))).
Proof.
  intros Hp. unfold select_content. rewrite Hp.
  destruct (fold_left corr_step (correlations p) (0%float, None)) as [mc mcv].
  apply last_last.
Qed.

(** C1 on three statistics bundles.  With an empty correlation mapping
    the planner still emits a [pattern_correlation] fact, with an empty
    payload.  When the only strong pair is an inverse one (correlation
    -0.9) the payload is empty as well, and next to a direct pair of
    correlation 0.6 it is the direct pair that is selected: the scan
    compares the signed value with a maximum that starts at 0. *)
Theorem pattern_correlation_signed_scan :
  last (select_content Sample.config (Sample.stats_with (Some Sample.no_correlation)))
       ("overview"%string, PBasic Sample.basic_info)
    = ("pattern_correlation"%string, PCorrelation None)
  /\ last (select_content Sample.config (Sample.stats_with (Some Sample.inverse_only)))
          ("overview"%string, PBasic Sample.basic_info)
    = ("pattern_correlation"%string, PCorrelation None)
  /\ last (select_content Sample.config (Sample.stats_with (Some Sample.inverse_and_direct)))
          ("overview"%string, PBasic Sample.basic_info)
    = ("pattern_correlation"%string,
       PCorrelation (Some {| variables := "precipitation_and_rain";
                             mc_correlation := 0.6;
                             mc_relationship := "direct" |})).
Proof. repeat split; reflexivity. Qed.

End PlannerFacts.

(** ** The analyzer *)

Module AnalyzerFacts.

Import DatasetAnalyzer ContentPlanner FloatOrder FloatOrderFacts.

(** A float whose IEEE value is a zero compares equal to 0, is not NaN
    and is not above 0.6. *)
Lemma zero_float_facts (x : float) (s : bool) :
  Prim2SF x = S754_zero s ->
  feq x 0 = true /\ isnan x = false /\ fgt x 0.6 = false.
Proof.
  intros H. unfold feq, isnan, fgt.
  rewrite !FloatAxioms.eqb_spec, FloatAxioms.ltb_spec, H.
  repeat split; reflexivity.
Qed.

(** Zero divided by a number other than zero is a zero. *)
Lemma zero_div (x y : float) :
  feq x 0 = true -> isnan y = false -> fne y 0 = true ->
  exists s, Prim2SF (x / y)%float = S754_zero s.
Proof.
  intros Hx Hy Hy0. apply feq_zero_inv in Hx. destruct Hx as (sx & Hx).
  rewrite FloatAxioms.div_spec, Hx. unfold SF64div, SFdiv.
  apply isnan_rank in Hy. destruct Hy as (k & Hk). unfold rank in Hk.
  destruct (Prim2SF y) as [sy | sy | | sy my ey] eqn:E; eauto.
  - exfalso. unfold fne, feq in Hy0. apply negb_true_iff in Hy0.
    rewrite FloatAxioms.eqb_spec, E in Hy0. discriminate.
  - discriminate.
Qed.

(** A NaN divided by anything is a NaN. *)
Lemma nan_div (x y : float) : isnan x = true -> isnan (x / y)%float = true.
Proof.
  intros Hx. apply isnan_true_rank in Hx. apply isnan_true_rank.
  unfold rank in *. rewrite FloatAxioms.div_spec.
  destruct (Prim2SF x) as [sx | sx | | [] mx ex]; simpl in Hx; try discriminate Hx.
  reflexivity.
Qed.

(** A NaN is above nothing. *)
Lemma nan_not_above (x y : float) : isnan x = true -> fgt x y = false.
Proof.
  intros Hx. destruct (fgt x y) eqn:E; [| reflexivity].
  apply fgt_number_left in E. congruence.
Qed.

(** On a table of one row the column is constant, its deviation is not a
    number, and the [coefficient_of_variation] is NaN and not 0: the
    division of the deviation by the mean is made whenever the mean is
    not 0. *)
Lemma cv_nan_on_single_row :
  column Sample.one_row_table "temperature_2m_mean (°C)" = [10%float]
  /\ series_mean Sample.backend (column Sample.one_row_table "temperature_2m_mean (°C)")
     = 10%float
  /\ isnan (series_std Sample.backend
              (column Sample.one_row_table "temperature_2m_mean (°C)")) = true
  /\ isnan (coefficient_of_variation
              (_summarize_primary Sample.backend Sample.one_row_table
                 "temperature_2m_mean (°C)")) = true
  /\ feq (coefficient_of_variation
            (_summarize_primary Sample.backend Sample.one_row_table
               "temperature_2m_mean (°C)")) 0 = false.
Proof. repeat split; reflexivity. Qed.

(** C5, as the code has it.  When the mean of the primary column is 0
    the [coefficient_of_variation] that [_summarize_primary] computes is
    exactly 0.  When the standard deviation is computed as 0 and the mean
    is a number, it compares equal to 0 and is not NaN.  When the standard
    deviation is not a number, as on a constant column of one row, and the
    mean is not 0, it is NaN and not 0.  In each of these cases the
    planner's test [CV > 0.6] is false on every bundle with that
    summary. *)
Theorem cv_safety (backend : Backend) (df : DataFrame) (col : string) :
  (feq (series_mean backend (column df col)) 0 = true ->
   coefficient_of_variation (_summarize_primary backend df col) = 0%float)
  /\ (feq (series_std backend (column df col)) 0 = true ->
      isnan (series_mean backend (column df col)) = false ->
      feq (coefficient_of_variation (_summarize_primary backend df col)) 0 = true
      /\ isnan (coefficient_of_variation (_summarize_primary backend df col)) = false)
  /\ (isnan (series_std backend (column df col)) = true ->
      feq (series_mean backend (column df col)) 0 = false ->
      isnan (coefficient_of_variation (_summarize_primary backend df col)) = true
      /\ feq (coefficient_of_variation (_summarize_primary backend df col)) 0 = false)
  /\ (forall b : Bundle,
        summary b = _summarize_primary backend df col ->
        feq (series_mean backend (column df col)) 0 = true
        \/ (feq (series_std backend (column df col)) 0 = true
            /\ isnan (series_mean backend (column df col)) = false)
        \/ isnan (series_std backend (column df col)) = true ->
        high_variability b = false).
Proof.
  assert (Hmean : feq (series_mean backend (column df col)) 0 = true ->
                  coefficient_of_variation (_summarize_primary backend df col) = 0%float).
  { intros H. unfold _summarize_primary; cbn [coefficient_of_variation].
    unfold fne. unfold feq in H. now rewrite H. }
  assert (Hstd : feq (series_std backend (column df col)) 0 = true ->
                 isnan (series_mean backend (column df col)) = false ->
                 exists s,
                   Prim2SF (coefficient_of_variation (_summarize_primary backend df col))
                   = S754_zero s).
  { intros Hs Hm. unfold _summarize_primary; cbn [coefficient_of_variation].
    destruct (fne (series_mean backend (column df col)) 0) eqn:Hne.
    - apply zero_div; assumption.
    - exists false. reflexivity. }
  assert (Hnan : isnan (series_std backend (column df col)) = true ->
                 feq (series_mean backend (column df col)) 0 = false ->
                 isnan (coefficient_of_variation (_summarize_primary backend df col))
                 = true).
  { intros Hs Hm. unfold _summarize_primary; cbn [coefficient_of_variation].
    unfold fne. unfold feq in Hm. rewrite Hm. cbn [negb]. now apply nan_div. }
  split; [exact Hmean |]. split; [| split].
  - intros Hs Hm. destruct (Hstd Hs Hm) as (s & Hz).
    destruct (zero_float_facts _ Hz) as (H1 & H2 & _). auto.
  - intros Hs Hm. pose proof (Hnan Hs Hm) as N. split; [exact N |].
    unfold isnan in N. apply negb_true_iff in N.
    destruct (feq (coefficient_of_variation (_summarize_primary backend df col)) 0) eqn:E;
      [| reflexivity].
    apply feq_zero_inv in E. destruct E as (s & Hz).
    destruct (zero_float_facts _ Hz) as (_ & H2 & _).
    unfold isnan in H2. rewrite N in H2. discriminate.
  - intros b Hb H. unfold high_variability. rewrite Hb.
    destruct H as [H | [[Hs Hm] | Hs]].
    + rewrite (Hmean H). reflexivity.
    + destruct (Hstd Hs Hm) as (s & Hz).
      destruct (zero_float_facts _ Hz) as (_ & _ & H3). exact H3.
    + destruct (feq (series_mean backend (column df col)) 0) eqn:Hm.
      * rewrite (Hmean eq_refl). reflexivity.
      * apply nan_not_above. now apply Hnan.
Qed.

(** The theorem on a column that is constant at 15 degrees over three
    days, whose deviation is 0 and whose mean is 15. *)
Lemma cv_safety_witness :
  feq (coefficient_of_variation
         (_summarize_primary Sample.backend Sample.constant_table "temp")) 0 = true
  /\ isnan (coefficient_of_variation
              (_summarize_primary Sample.backend Sample.constant_table "temp")) = false
  /\ forall b : Bundle,
       summary b = _summarize_primary Sample.backend Sample.constant_table "temp" ->
       high_variability b = false.
Proof.
  destruct (cv_safety Sample.backend Sample.constant_table "temp")
    as (_ & Hstd & _ & Htest).
  destruct (Hstd eq_refl eq_refl) as [H1 H2].
  split; [exact H1 |]. split; [exact H2 |].
  intros b Hb. apply (Htest b Hb). right. left. split; reflexivity.
Defined.

(** The same on a column of mean zero, where the division is skipped. *)
Example cv_zero_mean :
  series_mean Sample.backend (column Sample.zero_mean_table "temp") = 0%float
  /\ coefficient_of_variation
       (_summarize_primary Sample.backend Sample.zero_mean_table "temp") = 0%float.
Proof. split; reflexivity. Qed.

(** With the reference deviation, three rows of 0.1 have a mean that is
    not 0.1 and a deviation that is not 0: the coefficient of a constant
    column of several rows need not be 0 either. *)
Example cv_nonzero_on_constant_tenths :
  column Tables.tenths_table "temp" = [0.1; 0.1; 0.1]%float
  /\ feq (series_std Sample.backend (column Tables.tenths_table "temp")) 0 = false
  /\ feq (coefficient_of_variation
            (_summarize_primary Sample.backend Tables.tenths_table "temp")) 0 = false
  /\ isnan (coefficient_of_variation
              (_summarize_primary Sample.backend Tables.tenths_table "temp")) = false.
Proof. repeat split; reflexivity. Qed.

(** *** The scan behind [idxmax] and [idxmin] *)

Section ArgBest.

Variable better : float -> float -> bool.
Variable lt : key -> key -> Prop.

Hypothesis lt_irrefl : forall a, ~ lt a a.
Hypothesis lt_trans : forall a b c, lt a b -> lt b c -> lt a c.
Hypothesis lt_total : forall a b, lt a b \/ a = b \/ lt b a.
Hypothesis better_spec :
  forall b v, better b v = true <->
              exists kb kv, rank b = Some kb /\ rank v = Some kv /\ lt kb kv.

Lemma nth_error_snoc_old {A : Type} (pre : list A) (v : A) (i : nat) (x : A) :
  nth_error pre i = Some x -> nth_error (pre ++ [v]) i = Some x.
Proof.
  intros H. rewrite nth_error_app1; [exact H |].
  apply nth_error_Some. congruence.
Qed.

Lemma nth_error_snoc_inv {A : Type} (pre : list A) (v : A) (j : nat) (u : A) :
  j < List.length pre -> nth_error (pre ++ [v]) j = Some u -> nth_error pre j = Some u.
Proof. intros Hj H. now rewrite nth_error_app1 in H. Qed.

Lemma nth_error_snoc_last {A : Type} (pre : list A) (v : A) :
  nth_error (pre ++ [v]) (List.length pre) = Some v.
Proof. rewrite nth_error_app2, Nat.sub_diag; [reflexivity | lia]. Qed.

(** One cell more keeps the invariant of the scan. *)
Lemma best_so_far_step (pre : list float) (best : option (nat * float)) (v : float) :
  Extremum.best_so_far lt pre best ->
  Extremum.best_so_far lt (pre ++ [v])
    (if isnan v then best
     else match best with
          | None => Some (List.length pre, v)
          | Some (_, b) => if better b v then Some (List.length pre, v) else best
          end).
Proof.
  intros Inv. destruct (isnan v) eqn:Hnan.
  - apply isnan_true_rank in Hnan.
    destruct best as [[i b] |]; simpl in *.
    + destruct Inv as (Hi & kb & Hkb & Hmax & Hfirst).
      split; [now apply nth_error_snoc_old |].
      exists kb. split; [exact Hkb |]. split.
      * intros u ku Hin Hku. apply in_app_or in Hin. destruct Hin as [Hin | [<- | []]].
        -- eauto.
        -- congruence.
      * intros j u ku Hj Hu Hku.
        assert (i < List.length pre) by (apply nth_error_Some; congruence).
        apply nth_error_snoc_inv in Hu; [eauto | lia].
    + intros u Hin. apply in_app_or in Hin. destruct Hin as [Hin | [<- | []]]; auto.
  - apply isnan_rank in Hnan. destruct Hnan as (kv & Hkv).
    assert (Hnew : Extremum.best_so_far lt (pre ++ [v]) (Some (List.length pre, v)) \/
                   exists i b, best = Some (i, b) /\ better b v = false).
    { destruct best as [[i b] |]; simpl in Inv.
      - destruct (better b v) eqn:Hb; [left | right; eauto].
        destruct Inv as (Hi & kb & Hkb & Hmax & Hfirst).
        apply better_spec in Hb. destruct Hb as (kb' & kv' & Hkb' & Hkv' & Hlt).
        assert (kb' = kb) by congruence. assert (kv' = kv) by congruence. subst.
        simpl. split; [apply nth_error_snoc_last |].
        exists kv. split; [exact Hkv |]. split.
        + intros u ku Hin Hku Hcontra.
          apply in_app_or in Hin. destruct Hin as [Hin | [<- | []]].
          * apply (Hmax u ku Hin Hku). eauto.
          * assert (ku = kv) by congruence. subst. eapply lt_irrefl; eauto.
        + intros j u ku Hj Hu Hku.
          apply nth_error_snoc_inv in Hu; [| exact Hj].
          assert (Hin : In u pre) by (eapply nth_error_In; eauto).
          destruct (lt_total ku kb) as [L | [E | G]].
          * eauto.
          * subst. exact Hlt.
          * exfalso. exact (Hmax u ku Hin Hku G).
      - left. simpl. split; [apply nth_error_snoc_last |].
        exists kv. split; [exact Hkv |]. split.
        + intros u ku Hin Hku Hcontra.
          apply in_app_or in Hin. destruct Hin as [Hin | [<- | []]].
          * rewrite (Inv u Hin) in Hku. discriminate.
          * assert (ku = kv) by congruence. subst. eapply lt_irrefl; eauto.
        + intros j u ku Hj Hu Hku.
          apply nth_error_snoc_inv in Hu; [| exact Hj].
          apply nth_error_In in Hu. rewrite (Inv u Hu) in Hku. discriminate. }
    destruct best as [[i b] |].
    + destruct Hnew as [Hnew | (i' & b' & Heq & Hb)].
      * destruct (better b v) eqn:Hb; [exact Hnew |].
        (* the kept cell stays the best *)
        simpl in Inv. destruct Inv as (Hi & kb & Hkb & Hmax & Hfirst).
        simpl. split; [now apply nth_error_snoc_old |].
        exists kb. split; [exact Hkb |]. split.
        -- intros u ku Hin Hku Hcontra.
           apply in_app_or in Hin. destruct Hin as [Hin | [<- | []]].
           ++ exact (Hmax u ku Hin Hku Hcontra).
           ++ assert (better b v = true) by (apply better_spec; eauto).
              congruence.
        -- intros j u ku Hj Hu Hku.
           assert (i < List.length pre) by (apply nth_error_Some; congruence).
           apply nth_error_snoc_inv in Hu; [eauto | lia].
      * inversion Heq; subst i' b'. rewrite Hb.
        simpl in Inv. destruct Inv as (Hi & kb & Hkb & Hmax & Hfirst).
        simpl. split; [now apply nth_error_snoc_old |].
        exists kb. split; [exact Hkb |]. split.
        -- intros u ku Hin Hku Hcontra.
           apply in_app_or in Hin. destruct Hin as [Hin | [<- | []]].
           ++ exact (Hmax u ku Hin Hku Hcontra).
           ++ assert (better b v = true) by (apply better_spec; eauto).
              congruence.
        -- intros j u ku Hj Hu Hku.
           assert (i < List.length pre) by (apply nth_error_Some; congruence).
           apply nth_error_snoc_inv in Hu; [eauto | lia].
    + destruct Hnew as [Hnew | (i' & b' & Heq & _)]; [exact Hnew | discriminate].
Qed.

(** The whole scan, from any state that satisfies the invariant. *)
Lemma arg_best_invariant (l pre : list float) (best : option (nat * float)) :
  Extremum.best_so_far lt pre best ->
  Extremum.best_so_far lt (pre ++ l) (arg_best better l (List.length pre) best).
Proof.
  revert pre best. induction l as [| v l IH]; intros pre best Inv.
  - now rewrite app_nil_r.
  - simpl.
    replace (pre ++ v :: l) with ((pre ++ [v]) ++ l) by now rewrite <- app_assoc.
    replace (S (List.length pre)) with (List.length (pre ++ [v]))
      by (rewrite length_app; simpl; lia).
    apply IH. now apply best_so_far_step.
Qed.

Lemma arg_best_from_start (l : list float) :
  Extremum.best_so_far lt l (arg_best better l 0 None).
Proof.
  apply (@arg_best_invariant l [] None).
  intros u [].
Qed.

End ArgBest.

(** *** Extremes *)

Lemma fgt_rank (b v : float) :
  fgt b v = true <->
  exists kb kv, rank b = Some kb /\ rank v = Some kv /\ key_lt kv kb.
Proof.
  unfold fgt. change ((v <? b)%float) with (flt v b). rewrite ltb_rank.
  split; intros (x & y & Hx & Hy & Hlt); eauto.
Qed.

(** [idxmax] answers the first position of the greatest number. *)
Lemma idxmax_first_maximum (l : list float) (i : nat) :
  idxmax l = Ok i -> exists v, Extremum.first_maximum l i v.
Proof.
  unfold idxmax.
  pose proof (@arg_best_from_start flt key_lt key_lt_irrefl key_lt_trans
                key_lt_total ltb_rank l) as Inv.
  destruct (arg_best flt l 0 None) as [[i' b] |]; [| discriminate].
  intros H; inversion H; subst i'. simpl in Inv.
  destruct Inv as (Hi & kb & Hkb & Hmax & Hfirst).
  exists b. unfold Extremum.first_maximum. repeat split.
  - exact Hi.
  - apply isnan_rank. eauto.
  - intros u Hin Hu. apply isnan_rank in Hu. destruct Hu as (ku & Hku).
    apply leb_rank. exists ku, kb. repeat split; auto.
    destruct (key_lt_total ku kb) as [L | [E | G]]; auto.
    exfalso. exact (Hmax u ku Hin Hku G).
  - intros j u Hj Hu. destruct (feq u b) eqn:E; [| reflexivity].
    apply eqb_rank in E. destruct E as (a & Hua & Hba).
    assert (a = kb) by congruence. subst a.
    exfalso. eapply key_lt_irrefl. exact (Hfirst j u kb Hj Hu Hua).
Qed.

(** [idxmin] answers the first position of the least number. *)
Lemma idxmin_first_minimum (l : list float) (i : nat) :
  idxmin l = Ok i -> exists v, Extremum.first_minimum l i v.
Proof.
  unfold idxmin.
  pose proof (@arg_best_from_start fgt (fun a b => key_lt b a)
                key_lt_irrefl
                (fun a b c H1 H2 => @key_lt_trans c b a H2 H1)
                (fun a b => match key_lt_total a b with
                            | or_introl L => or_intror (or_intror L)
                            | or_intror (or_introl E) => or_intror (or_introl E)
                            | or_intror (or_intror G) => or_introl G
                            end)
                fgt_rank l) as Inv.
  destruct (arg_best fgt l 0 None) as [[i' b] |]; [| discriminate].
  intros H; inversion H; subst i'. simpl in Inv.
  destruct Inv as (Hi & kb & Hkb & Hmin & Hfirst).
  exists b. unfold Extremum.first_minimum. repeat split.
  - exact Hi.
  - apply isnan_rank. eauto.
  - intros u Hin Hu. apply isnan_rank in Hu. destruct Hu as (ku & Hku).
    apply leb_rank. exists kb, ku. repeat split; auto.
    destruct (key_lt_total kb ku) as [L | [E | G]]; auto.
    exfalso. exact (Hmin u ku Hin Hku G).
  - intros j u Hj Hu. destruct (feq u b) eqn:E; [| reflexivity].
    apply eqb_rank in E. destruct E as (a & Hua & Hba).
    assert (a = kb) by congruence. subst a.
    exfalso. eapply key_lt_irrefl. exact (Hfirst j u kb Hj Hu Hua).
Qed.

(** A column with a number in it has an [idxmax] and an [idxmin]. *)
Lemma arg_best_some (better : float -> float -> bool) (l : list float) (i : nat)
    (p : nat * float) :
  exists q, arg_best better l i (Some p) = Some q.
Proof.
  revert i p. induction l as [| v l IH]; intros i [j b]; simpl; [eauto |].
  destruct (isnan v); [apply IH |]. destruct (better b v); apply IH.
Qed.

Lemma arg_best_number (better : float -> float -> bool) (l : list float) (i : nat) :
  (exists u, In u l /\ isnan u = false) ->
  exists q, arg_best better l i None = Some q.
Proof.
  revert i. induction l as [| v l IH]; intros i (u & Hin & Hu); [destruct Hin |].
  simpl. destruct (isnan v) eqn:Hv.
  - apply IH. destruct Hin as [<- | Hin]; [congruence | eauto].
  - apply arg_best_some.
Qed.

Lemma find_first {A : Type} (f : A -> bool) (l : list A) (c : A) :
  find f l = Some c ->
  exists before after,
    l = before ++ c :: after /\ f c = true /\ forall x, In x before -> f x = false.
Proof.
  induction l as [| a l IH]; simpl; [discriminate |].
  destruct (f a) eqn:Ha.
  - intros H; inversion H; subst a. exists [], l. repeat split; auto. intros x [].
  - intros H. destruct (IH H) as (before & after & -> & Hc & Hbefore).
    exists (a :: before), after. repeat split; auto.
    intros x [<- | Hx]; auto.
Qed.

(** The resolved column is the first supporting column with the token in
    its name, else the primary column. *)
Lemma resolve_col_resolves (token primary_col : string) (supporting_cols : list string) :
  Extremum.resolves_to token primary_col supporting_cols
    (resolve_col token primary_col supporting_cols).
Proof.
  unfold resolve_col, Extremum.resolves_to.
  destruct (find (fun c => contains token (lower c)) supporting_cols) as [c |] eqn:E.
  - left. destruct (find_first _ _ E) as (before & after & H1 & H2 & H3). eauto.
  - right. split; [reflexivity |]. intros x Hx.
    exact (find_none _ _ E x Hx).
Qed.

Lemma first_match_unique {A : Type} (f : A -> bool) (b1 b2 a1 a2 : list A) (c c' : A) :
  b1 ++ c :: a1 = b2 ++ c' :: a2 ->
  f c = true -> f c' = true ->
  (forall x, In x b1 -> f x = false) -> (forall x, In x b2 -> f x = false) ->
  c = c'.
Proof.
  revert b2. induction b1 as [| x b1 IH]; intros [| y b2] Heq Hc Hc' H1 H2;
    simpl in Heq; inversion Heq; subst.
  - reflexivity.
  - rewrite (H2 y (or_introl eq_refl)) in Hc. discriminate.
  - rewrite (H1 c' (or_introl eq_refl)) in Hc'. discriminate.
  - apply (IH b2); auto.
    + intros z Hz. apply H1. now right.
    + intros z Hz. apply H2. now right.
Qed.

(** There is one resolved column. *)
Lemma resolves_to_unique (token primary_col : string) (supporting_cols : list string)
    (c c' : string) :
  Extremum.resolves_to token primary_col supporting_cols c ->
  Extremum.resolves_to token primary_col supporting_cols c' ->
  c = c'.
Proof.
  intros [(b1 & a1 & E1 & Hc & H1) | [-> Hnone]] [(b2 & a2 & E2 & Hc' & H2) | [-> Hnone']].
  - rewrite E1 in E2.
    exact (@first_match_unique _ (fun x => contains token (lower x))
             b1 b2 a1 a2 c c' E2 Hc Hc' H1 H2).
  - rewrite Hnone' in Hc; [discriminate |].
    rewrite E1. apply in_or_app. right. now left.
  - rewrite Hnone in Hc'; [discriminate |].
    rewrite E2. apply in_or_app. right. now left.
  - reflexivity.
Qed.

(** What one side of [_identify_extremes] returns. *)
Lemma extreme_of_inv (df : DataFrame) (pick : list float -> result nat) (col : string)
    (r : option Extreme) :
  extreme_of df pick col = Ok r ->
  (in_columns df col = false /\ r = None)
  \/ (in_columns df col = true
      /\ exists idx x, pick (column df col) = Ok idx /\ r = Some x
                       /\ nth_error (column df col) idx = Some (value x)
                       /\ nth_error (df_dates df) idx = Some (date x)).
Proof.
  unfold extreme_of. destruct (in_columns df col); [| intros H; inversion H; auto].
  destruct (pick (column df col)) as [idx | err]; simpl; [| discriminate].
  unfold loc.
  destruct (nth_error (column df col) idx) as [v |] eqn:Ev; simpl; [| discriminate].
  destruct (nth_error (df_dates df) idx) as [d |] eqn:Ed; simpl; [| discriminate].
  intros H; inversion H; subst. right. split; [reflexivity |].
  exists idx, {| value := v; date := d |}. repeat split; assumption.
Qed.

(** C7.  When [_identify_extremes] returns extremes, [highest] is read
    in the first supporting column whose name contains "max", or in the
    primary column when there is none; it is there exactly when the table
    has that column; its value is the greatest number of the whole column,
    its row is the first row of the table holding that value, and its date
    is the date of that row.  The same holds of [lowest] with "min" and
    the least number. *)
Theorem extremes_consistency (df : DataFrame) (primary_col : string)
    (supporting_cols : list string) (e : Extremes) :
  _identify_extremes df primary_col supporting_cols = Ok (Some e) ->
  exists max_col min_col,
    Extremum.resolves_to "max" primary_col supporting_cols max_col
    /\ Extremum.resolves_to "min" primary_col supporting_cols min_col
    /\ (in_columns df max_col = true <-> exists h, highest e = Some h)
    /\ (in_columns df min_col = true <-> exists l, lowest e = Some l)
    /\ (forall h, highest e = Some h ->
        exists i, Extremum.first_maximum (column df max_col) i (value h)
                  /\ nth_error (df_dates df) i = Some (date h))
    /\ (forall l, lowest e = Some l ->
        exists i, Extremum.first_minimum (column df min_col) i (value l)
                  /\ nth_error (df_dates df) i = Some (date l)).
Proof.
  unfold _identify_extremes. intros H.
  exists (resolve_col "max" primary_col supporting_cols),
         (resolve_col "min" primary_col supporting_cols).
  split; [apply resolve_col_resolves |]. split; [apply resolve_col_resolves |].
  destruct (extreme_of df idxmax (resolve_col "max" primary_col supporting_cols))
    as [hi | err] eqn:Ehi; simpl in H; [| discriminate].
  destruct (extreme_of df idxmin (resolve_col "min" primary_col supporting_cols))
    as [lo | err] eqn:Elo; simpl in H; [| discriminate].
  destruct (extremes_truthy {| highest := hi; lowest := lo |}); inversion H; subst e.
  simpl. clear H.
  apply extreme_of_inv in Ehi, Elo.
  repeat split.
  - intros Hin. destruct Ehi as [[Hno _] | (_ & idx & x & _ & -> & _)]; [congruence | eauto].
  - intros (h & Hh). destruct Ehi as [[_ ->] | [Hin _]]; [discriminate | exact Hin].
  - intros Hin. destruct Elo as [[Hno _] | (_ & idx & x & _ & -> & _)]; [congruence | eauto].
  - intros (l & Hl). destruct Elo as [[_ ->] | [Hin _]]; [discriminate | exact Hin].
  - intros h Hh. destruct Ehi as [[_ ->] | (_ & idx & x & Hpick & -> & Hv & Hd)];
      [discriminate |].
    inversion Hh; subst x. exists idx. split; [| exact Hd].
    destruct (idxmax_first_maximum _ Hpick) as (v & Hmax).
    assert (v = value h) by (destruct Hmax as (Hnth & _); congruence).
    subst v. exact Hmax.
  - intros l Hl. destruct Elo as [[_ ->] | (_ & idx & x & Hpick & -> & Hv & Hd)];
      [discriminate |].
    inversion Hl; subst x. exists idx. split; [| exact Hd].
    destruct (idxmin_first_minimum _ Hpick) as (v & Hmin).
    assert (v = value l) by (destruct Hmin as (Hnth & _); congruence).
    subst v. exact Hmin.
Qed.

(** The theorem on three days whose maximum 35 is reached twice and whose
    minimum -1 is reached twice: the earlier day is reported each time. *)
Lemma extremes_consistency_witness :
  exists max_col min_col,
    Extremum.resolves_to "max" "temp" ["temp_min"; "temp_max"]%string max_col
    /\ Extremum.resolves_to "min" "temp" ["temp_min"; "temp_max"]%string min_col
    /\ (in_columns Sample.extremes_table max_col = true <->
        exists h, Some {| value := 35.0; date := mkDate 2021 1 2 |} = Some h)
    /\ (in_columns Sample.extremes_table min_col = true <->
        exists l, Some {| value := -1.0; date := mkDate 2021 1 1 |} = Some l)
    /\ (forall h, Some {| value := 35.0; date := mkDate 2021 1 2 |} = Some h ->
        exists i, Extremum.first_maximum (column Sample.extremes_table max_col) i (value h)
                  /\ nth_error (df_dates Sample.extremes_table) i = Some (date h))
    /\ (forall l, Some {| value := -1.0; date := mkDate 2021 1 1 |} = Some l ->
        exists i, Extremum.first_minimum (column Sample.extremes_table min_col) i (value l)
                  /\ nth_error (df_dates Sample.extremes_table) i = Some (date l)).
Proof.
  apply (@extremes_consistency Sample.extremes_table "temp"
           ["temp_min"; "temp_max"]%string
           {| highest := Some {| value := 35.0; date := mkDate 2021 1 2 |};
              lowest := Some {| value := -1.0; date := mkDate 2021 1 1 |} |}).
  reflexivity.
Defined.

(** When the resolved column is in the table, holds a number and is not
    longer than the [date] column, its side of the extremes is computed. *)
Lemma extreme_of_total (df : DataFrame) (col : string) :
  in_columns df col = true ->
  (exists u, In u (column df col) /\ isnan u = false) ->
  List.length (column df col) <= List.length (df_dates df) ->
  (exists x, extreme_of df idxmax col = Ok (Some x))
  /\ (exists x, extreme_of df idxmin col = Ok (Some x)).
Proof.
  intros Hin Hnum Hlen. unfold extreme_of, idxmax, idxmin. rewrite Hin.
  split.
  - pose proof (@arg_best_from_start flt key_lt key_lt_irrefl key_lt_trans
                  key_lt_total ltb_rank (column df col)) as Inv.
    destruct (@arg_best_number flt (column df col) 0 Hnum) as ([i b] & Hq).
    rewrite Hq in *. simpl in *. destruct Inv as (Hi & _).
    unfold loc. rewrite Hi. simpl.
    assert (Hlt : i < List.length (df_dates df)).
    { assert (i < List.length (column df col)) by (apply nth_error_Some; congruence). lia. }
    apply nth_error_Some in Hlt.
    destruct (nth_error (df_dates df) i) as [d |]; [| congruence].
    simpl. eauto.
  - pose proof (@arg_best_from_start fgt (fun a b => key_lt b a)
                  key_lt_irrefl
                  (fun a b c H1 H2 => @key_lt_trans c b a H2 H1)
                  (fun a b => match key_lt_total a b with
                              | or_introl L => or_intror (or_intror L)
                              | or_intror (or_introl E) => or_intror (or_introl E)
                              | or_intror (or_intror G) => or_introl G
                              end)
                  fgt_rank (column df col)) as Inv.
    destruct (@arg_best_number fgt (column df col) 0 Hnum) as ([i b] & Hq).
    rewrite Hq in *. simpl in *. destruct Inv as (Hi & _).
    unfold loc. rewrite Hi. simpl.
    assert (Hlt : i < List.length (df_dates df)).
    { assert (i < List.length (column df col)) by (apply nth_error_Some; congruence). lia. }
    apply nth_error_Some in Hlt.
    destruct (nth_error (df_dates df) i) as [d |]; [| congruence].
    simpl. eauto.
Qed.

End AnalyzerFacts.

(** ** Dictionaries *)

Module DictFacts.

Lemma dict_get_set_eq {V : Type} (k : string) (v : V) (d : dict V) :
  dict_get k (dict_set k v d) = Some v.
Proof.
  induction d as [| [k' v'] d IH]; simpl.
  - now rewrite String.eqb_refl.
  - destruct (String.eqb k k') eqn:E; simpl; rewrite ?String.eqb_refl, ?E; auto.
Qed.

Lemma dict_get_set_ne {V : Type} (k k' : string) (v : V) (d : dict V) :
  k <> k' -> dict_get k' (dict_set k v d) = dict_get k' d.
Proof.
  intros Hne. induction d as [| [k0 v0] d IH]; simpl.
  - destruct (String.eqb k' k) eqn:E; [| reflexivity].
    apply String.eqb_eq in E. congruence.
  - destruct (String.eqb k k0) eqn:E; simpl.
    + apply String.eqb_eq in E. subst k0.
      destruct (String.eqb k' k) eqn:E'; [| reflexivity].
      apply String.eqb_eq in E'. congruence.
    + now rewrite IH.
Qed.

Lemma dict_get_in_keys {V : Type} (k : string) (d : dict V) :
  dict_mem k d = true <-> In k (dict_keys d).
Proof.
  unfold dict_mem, dict_keys. induction d as [| [k' v'] d IH]; simpl.
  - split; [discriminate | intros []].
  - destruct (String.eqb k k') eqn:E.
    + apply String.eqb_eq in E. subst. split; auto.
    + apply String.eqb_neq in E. rewrite IH. split; [auto | intros [H | H]; congruence].
Qed.

Lemma dict_keys_set {V : Type} (k : string) (v : V) (d : dict V) :
  dict_keys (dict_set k v d)
  = if dict_mem k d then dict_keys d else dict_keys d ++ [k].
Proof.
  unfold dict_mem, dict_keys. induction d as [| [k' v'] d IH]; simpl; [reflexivity |].
  destruct (String.eqb k k') eqn:E; simpl.
  - apply String.eqb_eq in E. now subst.
  - rewrite IH. now destruct (dict_get k d).
Qed.


(** Removing a key leaves the other keys as they are. *)
Lemma dict_get_remove_ne {V : Type} (k g : string) (d : dict V) :
  g <> k -> dict_get g (dict_remove k d) = dict_get g d.
Proof.
  intros Hne. unfold dict_remove. induction d as [| [k' v'] d IH]; simpl; [reflexivity |].
  destruct (String.eqb k k') eqn:E; simpl.
  - apply String.eqb_eq in E. subst k'.
    destruct (String.eqb g k) eqn:G; [apply String.eqb_eq in G; congruence | exact IH].
  - now rewrite IH.
Qed.

Lemma dict_get_remove_eq {V : Type} (k : string) (d : dict V) :
  dict_get k (dict_remove k d) = None.
Proof.
  unfold dict_remove. induction d as [| [k' v'] d IH]; simpl; [reflexivity |].
  destruct (String.eqb k k') eqn:E; simpl; [exact IH | now rewrite E].
Qed.

Lemma dict_remove_absent {V : Type} (k : string) (d : dict V) :
  ~ In k (dict_keys d) -> dict_remove k d = d.
Proof.
  unfold dict_remove, dict_keys. induction d as [| [k' v'] d IH]; simpl; intros H;
    [reflexivity |].
  destruct (String.eqb k k') eqn:E.
  - apply String.eqb_eq in E. subst. tauto.
  - simpl. rewrite IH; tauto.
Qed.

Import Pairs.





End DictFacts.

(** ** The analysis pipeline *)

Module AnalysisFacts.

Import DatasetAnalyzer Pairs DictFacts.

(** [_detect_trend] is the regression, its result rewritten as a trend. *)
Lemma detect_trend_regression (backend : Backend) (df : DataFrame) (col : string) :
  _detect_trend backend df col
  = match linregress backend (map year_numeric (df_dates df)) (column df col) with
    | Ok r => Ok (trend_of backend r)
    | Raise err => Raise err
    end.
Proof.
  unfold _detect_trend.
  destruct (linregress backend (map year_numeric (df_dates df)) (column df col));
    reflexivity.
Qed.

(** What a turn of the loop of [analyze] does to the results. *)
Lemma analyze_group_inv (backend : Backend) (df : DataFrame) (results results' : dict Bundle)
    (g : string) (cfg : GroupConfig) :
  analyze_group backend df results (g, cfg) = Ok results' ->
  (in_columns df (primary cfg) = false /\ results' = results)
  \/ (in_columns df (primary cfg) = true
      /\ exists r y e,
          linregress backend (map year_numeric (df_dates df)) (column df (primary cfg)) = Ok r
          /\ _compute_yearly_comparisons backend df (primary cfg) = Ok y
          /\ _identify_extremes df (primary cfg) (supporting cfg) = Ok e
          /\ results' = dict_set g (bundle_of backend df cfg (trend_of backend r) y e) results).
Proof.
  unfold analyze_group. destruct (in_columns df (primary cfg)).
  - rewrite detect_trend_regression.
    destruct (linregress backend (map year_numeric (df_dates df))
                (column df (primary cfg))) as [r | err]; simpl; [| discriminate].
    destruct (_compute_yearly_comparisons backend df (primary cfg)) as [y | err];
      simpl; [| discriminate].
    destruct (_identify_extremes df (primary cfg) (supporting cfg)) as [e | err];
      simpl; [| discriminate].
    intros H; inversion H. right. split; [reflexivity |].
    exists r, y, e. repeat split; reflexivity.
  - intros H; inversion H. left. split; reflexivity.
Qed.

(** A group that is not in the rest of the schema keeps its entry. *)
Lemma analyze_groups_other (backend : Backend) (df : DataFrame)
    (l : dict GroupConfig) (acc results : dict Bundle) (g : string) :
  analyze_groups backend df l acc = Ok results ->
  ~ In g (dict_keys l) ->
  dict_get g results = dict_get g acc.
Proof.
  revert acc. induction l as [| [g' cfg'] l IH]; intros acc H Hnot;
    unfold dict_keys in *; cbn [analyze_groups map fst In] in *.
  - now inversion H.
  - destruct (analyze_group backend df acc (g', cfg')) as [acc' |] eqn:E;
      simpl in H; [| discriminate].
    rewrite (IH acc' H) by tauto.
    destruct (analyze_group_inv _ _ _ _ _ E) as [[_ ->] | (_ & r & y & e & _ & _ & _ & ->)];
      [reflexivity |].
    apply dict_get_set_ne. tauto.
Qed.

(** When the loop returns, every group whose primary column is in the
    table has its bundle, built from what its sub-computations returned. *)
Lemma analyze_groups_bundle (backend : Backend) (df : DataFrame)
    (l : dict GroupConfig) (acc results : dict Bundle) (g : string) (cfg : GroupConfig) :
  NoDup (dict_keys l) ->
  analyze_groups backend df l acc = Ok results ->
  In (g, cfg) l -> in_columns df (primary cfg) = true ->
  exists r y e,
    linregress backend (map year_numeric (df_dates df)) (column df (primary cfg)) = Ok r
    /\ _compute_yearly_comparisons backend df (primary cfg) = Ok y
    /\ _identify_extremes df (primary cfg) (supporting cfg) = Ok e
    /\ dict_get g results = Some (bundle_of backend df cfg (trend_of backend r) y e).
Proof.
  revert acc. induction l as [| [g' cfg'] l IH]; intros acc Hnd H Hin Hcol; [destruct Hin |].
  unfold dict_keys in *; cbn [analyze_groups map fst In] in *. inversion Hnd as [| ? ? Hnotin Hnd']; subst.
  destruct (analyze_group backend df acc (g', cfg')) as [acc' |] eqn:E;
    simpl in H; [| discriminate].
  destruct Hin as [Heq | Hin].
  - inversion Heq; subst g' cfg'.
    destruct (analyze_group_inv _ _ _ _ _ E)
      as [[Hno _] | (_ & r & y & e & Hr & Hy & He & ->)]; [congruence |].
    exists r, y, e. repeat split; auto.
    rewrite (analyze_groups_other _ _ _ _ g H Hnotin).
    apply dict_get_set_eq.
  - eapply IH; eauto.
Qed.

(** A regression that raises for a group stops the loop. *)
Lemma analyze_groups_raise (backend : Backend) (df : DataFrame)
    (l : dict GroupConfig) (acc : dict Bundle) (g : string) (cfg : GroupConfig) (err : exn) :
  In (g, cfg) l -> in_columns df (primary cfg) = true ->
  linregress backend (map year_numeric (df_dates df)) (column df (primary cfg)) = Raise err ->
  is_ok (analyze_groups backend df l acc) = false.
Proof.
  revert acc. induction l as [| [g' cfg'] l IH]; intros acc Hin Hcol Hr; [destruct Hin |].
  cbn [analyze_groups In] in *. destruct (analyze_group backend df acc (g', cfg')) as [acc' | err'] eqn:E;
    simpl; [| reflexivity].
  destruct Hin as [Heq | Hin]; [| eapply IH; eauto].
  inversion Heq; subst g' cfg'.
  destruct (analyze_group_inv _ _ _ _ _ E)
    as [[Hno _] | (_ & r & _ & _ & Hr' & _)]; congruence.
Qed.

(** On two rows of the same day the regression refuses its input and the
    exception leaves [analyze]: no bundle is produced, although the
    primary column of the temperature group is in the table. *)
Lemma analyze_raises_on_single_time_point :
  in_columns Sample.same_day_table "temperature_2m_mean (°C)" = true
  /\ analyze Sample.backend Sample.same_day_table "Oslo" Summarizer.variable_groups
     = Raise (ValueError
                "Cannot calculate a linear regression if all x values are identical").
Proof. split; reflexivity. Qed.

(** C2, as the code has it.  [analyze] evaluates the sub-computations of
    a group one after the other and isolates none of them.  For a group
    of the schema whose primary column is in the table and whose name is
    not [patterns] (the key that [analyze] assigns last): if the
    regression raises, no statistics come out of [analyze]; and if
    [analyze] returns, the regression, the yearly comparison and the
    extremes all returned, and the group's bundle holds the seven
    sub-bundles, its trend being the regression's result with [r_squared]
    the power [r_value ** 2]. *)
Theorem analyze_isolates_nothing (backend : Backend) (df : DataFrame)
    (station_name : string) (variable_groups : dict GroupConfig)
    (g : string) (cfg : GroupConfig) :
  NoDup (dict_keys variable_groups) ->
  In (g, cfg) variable_groups ->
  g <> "patterns"%string ->
  in_columns df (primary cfg) = true ->
  (forall err,
      linregress backend (map year_numeric (df_dates df)) (column df (primary cfg))
      = Raise err ->
      is_ok (analyze backend df station_name variable_groups) = false)
  /\
  (forall stats,
      analyze backend df station_name variable_groups = Ok stats ->
      exists r y e,
        linregress backend (map year_numeric (df_dates df)) (column df (primary cfg)) = Ok r
        /\ _compute_yearly_comparisons backend df (primary cfg) = Ok y
        /\ _identify_extremes df (primary cfg) (supporting cfg) = Ok e
        /\ dict_get g (groups stats) = Some (bundle_of backend df cfg (trend_of backend r) y e)).
Proof.
  intros Hnd Hin Hname Hcol. unfold analyze. split.
  - intros err Hr.
    pose proof (analyze_groups_raise backend df variable_groups [] g cfg Hin Hcol Hr) as H.
    destruct (analyze_groups backend df variable_groups []); [discriminate | reflexivity].
  - intros stats H.
    destruct (analyze_groups backend df variable_groups []) as [results |] eqn:E;
      simpl in H; [| discriminate].
    inversion H; subst stats; cbn [groups].
    rewrite (dict_get_remove_ne results Hname).
    eapply analyze_groups_bundle; eauto.
Qed.

(** The bundle of a group named [patterns] does not reach the result:
    the patterns are assigned under its key after the loop. *)
Example analyze_overwrites_patterns_group :
  exists stats,
    analyze Sample.backend Tables.warm_days_table "Oslo" Tables.patterns_schema = Ok stats
    /\ in_columns Tables.warm_days_table "temperature_2m_mean (°C)" = true
    /\ dict_get "patterns" (groups stats) = None
    /\ is_ok (analyze_groups Sample.backend Tables.warm_days_table
                Tables.patterns_schema []) = true.
Proof. eexists. repeat split; reflexivity. Qed.

Lemma distinct_nodup (l : list string) : distinct l = true -> NoDup l.
Proof.
  induction l as [| x l IH]; simpl; intros H; [constructor |].
  apply andb_true_iff in H. destruct H as [Hx Hl].
  constructor; [| auto].
  intros Hin. apply negb_true_iff in Hx.
  assert (existsb (String.eqb x) l = true)
    by (apply existsb_exists; exists x; split; [exact Hin | apply String.eqb_refl]).
  congruence.
Qed.

(** The theorem on three days of temperature and precipitation under the
    deployed schema: the regression returns and the temperature bundle is
    there. *)
Lemma analyze_isolates_nothing_witness :
  (forall err,
      linregress Sample.backend (map year_numeric (df_dates Sample.two_group_table))
                 (column Sample.two_group_table "temperature_2m_mean (°C)"%string)
      = Raise err ->
      is_ok (analyze Sample.backend Sample.two_group_table "Oslo"
                     Summarizer.variable_groups) = false)
  /\
  (forall stats,
      analyze Sample.backend Sample.two_group_table "Oslo" Summarizer.variable_groups
      = Ok stats ->
      exists r y e,
        linregress Sample.backend (map year_numeric (df_dates Sample.two_group_table))
                   (column Sample.two_group_table "temperature_2m_mean (°C)"%string) = Ok r
        /\ _compute_yearly_comparisons Sample.backend Sample.two_group_table
             "temperature_2m_mean (°C)"%string = Ok y
        /\ _identify_extremes Sample.two_group_table "temperature_2m_mean (°C)"%string
             ["temperature_2m_min (°C)"%string; "temperature_2m_max (°C)"%string]%string = Ok e
        /\ dict_get "temperature" (groups stats)
           = Some (bundle_of Sample.backend Sample.two_group_table
                     {| primary := "temperature_2m_mean (°C)"%string;
                        supporting := ["temperature_2m_min (°C)"%string;
                                       "temperature_2m_max (°C)"%string];
                        comparison := ["apparent_temperature_mean (°C)"%string] |}
                     (trend_of Sample.backend r) y e)).
Proof.
  apply (@analyze_isolates_nothing Sample.backend Sample.two_group_table "Oslo"
           Summarizer.variable_groups "temperature"
           {| primary := "temperature_2m_mean (°C)"%string;
              supporting := ["temperature_2m_min (°C)"%string; "temperature_2m_max (°C)"%string];
              comparison := ["apparent_temperature_mean (°C)"%string] |}).
  - apply distinct_nodup. reflexivity.
  - left. reflexivity.
  - discriminate.
  - reflexivity.
Defined.

(** On a single row the reference regression returns a degenerate trend
    (an [r_squared] and a slope that are not numbers) and the other
    sub-bundles are computed. *)
Example analyze_single_row :
  exists stats b,
    analyze Sample.backend Sample.one_row_table "Oslo" Summarizer.variable_groups = Ok stats
    /\ dict_get "temperature" (groups stats) = Some b
    /\ isnan (r_squared (trend b)) = true
    /\ isnan (slope (trend b)) = true
    /\ direction (trend b) = "decreasing"%string.
Proof. eexists; eexists. repeat split; reflexivity. Qed.

(** *** The correlation mapping *)



Section Correlations.

Variable backend : Backend.
Variable df : DataFrame.
Variable results : dict Bundle.



End Correlations.

(** After the loop of [analyze] the results cover the schema. *)
Lemma dict_mem_set {V : Type} (k g : string) (v : V) (d : dict V) :
  dict_mem g d = true -> dict_mem g (dict_set k v d) = true.
Proof.
  unfold dict_mem. intros H. destruct (String.eqb k g) eqn:E.
  - apply String.eqb_eq in E. subst. now rewrite dict_get_set_eq.
  - apply String.eqb_neq in E. now rewrite dict_get_set_ne.
Qed.













(** On that table the one entry is that of temperature and precipitation,
    which fall together perfectly. *)
Example correlations_two_groups :
  exists stats p,
    analyze Sample.backend Sample.two_group_table "Oslo" Summarizer.variable_groups
    = Ok stats
    /\ patterns stats = Some p
    /\ correlations p
       = [("temperature_and_precipitation"%string,
           {| correlation := -1; relationship := "inverse" |})].
Proof. eexists; eexists. repeat split; reflexivity. Qed.

End AnalysisFacts.

(** ** The realizer and the final assembly *)

Module RealizerFacts.

Import ContentPlanner TemplateRealizer Summarizer Rendering.

(** When [format] misses a key, [realize] answers the empty text and
    prints the warning. *)
Lemma realize_catches_format_key_error
    (format_value : pyval -> string -> result string)
    (fact_type : string) (data : pyval) (w : World)
    (choices : list string) (formatted_data : dict pyval) (key : string) :
  dict_get fact_type templates = Some choices ->
  _prepare_data fact_type data = Ok formatted_data ->
  str_format format_value (fst (random_choice choices w)) formatted_data
  = Raise (KeyError key) ->
  realize format_value fact_type data w
  = Ok (EmptyString,
        print (missing_key_warning key fact_type) (snd (random_choice choices w))).
Proof.
  intros Ht Hp Hf. unfold realize. rewrite Ht.
  destruct (random_choice choices w) as [template w']. simpl in *.
  rewrite Hp. simpl. rewrite Hf. reflexivity.
Qed.

(** An extremes fact without [lowest] loses its temperature sentence and
    keeps its precipitation sentence, which needs [highest] only. *)
Example realize_incomplete_extremes :
  realize Reference.ref_format_value "temperature_extremes"
          (PyOf.of_extremes Sample.highest_only) Sample.world
  = Ok (EmptyString,
        {| draws := [1; 0; 1];
           printed := ["Warning: Missing key 'lowest_value' for template temperature_extremes"%string] |})
  /\ realize Reference.ref_format_value "precipitation_extremes"
             (PyOf.of_extremes Sample.highest_only) Sample.world
     = Ok ("The heaviest single-day precipitation was 35.00 mm on July 14, 2021."%string,
           {| draws := [1; 0; 1]; printed := [] |}).
Proof. split; reflexivity. Qed.

(** C9 at the payloads that lack what [_prepare_data] reads.  The empty
    payload that the planner attaches to [pattern_correlation] when it
    kept no pair, and a trend payload without [slope], make [realize]
    raise [KeyError] instead of answering the empty text, whatever the
    formatter and the random draws: the lookup is made before the guarded
    call of [format].  The summary of the content planned for statistics
    with an empty correlation mapping is lost with it. *)
Theorem realize_raises_before_format
    (format_value : pyval -> string -> result string) (w : World) :
  realize format_value "pattern_correlation" (PyOf.of_max_corr None) w
  = Raise (KeyError "correlation")
  /\ realize format_value "temperature_trend" (VDict []) w = Raise (KeyError "slope")
  /\ summarize_content Reference.ref_format_value
       (select_content Sample.config (Sample.stats_with (Some Sample.no_correlation)))
       Sample.world
     = Raise (KeyError "correlation").
Proof.
  repeat split; try reflexivity.
  - unfold realize, random_choice. simpl. destruct (draws w); reflexivity.
  - unfold realize, random_choice. simpl. destruct (draws w); reflexivity.
Qed.

(** The loop of [generate_summary] keeps the non-empty sentences, in the
    order of the facts. *)
Lemma render_all_each (format_value : pyval -> string -> result string)
    (content : list Fact) (sentences : list string) (w : World) :
  render_all format_value content sentences w
  = (rw <- render_each format_value content w ;;
     Ok (sentences ++ filter str_truthy (fst rw), snd rw)).
Proof.
  revert sentences w. induction content as [| fact rest IH]; intros sentences w.
  - simpl. now rewrite app_nil_r.
  - cbn [render_all render_each].
    destruct (render_fact format_value fact w) as [[sentence w'] | err]; simpl;
      [| reflexivity].
    rewrite IH.
    destruct (render_each format_value rest w') as [[ss w''] | err]; simpl;
      [| reflexivity].
    destruct (str_truthy sentence); simpl; now rewrite <- ?app_assoc.
Qed.

(** The summary is the non-empty sentences joined by single spaces. *)
Lemma summarize_content_join (format_value : pyval -> string -> result string)
    (content : list Fact) (w : World) :
  summarize_content format_value content w
  = (rw <- render_each format_value content w ;;
     Ok (join " " (filter str_truthy (fst rw)), snd rw)).
Proof.
  unfold summarize_content. rewrite render_all_each.
  destruct (render_each format_value content w) as [[ss w'] | err]; reflexivity.
Qed.

(** A kind without templates renders to the empty text and leaves the
    world as it was. *)
Lemma realize_unregistered (format_value : pyval -> string -> result string)
    (kind : string) (data : pyval) (w : World) :
  registered kind = false -> realize format_value kind data w = Ok (EmptyString, w).
Proof.
  unfold registered, dict_mem, realize. intros H.
  destruct (dict_get kind templates); [discriminate | reflexivity].
Qed.

Lemma render_all_filter (format_value : pyval -> string -> result string)
    (content : list Fact) (sentences : list string) (w : World) :
  render_all format_value content sentences w
  = render_all format_value (filter reaches_a_template content) sentences w.
Proof.
  revert sentences w. induction content as [| [kind payload] rest IH]; intros sentences w;
    [reflexivity |].
  cbn [filter]. destruct (reaches_a_template (kind, payload)) eqn:E.
  - cbn [render_all].
    destruct (render_fact format_value (kind, payload) w) as [[sentence w'] | err];
      simpl; [apply IH | reflexivity].
  - unfold reaches_a_template in E. simpl in E.
    apply orb_false_iff in E. destruct E as [Hreg Hother].
    cbn [render_all]. unfold render_fact. rewrite Hother.
    rewrite (@realize_unregistered format_value kind (PyOf.of_payload payload) w Hreg).
    simpl. apply IH.
Qed.

(** The fact [other_conditions], which the planner emits for a notable
    secondary variable, has no entry in the registry and still gives a
    sentence of the summary. *)
Lemma other_conditions_contributes :
  select_content Sample.config Sample.windy_stats
  = [("overview"%string, PBasic Sample.basic_info);
     ("other_conditions"%string, PSecondary [("wind_speed"%string, Sample.windy_bundle)])]
  /\ registered "other_conditions" = false
  /\ summarize_content Reference.ref_format_value
       (select_content Sample.config Sample.windy_stats) Sample.world
     = Ok ("This analysis covers daily weather observations from Oslo, spanning January 01, 2021 to December 31, 2021. Other conditions included wind speed averaging 12.0 kmh."%string,
           {| draws := [1; 0; 1]; printed := [] |}).
Proof. repeat split; reflexivity. Qed.

(** C10, as the code has it.  [realize] answers the empty text for every
    fact whose kind has no entry in the registry of templates, whatever
    the payload; [pattern_trends], [precipitation_seasonal] and
    [precipitation_yearly] are such kinds; and the summary of a planned
    content is the summary of that content without the facts of
    unregistered kinds other than [other_conditions], which the
    summarizer renders apart. *)
Theorem unregistered_kinds_render_nothing
    (format_value : pyval -> string -> result string) :
  (forall kind data w,
      registered kind = false -> realize format_value kind data w = Ok (EmptyString, w))
  /\ registered "pattern_trends" = false
  /\ registered "precipitation_seasonal" = false
  /\ registered "precipitation_yearly" = false
  /\ (forall content w,
        summarize_content format_value content w
        = summarize_content format_value (filter reaches_a_template content) w).
Proof.
  split; [intros; now apply realize_unregistered |].
  repeat split; try reflexivity.
  intros content w. unfold summarize_content. now rewrite render_all_filter.
Qed.

(** The theorem at the [pattern_trends] fact of two trending variables. *)
Lemma unregistered_kinds_render_nothing_witness :
  realize Reference.ref_format_value "pattern_trends"
          (PyOf.of_payload
             (PTrends [{| name := "temperature"; tv_r_squared := 0.49;
                          tv_direction := "increasing"; tv_slope := 0.8 |}]))
          Sample.world
  = Ok (EmptyString, Sample.world).
Proof.
  destruct (unregistered_kinds_render_nothing Reference.ref_format_value) as [H _].
  apply H. reflexivity.
Defined.

End RealizerFacts.

(* ================================================================== *)
(** * Part III: further properties of the code                          *)
(* ================================================================== *)

(** ** More on the order of the floats *)

Module FloatOrderMore.

Import FloatOrder FloatOrderFacts.

Lemma flt_irrefl (x : float) : flt x x = false.
Proof.
  destruct (flt x x) eqn:E; [| reflexivity].
  apply ltb_rank in E. destruct E as (a & b & Ha & Hb & Hlt).
  assert (a = b) by congruence. subst. exfalso. eapply key_lt_irrefl; eauto.
Qed.

Lemma fle_flt_trans (x y z : float) : fle x y = true -> flt y z = true -> flt x z = true.
Proof.
  intros H1 H2. apply leb_rank in H1. apply ltb_rank in H2. apply ltb_rank.
  destruct H1 as (a & b & Ha & Hb & Hab), H2 as (b' & c & Hb' & Hc & Hbc).
  assert (b' = b) by congruence. subst b'.
  exists a, c. repeat split; auto.
  destruct Hab as [-> | Hab]; eauto using key_lt_trans.
Qed.

Lemma flt_fle_trans (x y z : float) : flt x y = true -> fle y z = true -> flt x z = true.
Proof.
  intros H1 H2. apply ltb_rank in H1. apply leb_rank in H2. apply ltb_rank.
  destruct H1 as (a & b & Ha & Hb & Hab), H2 as (b' & c & Hb' & Hc & Hbc).
  assert (b' = b) by congruence. subst b'.
  exists a, c. repeat split; auto.
  destruct Hbc as [<- | Hbc]; eauto using key_lt_trans.
Qed.

(** [x < y] excludes [y <= x] and [y < x]. *)
Lemma flt_not_fle (x y : float) : flt x y = true -> fle y x = false.
Proof.
  intros H. destruct (fle y x) eqn:E; [| reflexivity].
  pose proof (flt_fle_trans H E) as C. rewrite flt_irrefl in C. discriminate.
Qed.

Lemma flt_asym (x y : float) : flt x y = true -> flt y x = false.
Proof.
  intros H. destruct (flt y x) eqn:E; [| reflexivity].
  pose proof (flt_trans H E) as C. rewrite flt_irrefl in C. discriminate.
Qed.

Lemma flt_fle (x y : float) : flt x y = true -> fle x y = true.
Proof.
  intros H. apply ltb_rank in H. apply leb_rank.
  destruct H as (a & b & Ha & Hb & Hlt). eauto 6.
Qed.

Lemma flt_number (x y : float) : flt x y = true -> isnan x = false /\ isnan y = false.
Proof.
  intros H. apply ltb_rank in H. destruct H as (a & b & Ha & Hb & _).
  split; apply isnan_rank; eauto.
Qed.

Lemma fle_number (x y : float) : fle x y = true -> isnan x = false /\ isnan y = false.
Proof.
  intros H. apply leb_rank in H. destruct H as (a & b & Ha & Hb & _).
  split; apply isnan_rank; eauto.
Qed.

End FloatOrderMore.

(** ** The ladders of the lexicalizer *)

Module LadderFacts.

Import FloatOrderFacts FloatOrderMore Ladder ContentPlanner.

(** X1.  A temperature that is not lower never gets a colder adjective:
    both [describe_temperature] functions (the Celsius breakpoints of
    [lexicalizer.py] and the Fahrenheit ones of [ai.py]) are monotone from
    "freezing" up to "hot". *)
Theorem describe_temperature_monotone (t1 t2 : float) :
  fle t1 t2 = true ->
  warmth (Lexicalizer.describe_temperature t1) <= warmth (Lexicalizer.describe_temperature t2)
  /\ warmth (AiLexicalizer.describe_temperature t1)
     <= warmth (AiLexicalizer.describe_temperature t2).
Proof.
  intros Hle.
  assert (Hdown : forall c, flt t2 c = true -> flt t1 c = true)
    by (intros c; apply fle_flt_trans; exact Hle).
  unfold Lexicalizer.describe_temperature, AiLexicalizer.describe_temperature.
  split.
  - destruct (flt t2 0) eqn:A0; [rewrite (Hdown _ A0); cbv; lia |].
    destruct (flt t2 8) eqn:A1;
      [rewrite (Hdown _ A1); destruct (flt t1 0); cbv; lia |].
    destruct (flt t2 16) eqn:A2;
      [rewrite (Hdown _ A2); destruct (flt t1 0), (flt t1 8); cbv; lia |].
    destruct (flt t2 25) eqn:A3;
      [rewrite (Hdown _ A3); destruct (flt t1 0), (flt t1 8), (flt t1 16); cbv; lia |].
    destruct (flt t2 32) eqn:A4;
      [rewrite (Hdown _ A4);
       destruct (flt t1 0), (flt t1 8), (flt t1 16), (flt t1 25); cbv; lia |].
    destruct (flt t1 0), (flt t1 8), (flt t1 16), (flt t1 25), (flt t1 32); cbv; lia.
  - destruct (flt t2 32) eqn:A0; [rewrite (Hdown _ A0); cbv; lia |].
    destruct (flt t2 50) eqn:A1;
      [rewrite (Hdown _ A1); destruct (flt t1 32); cbv; lia |].
    destruct (flt t2 65) eqn:A2;
      [rewrite (Hdown _ A2); destruct (flt t1 32), (flt t1 50); cbv; lia |].
    destruct (flt t2 75) eqn:A3;
      [rewrite (Hdown _ A3); destruct (flt t1 32), (flt t1 50), (flt t1 65); cbv; lia |].
    destruct (flt t2 85) eqn:A4;
      [rewrite (Hdown _ A4);
       destruct (flt t1 32), (flt t1 50), (flt t1 65), (flt t1 75); cbv; lia |].
    destruct (flt t1 32), (flt t1 50), (flt t1 65), (flt t1 75), (flt t1 85); cbv; lia.
Qed.

(** The theorem at 7.5 and 20 degrees Celsius: "cold" and "mild". *)
Lemma describe_temperature_monotone_witness :
  warmth (Lexicalizer.describe_temperature 7.5%float)
  <= warmth (Lexicalizer.describe_temperature 20%float)
  /\ warmth (AiLexicalizer.describe_temperature 7.5%float)
     <= warmth (AiLexicalizer.describe_temperature 20%float).
Proof. apply (@describe_temperature_monotone 7.5 20)%float. reflexivity. Defined.

(** X2.  The planner's variability test and the lexicalizer's ladder
    agree on the breakpoint 0.6: a bundle passes [CV > 0.6] exactly when
    [describe_variability] calls its coefficient of variation "highly
    variable" or "quite variable". *)
Theorem describe_variability_notable (b : Bundle) :
  high_variability b = true <->
  (Lexicalizer.describe_variability (coefficient_of_variation (summary b))
   = "highly variable"%string
   \/ Lexicalizer.describe_variability (coefficient_of_variation (summary b))
      = "quite variable"%string).
Proof.
  unfold high_variability, Lexicalizer.describe_variability.
  set (cv := coefficient_of_variation (summary b)).
  destruct (fgt cv 1.0) eqn:A.
  - assert (H : fgt cv 0.6 = true)
      by (unfold fgt in *; apply (@flt_trans 0.6 1.0 cv); [reflexivity | exact A]).
    rewrite H. split; auto.
  - destruct (fgt cv 0.6) eqn:B.
    + split; auto.
    + split; [discriminate |].
      destruct (fgt cv 0.3); intros [H | H]; discriminate.
Qed.

(** X3.  A trend that the planner selects under an [r2_threshold] of at
    least 0.2 is never worded "remained relatively stable", by neither
    variant of [describe_trend] and for no kind of variable; and the
    [trend_desc] that [_prepare_data] derives for the planner's
    [temperature_trend] fact is that wording. *)
Theorem significant_trend_not_stable (config : Config) (t : Trend) (kind : string) :
  fle 0.2 (r2_threshold config) = true ->
  _is_trend_significant config (Some t) = true ->
  Lexicalizer.describe_trend (slope t) (r_squared t) kind
    <> "remained relatively stable"%string
  /\ AiLexicalizer.describe_trend (slope t) (r_squared t) kind
    <> "remained relatively stable"%string
  /\ (formatted <- TemplateRealizer._prepare_data "temperature_trend" (PyOf.of_trend t) ;;
      Ok (dict_get "trend_desc" formatted))
     = Ok (Some (VStr (Lexicalizer.describe_trend (slope t) (r_squared t) "temperature"))).
Proof.
  intros Hthr Hsig. unfold _is_trend_significant in Hsig.
  apply andb_true_iff in Hsig. destruct Hsig as [Hr2 _]. unfold fge in Hr2.
  assert (Hnot : flt (r_squared t) 0.2 = false).
  { destruct (flt (r_squared t) 0.2) eqn:E; [| reflexivity].
    pose proof (fle_trans Hthr Hr2) as Hle.
    pose proof (flt_not_fle E) as C. unfold fle in *. congruence. }
  repeat split.
  - unfold Lexicalizer.describe_trend. rewrite Hnot.
    destruct (String.eqb kind "temperature"), (String.eqb kind "precipitation"),
      (fgt (slope t) 0), (fgt (fabs (slope t)) 0.5), (fgt (fabs (slope t)) 0.2),
      (fgt (fabs (slope t)) 2), (fgt (fabs (slope t)) 1); discriminate.
  - unfold AiLexicalizer.describe_trend. rewrite Hnot.
    destruct (String.eqb kind "temperature"), (String.eqb kind "precipitation"),
      (fgt (slope t) 0), (fgt (fabs (slope t)) 0.5), (fgt (fabs (slope t)) 0.2),
      (fgt (fabs (slope t)) 2), (fgt (fabs (slope t)) 1); discriminate.
  - unfold TemplateRealizer._prepare_data, TemplateRealizer.prepare_trend,
      TemplateRealizer.describe_trend. simpl. rewrite Hnot. reflexivity.
Qed.

(** The theorem at the warming trend of the samples ([r_squared] 0.49)
    under the default thresholds. *)
Lemma significant_trend_not_stable_witness :
  Lexicalizer.describe_trend 0.8 0.49 "temperature" <> "remained relatively stable"%string
  /\ AiLexicalizer.describe_trend 0.8 0.49 "temperature"
     <> "remained relatively stable"%string
  /\ (formatted <- TemplateRealizer._prepare_data "temperature_trend"
                     (PyOf.of_trend (trend Sample.warm_bundle)) ;;
      Ok (dict_get "trend_desc" formatted))
     = Ok (Some (VStr (Lexicalizer.describe_trend 0.8 0.49 "temperature"))).
Proof.
  apply (@significant_trend_not_stable Sample.config (trend Sample.warm_bundle)
           "temperature"); reflexivity.
Defined.

(** Under a lower threshold a selected trend can be worded as stable. *)
Example weak_trend_reported_as_stable :
  _is_trend_significant (mkConfig 0.1 0.05 2.0)
    (Some {| slope := 0.4; r_value := 0.4; r_squared := 0.16; p_value := 0.01;
             direction := "increasing" |}) = true
  /\ Lexicalizer.describe_trend 0.4 0.16 "temperature"
     = "remained relatively stable"%string.
Proof. split; reflexivity. Qed.

End LadderFacts.

(** ** More on the content planner *)

Module PlannerMore.

Import ContentPlanner Planned Vocabulary FloatOrderFacts FloatOrderMore PlannerFacts.

Lemma Subseq_refl {A : Type} (l : list A) : Subseq l l.
Proof. induction l; constructor; auto. Qed.

Lemma Subseq_app {A : Type} (a1 b1 a2 b2 : list A) :
  Subseq a1 b1 -> Subseq a2 b2 -> Subseq (a1 ++ a2) (b1 ++ b2).
Proof.
  intros H1 H2. induction H1 as [l | x a b H IH | x a b H IH]; simpl.
  - induction l as [| y l IHl]; simpl; [exact H2 | now constructor].
  - now constructor.
  - now constructor.
Qed.

Lemma Subseq_length {A : Type} (a b : list A) :
  Subseq a b -> List.length a <= List.length b.
Proof. induction 1; simpl; lia. Qed.

Lemma Subseq_In {A : Type} (a b : list A) (x : A) : Subseq a b -> In x a -> In x b.
Proof.
  induction 1 as [l | y a b H IH | y a b H IH]; simpl; intros Hin; tauto.
Qed.

Lemma Subseq_NoDup {A : Type} (a b : list A) : Subseq a b -> NoDup b -> NoDup a.
Proof.
  induction 1 as [l | y a b H IH | y a b H IH]; intros Hnd.
  - constructor.
  - inversion Hnd; subst. constructor; auto.
    intros Hin. eauto using Subseq_In.
  - inversion Hnd; subst. auto.
Qed.

Lemma Subseq_map {A B : Type} (f : A -> B) (a b : list A) :
  Subseq a b -> Subseq (map f a) (map f b).
Proof. induction 1; simpl; constructor; auto. Qed.

(** The kinds of the facts of a primary variable. *)
Lemma primary_facts_kinds (config : Config) (stats : Statistics) (g : string) :
  Subseq (map fst (primary_facts config stats g)) (primary_kinds g).
Proof.
  unfold primary_facts, primary_kinds, when.
  destruct (dict_get g (groups stats)) as [b |]; [| constructor].
  destruct (fge (r_squared (trend b)) (r2_threshold config)
            && flt (p_value (trend b)) (p_value_threshold config))%bool;
    destruct (seasonal b); destruct (yearly b) as [y |];
    try destruct (fge (fabs (highest_zscore y)) (extreme_threshold config)
                  || fge (fabs (lowest_zscore y)) (extreme_threshold config))%bool;
    destruct (extremes b) as [e |]; try destruct (extremes_truthy e);
    simpl; repeat (first [apply Subseq_take | apply Subseq_skip | apply Subseq_nil]).
Qed.

Lemma cross_facts_kinds_subseq (config : Config) (stats : Statistics) :
  Subseq (map fst (cross_facts config stats)) cross_kinds.
Proof.
  unfold cross_facts, cross_kinds.
  destruct (fold_left (secondary_step config stats) secondary_var_names [])
    as [| sv svs];
    destruct (patterns stats) as [p |];
    try destruct (strongest_trends p) as [[| t ts] |];
    simpl; repeat (first [apply Subseq_take | apply Subseq_skip | apply Subseq_nil]).
Qed.

Lemma select_content_kinds (config : Config) (stats : Statistics) :
  Subseq (map fst (select_content config stats)) planner_kinds.
Proof.
  rewrite select_content_shape. unfold planner_kinds.
  cbn [map fst]. apply Subseq_take. rewrite !map_app.
  apply Subseq_app; [apply primary_facts_kinds |].
  apply Subseq_app; [apply primary_facts_kinds | apply cross_facts_kinds_subseq].
Qed.

Lemma planner_kinds_nodup : NoDup planner_kinds.
Proof. apply AnalysisFacts.distinct_nodup. reflexivity. Qed.

(** X4.  Whatever the statistics and the thresholds, the kinds of the
    facts that [select_content] returns are the planner's fourteen kinds
    with some left out: they come in one fixed order, no kind comes twice,
    there are between one and fourteen facts, and the first one is the
    overview of the basic information. *)
Theorem select_content_vocabulary (config : Config) (stats : Statistics) :
  Subseq (map fst (select_content config stats)) planner_kinds
  /\ NoDup (map fst (select_content config stats))
  /\ 1 <= List.length (select_content config stats) <= 14
  /\ hd_error (select_content config stats)
     = Some ("overview"%string, PBasic (basic stats)).
Proof.
  pose proof (select_content_kinds config stats) as Hsub.
  split; [exact Hsub |].
  split; [exact (Subseq_NoDup Hsub planner_kinds_nodup) |].
  split.
  - pose proof (Subseq_length Hsub) as Hlen. rewrite length_map in Hlen.
    assert (H14 : List.length planner_kinds = 14) by reflexivity.
    rewrite H14 in Hlen. split; [| exact Hlen].
    rewrite select_content_shape. cbn [List.length]. lia.
  - rewrite select_content_shape. reflexivity.
Qed.

(** The loop over the secondary variables collects the notable ones. *)
Lemma secondary_fold (config : Config) (stats : Statistics) (names : list string)
    (acc : list (string * Bundle)) :
  fold_left (secondary_step config stats) names acc
  = acc ++ flat_map (fun var =>
                       match dict_get var (groups stats) with
                       | Some b => if _is_variable_notable config b then [(var, b)] else []
                       | None => []
                       end) names.
Proof.
  revert acc. induction names as [| var names IH]; intros acc; simpl.
  - now rewrite app_nil_r.
  - rewrite IH. unfold secondary_step.
    destruct (dict_get var (groups stats)) as [b |]; [| reflexivity].
    destruct (_is_variable_notable config b); [| reflexivity].
    now rewrite <- app_assoc.
Qed.

Lemma secondary_fold_notable (config : Config) (stats : Statistics) :
  fold_left (secondary_step config stats) secondary_var_names []
  = notable_secondary config stats.
Proof. rewrite secondary_fold. reflexivity. Qed.

Lemma notable_secondary_In (config : Config) (stats : Statistics)
    (var : string) (b : Bundle) :
  In (var, b) (notable_secondary config stats) <->
  In var secondary_var_names
  /\ dict_get var (groups stats) = Some b
  /\ _is_variable_notable config b = true.
Proof.
  unfold notable_secondary. rewrite in_flat_map. split.
  - intros (v & Hv & Hin).
    destruct (dict_get v (groups stats)) as [b' |] eqn:E; [| destruct Hin].
    destruct (_is_variable_notable config b') eqn:N; [| destruct Hin].
    destruct Hin as [Heq | []]. inversion Heq; subst. auto.
  - intros (Hv & E & N). exists var. split; [exact Hv |].
    rewrite E, N. now left.
Qed.

Lemma notable_secondary_order (config : Config) (stats : Statistics) :
  Subseq (map fst (notable_secondary config stats)) secondary_var_names.
Proof.
  unfold notable_secondary.
  induction secondary_var_names as [| var names IH]; simpl; [constructor |].
  rewrite map_app.
  destruct (dict_get var (groups stats)) as [b |]; [| now constructor].
  destruct (_is_variable_notable config b); simpl; now constructor.
Qed.

Lemma primary_kind_not_cross (g kind : string) :
  g = "temperature"%string \/ g = "precipitation"%string ->
  In kind (primary_kinds g) -> is_cross_kind kind = false.
Proof.
  intros [-> | ->] Hin; simpl in Hin;
    repeat (destruct Hin as [<- | Hin]; [reflexivity |]); destruct Hin.
Qed.

(** The planner's [other_conditions] fact, when there is one, carries the
    notable secondary variables. *)
Lemma other_conditions_fact (config : Config) (stats : Statistics) (payload : Payload) :
  In ("other_conditions"%string, payload) (select_content config stats) <->
  payload = PSecondary (notable_secondary config stats)
  /\ notable_secondary config stats <> [].
Proof.
  rewrite select_content_shape.
  assert (Hprim : forall g,
             g = "temperature"%string \/ g = "precipitation"%string ->
             ~ In ("other_conditions"%string, payload) (primary_facts config stats g)).
  { intros g Hg Hin.
    assert (Hk : In "other_conditions"%string (primary_kinds g)).
    { eapply Subseq_In; [apply primary_facts_kinds |].
      change "other_conditions"%string with (fst ("other_conditions"%string, payload)).
      apply in_map. exact Hin. }
    pose proof (primary_kind_not_cross Hg Hk) as C. discriminate. }
  assert (Hcross :
            In ("other_conditions"%string, payload) (cross_facts config stats) <->
            payload = PSecondary (notable_secondary config stats)
            /\ notable_secondary config stats <> []).
  { unfold cross_facts. rewrite secondary_fold_notable.
    rewrite in_app_iff. split.
    - intros [H | H].
      + destruct (notable_secondary config stats) as [| sv svs]; [destruct H |].
        destruct H as [H | []]. inversion H. split; [reflexivity | discriminate].
      + exfalso. destruct (patterns stats) as [p |]; [| destruct H].
        apply in_app_or in H. destruct H as [H | H].
        * destruct (strongest_trends p) as [[| t ts] |];
            [destruct H | destruct H as [H | []]; discriminate | destruct H].
        * destruct H as [H | []]. discriminate.
    - intros [-> Hne]. left.
      destruct (notable_secondary config stats) as [| sv svs];
        [exfalso; apply Hne; reflexivity | now left]. }
  split.
  - intros [H | H]; [discriminate |].
    apply in_app_or in H.
    destruct H as [H | H]; [exfalso; exact (Hprim _ (or_introl eq_refl) H) |].
    apply in_app_or in H.
    destruct H as [H | H]; [exfalso; exact (Hprim _ (or_intror eq_refl) H) |].
    apply Hcross. exact H.
  - intros H. right. apply in_or_app. right. apply in_or_app. right.
    apply Hcross. exact H.
Qed.

(** X5.  [select_content] holds an [other_conditions] fact exactly when
    a secondary variable is notable, and the payload of such a fact lists,
    in the order of the planner's fixed list, the pairs of a name of that
    list with the bundle the statistics hold under it, for the names that
    are in the statistics and whose bundle passes [_is_variable_notable].
    A group outside the list, or missing from the statistics, is never
    mentioned. *)
Theorem other_conditions_payload (config : Config) (stats : Statistics) :
  (forall payload,
      In ("other_conditions"%string, payload) (select_content config stats) <->
      payload = PSecondary (notable_secondary config stats)
      /\ notable_secondary config stats <> [])
  /\ (forall var b,
        In (var, b) (notable_secondary config stats) <->
        In var secondary_var_names
        /\ dict_get var (groups stats) = Some b
        /\ _is_variable_notable config b = true)
  /\ Subseq (map fst (notable_secondary config stats)) secondary_var_names.
Proof.
  split; [intros; apply other_conditions_fact |].
  split; [intros; apply notable_secondary_In | apply notable_secondary_order].
Qed.

(** The scan of the correlation mapping keeps its invariant. *)
Lemma corr_scan_step (seen : dict Correlation) (acc : float * option MaxCorr)
    (entry : string * Correlation) :
  scan_ok seen acc -> scan_ok (seen ++ [entry]) (corr_step acc entry).
Proof.
  destruct acc as [m r], entry as [k c]. unfold scan_ok, corr_step; simpl.
  destruct r as [mc |].
  - intros (c0 & Hin & Hm & Hcorr & Hrel & Hpos & Hmax). subst m.
    destruct (fgt (correlation c) (correlation c0)) eqn:E; simpl.
    + exists c. repeat split; auto.
      * apply in_or_app. right. now left.
      * unfold fgt in *. exact (flt_trans Hpos E).
      * intros k' c' H. apply in_app_or in H. destruct H as [H | [H | []]].
        -- destruct (fgt (correlation c') (correlation c)) eqn:E'; [| reflexivity].
           pose proof (Hmax k' c' H) as M.
           unfold fgt in *. pose proof (flt_trans E E') as C.
           unfold flt in C. congruence.
        -- inversion H; subst. unfold fgt. apply flt_irrefl.
    + exists c0. repeat split; auto.
      * apply in_or_app. now left.
      * intros k' c' H. apply in_app_or in H. destruct H as [H | [H | []]]; eauto.
        inversion H; subst. exact E.
  - intros [Hm Hnone]. subst m.
    destruct (fgt (correlation c) 0) eqn:E; simpl.
    + exists c. repeat split; auto.
      * apply in_or_app. right. now left.
      * intros k' c' H. apply in_app_or in H. destruct H as [H | [H | []]].
        -- destruct (fgt (correlation c') (correlation c)) eqn:E'; [| reflexivity].
           pose proof (Hnone k' c' H) as M.
           unfold fgt in *. pose proof (flt_trans E E') as C.
           unfold flt in C. congruence.
        -- inversion H; subst. unfold fgt. apply flt_irrefl.
    + split; [reflexivity |].
      intros k' c' H. apply in_app_or in H. destruct H as [H | [H | []]]; eauto.
      inversion H; subst. exact E.
Qed.

Lemma corr_scan_ok (entries seen : dict Correlation) (acc : float * option MaxCorr) :
  scan_ok seen acc -> scan_ok (seen ++ entries) (fold_left corr_step entries acc).
Proof.
  revert seen acc. induction entries as [| entry entries IH]; intros seen acc H; simpl.
  - now rewrite app_nil_r.
  - replace (seen ++ entry :: entries) with ((seen ++ [entry]) ++ entries)
      by now rewrite <- app_assoc.
    apply IH. now apply corr_scan_step.
Qed.

(** X6.  When the statistics hold patterns, the last fact of
    [select_content] is the [pattern_correlation] fact, and its payload is
    decided by the signed correlations: it is empty exactly when no entry
    of the mapping has a correlation above 0; otherwise it copies the key,
    the correlation and the relationship of an entry whose correlation is
    above 0 and is exceeded by no entry of the mapping.  An inverse pair
    is therefore never the one reported. *)
Theorem pattern_correlation_payload (config : Config) (stats : Statistics) (p : Patterns) :
  patterns stats = Some p ->
  exists payload,
    last (select_content config stats) ("overview"%string, PBasic (basic stats))
    = ("pattern_correlation"%string, PCorrelation payload)
    /\ match payload with
       | None => forall k c, In (k, c) (correlations p) -> fgt (correlation c) 0 = false
       | Some m =>
           exists c,
             In (variables m, c) (correlations p)
             /\ mc_correlation m = correlation c
             /\ mc_relationship m = relationship c
             /\ fgt (correlation c) 0 = true
             /\ flt (correlation c) 0 = false
             /\ forall k' c', In (k', c') (correlations p) ->
                              fgt (correlation c') (correlation c) = false
       end.
Proof.
  intros Hp. eexists. split; [apply (pattern_correlation_emitted config stats Hp) |].
  pose proof (@corr_scan_ok (correlations p) [] (0%float, None)) as H.
  simpl in H. specialize (H (conj eq_refl (fun k c (F : False) => match F with end))).
  unfold scan_ok in H.
  destruct (snd (fold_left corr_step (correlations p) (0%float, None))) as [m |].
  - destruct H as (c & Hin & _ & Hc & Hr & Hpos & Hmax).
    exists c. repeat split; auto.
    unfold fgt in Hpos. apply flt_asym. exact Hpos.
  - destruct H as [_ H]. exact H.
Qed.

(** The theorem on the statistics with an inverse pair of -0.9 and a
    direct pair of 0.6. *)
Lemma pattern_correlation_payload_witness :
  exists payload,
    last (select_content Sample.config (Sample.stats_with (Some Sample.inverse_and_direct)))
         ("overview"%string, PBasic Sample.basic_info)
    = ("pattern_correlation"%string, PCorrelation payload)
    /\ match payload with
       | None => forall k c, In (k, c) (correlations Sample.inverse_and_direct) ->
                             fgt (correlation c) 0 = false
       | Some m =>
           exists c,
             In (variables m, c) (correlations Sample.inverse_and_direct)
             /\ mc_correlation m = correlation c
             /\ mc_relationship m = relationship c
             /\ fgt (correlation c) 0 = true
             /\ flt (correlation c) 0 = false
             /\ forall k' c', In (k', c') (correlations Sample.inverse_and_direct) ->
                              fgt (correlation c') (correlation c) = false
       end.
Proof.
  apply (@pattern_correlation_payload Sample.config
           (Sample.stats_with (Some Sample.inverse_and_direct)) Sample.inverse_and_direct).
  reflexivity.
Defined.

End PlannerMore.

(** ** The analyzer: ranges, optional features, seasons and years *)

Module AnalyzerMore.

Import DatasetAnalyzer Selected FloatOrder FloatOrderFacts FloatOrderMore AnalyzerFacts.

Lemma last_match_snoc {A : Type} (test : A -> bool) (l : list A) (x : A) :
  last_match test (l ++ [x]) = if test x then Some x else last_match test l.
Proof. unfold last_match. rewrite rev_app_distr. reflexivity. Qed.

Lemma last_match_some {A : Type} (test : A -> bool) (l : list A) (c : A) :
  last_match test l = Some c ->
  exists before after,
    l = before ++ c :: after /\ test c = true
    /\ forall x, In x after -> test x = false.
Proof.
  unfold last_match. intros H. apply find_first in H.
  destruct H as (b & a & Hl & Hc & Hb).
  exists (rev a), (rev b). repeat split; auto.
  - rewrite <- (rev_involutive l), Hl, rev_app_distr. simpl.
    now rewrite <- app_assoc.
  - intros x Hx. apply Hb. now apply in_rev.
Qed.

Lemma last_match_none {A : Type} (test : A -> bool) (l : list A) :
  last_match test l = None <-> forall x, In x l -> test x = false.
Proof.
  unfold last_match. split.
  - intros H x Hx. apply (find_none _ _ H). now apply in_rev in Hx.
  - intros H. destruct (find test (rev l)) as [c |] eqn:E; [| reflexivity].
    apply find_some in E. destruct E as [Hin Hc].
    apply in_rev in Hin. rewrite (H c Hin) in Hc. discriminate.
Qed.

(** The loop of [_compute_range], whatever it starts from. *)
Lemma range_fold (df : DataFrame) (cols : list string) (r0 : RangeInfo) :
  fold_left (range_step df) cols r0 =
  {| absolute_min := match last_match (sets_min df) cols with
                     | Some c => Some (series_min (column df c))
                     | None => absolute_min r0
                     end;
     absolute_max := match last_match (sets_max df) cols with
                     | Some c => Some (series_max (column df c))
                     | None => absolute_max r0
                     end |}.
Proof.
  induction cols as [| x cols IH] using rev_ind.
  - destruct r0; reflexivity.
  - rewrite fold_left_app. cbn [fold_left]. rewrite IH, !last_match_snoc.
    unfold range_step, sets_min, sets_max.
    destruct (in_columns df x); cbn [andb]; [| reflexivity].
    destruct (contains "min" (lower x)); cbn [negb andb]; [reflexivity |].
    destruct (contains "max" (lower x)); reflexivity.
Qed.

(** X7.  [_compute_range] keeps, for [absolute_min], the minimum of the
    last supporting column that is in the table and has [min] in its
    lower-cased name, and for [absolute_max] the maximum of the last
    supporting column that is in the table and has [max] but not [min] in
    its name; a key without such a column is absent, and the result is
    [None] exactly when both are.  A column named with both words only
    counts as a minimum, and an earlier matching column is overwritten by
    a later one. *)
Theorem compute_range_last_match (df : DataFrame) (supporting_cols : list string) :
  _compute_range df supporting_cols =
  match last_match (sets_min df) supporting_cols,
        last_match (sets_max df) supporting_cols with
  | None, None => None
  | cmin, cmax =>
      Some {| absolute_min := option_map (fun c => series_min (column df c)) cmin;
              absolute_max := option_map (fun c => series_max (column df c)) cmax |}
  end
  /\ (forall c, last_match (sets_min df) supporting_cols = Some c ->
        exists before after,
          supporting_cols = before ++ c :: after
          /\ sets_min df c = true
          /\ forall x, In x after -> sets_min df x = false)
  /\ (forall c, last_match (sets_max df) supporting_cols = Some c ->
        exists before after,
          supporting_cols = before ++ c :: after
          /\ sets_max df c = true
          /\ forall x, In x after -> sets_max df x = false).
Proof.
  split; [| split; intros c; apply last_match_some].
  unfold _compute_range. destruct supporting_cols as [| c0 cols]; [reflexivity |].
  rewrite range_fold. cbn [absolute_min absolute_max].
  destruct (last_match (sets_min df) (c0 :: cols)),
           (last_match (sets_max df) (c0 :: cols)); reflexivity.
Qed.

(** The loop of [_analyze_optional_features], whatever it starts from. *)
Lemma feature_fold (backend : Backend) (df : DataFrame) (primary_col : string)
    (cols : list string) (f0 : option RealFeel) :
  fold_left (feature_step backend df primary_col) cols f0 =
  match last_match (notable_feature backend df primary_col) cols with
  | Some c => Some (real_feel_of backend df primary_col c)
  | None => f0
  end.
Proof.
  induction cols as [| x cols IH] using rev_ind; [reflexivity |].
  rewrite fold_left_app. cbn [fold_left]. rewrite IH, last_match_snoc.
  unfold feature_step, notable_feature, feature_diff.
  destruct (in_columns df x); cbn [negb andb]; [| reflexivity].
  destruct (fgt _ 5); reflexivity.
Qed.

(** X11.  Behind the test that the primary column is in the table,
    [_analyze_optional_features] answers the [real_feel_diff] entry of the
    last comparison column that is in the table and whose mean absolute
    difference from the primary column is above 5, and [None] when there
    is no such column: a later notable column replaces an earlier one,
    and a column that is missing or not notable changes nothing.  The
    difference it reports is a number above 5. *)
Theorem optional_features_last_match (backend : Backend) (df : DataFrame)
    (primary_col : string) (comparison_cols : list string) :
  in_columns df primary_col = true ->
  _analyze_optional_features backend df primary_col comparison_cols
  = option_map (real_feel_of backend df primary_col)
               (last_match (notable_feature backend df primary_col) comparison_cols)
  /\ (_analyze_optional_features backend df primary_col comparison_cols = None <->
      forall c, In c comparison_cols ->
                in_columns df c = true ->
                fgt (feature_diff backend df primary_col c) 5 = false)
  /\ (forall f,
        _analyze_optional_features backend df primary_col comparison_cols = Some f ->
        fgt (avg_difference f) 5 = true /\ isnan (avg_difference f) = false).
Proof.
  intros _. unfold _analyze_optional_features. rewrite feature_fold.
  split; [destruct (last_match _ comparison_cols); reflexivity |]. split.
  - destruct (last_match (notable_feature backend df primary_col) comparison_cols)
      as [c |] eqn:E.
    + split; [discriminate |]. intros H. exfalso.
      apply last_match_some in E. destruct E as (b & a & Hl & Hc & _).
      unfold notable_feature in Hc. apply andb_true_iff in Hc. destruct Hc as [Hin Hgt].
      rewrite (H c) in Hgt; [discriminate | | exact Hin].
      rewrite Hl. apply in_or_app. right. now left.
    + split; [| reflexivity]. intros _ c Hc Hin.
      pose proof (proj1 (last_match_none _ _) E c Hc) as N.
      unfold notable_feature in N. rewrite Hin in N. exact N.
  - intros f Hf.
    destruct (last_match (notable_feature backend df primary_col) comparison_cols)
      as [c |] eqn:E; [| discriminate].
    inversion Hf; subst f. cbn [real_feel_of avg_difference].
    apply last_match_some in E. destruct E as (b & a & _ & Hc & _).
    unfold notable_feature in Hc. apply andb_true_iff in Hc. destruct Hc as [_ Hgt].
    split; [exact Hgt |]. unfold fgt in Hgt.
    exact (proj2 (flt_number Hgt)).
Qed.

(** The theorem on a table whose apparent temperature lies eight degrees
    under the measured one, with a comparison column that is missing. *)
Lemma optional_features_last_match_witness :
  _analyze_optional_features Sample.backend Tables.feels_table "temp"
                             ["feels"; "absent"]%string
  = option_map (real_feel_of Sample.backend Tables.feels_table "temp")
               (last_match (notable_feature Sample.backend Tables.feels_table "temp")
                           ["feels"; "absent"]%string)
  /\ (_analyze_optional_features Sample.backend Tables.feels_table "temp"
                                 ["feels"; "absent"]%string
      = None <->
      forall c, In c ["feels"; "absent"]%string ->
                in_columns Tables.feels_table c = true ->
                fgt (feature_diff Sample.backend Tables.feels_table "temp" c) 5 = false)
  /\ (forall f,
        _analyze_optional_features Sample.backend Tables.feels_table "temp"
                                   ["feels"; "absent"]%string = Some f ->
        fgt (avg_difference f) 5 = true /\ isnan (avg_difference f) = false).
Proof.
  apply (@optional_features_last_match Sample.backend Tables.feels_table
           "temp"%string ["feels"; "absent"]%string).
  reflexivity.
Defined.

(** *** Seasons *)

Lemma get_season_cases (m : Z) :
  get_season m = "winter"%string \/ get_season m = "spring"%string
  \/ get_season m = "summer"%string \/ get_season m = "fall"%string.
Proof.
  unfold get_season.
  destruct (existsb (Z.eqb m) [12; 1; 2]%Z); [auto |].
  destruct (existsb (Z.eqb m) [3; 4; 5]%Z); [auto |].
  destruct (existsb (Z.eqb m) [6; 7; 8]%Z); auto.
Qed.

Lemma season_partition (dates : list Date) (cells : list float) :
  List.length cells = List.length dates ->
  List.length (rows_where (fun d => String.eqb (get_season (month d)) "winter") dates cells)
  + List.length (rows_where (fun d => String.eqb (get_season (month d)) "spring") dates cells)
  + List.length (rows_where (fun d => String.eqb (get_season (month d)) "summer") dates cells)
  + List.length (rows_where (fun d => String.eqb (get_season (month d)) "fall") dates cells)
  = List.length dates.
Proof.
  revert cells. induction dates as [| d dates IH]; intros [| v cells] Hlen;
    try discriminate; [reflexivity |].
  injection Hlen as Hlen. specialize (IH cells Hlen).
  cbn [rows_where].
  destruct (get_season_cases (month d)) as [-> | [-> | [-> | ->]]];
    cbn [String.eqb Ascii.eqb Bool.eqb List.length]; simpl; lia.
Qed.

Lemma seasonal_means_by_season (backend : Backend) (df : DataFrame) (col : string) :
  seasonal_means backend df col =
  flat_map (fun season =>
              match season_mean backend df col season with
              | Some m => [(season, m)]
              | None => []
              end)
           ["fall"; "spring"; "summer"; "winter"]%string.
Proof.
  unfold seasonal_means. apply flat_map_ext. intros season.
  unfold season_mean, season_cells.
  destruct (rows_where _ (df_dates df) (column df col)); reflexivity.
Qed.

Lemma season_mean_none (backend : Backend) (df : DataFrame) (col season : string) :
  season_mean backend df col season = None <-> season_cells df col season = [].
Proof.
  unfold season_mean. destruct (season_cells df col season); split; congruence.
Qed.

(** X8.  Behind the test that the column is in the table, whose columns
    are as long as its dates: every row falls in exactly one of the four
    seasons; [_compute_seasonal_patterns] answers [None] exactly when the
    table has no rows; and otherwise each season's field is [None] when no
    row falls in that season and the mean of the column over the rows of
    that season when some do. *)
Theorem seasonal_patterns_by_season (backend : Backend) (df : DataFrame) (col : string) :
  in_columns df col = true ->
  List.length (column df col) = List.length (df_dates df) ->
  (List.length (season_cells df col "winter") + List.length (season_cells df col "spring")
   + List.length (season_cells df col "summer") + List.length (season_cells df col "fall")
   = List.length (df_dates df))
  /\ (_compute_seasonal_patterns backend df col = None <-> df_dates df = [])
  /\ (forall s,
        _compute_seasonal_patterns backend df col = Some s ->
        summer s = season_mean backend df col "summer"
        /\ winter s = season_mean backend df col "winter"
        /\ spring s = season_mean backend df col "spring"
        /\ fall s = season_mean backend df col "fall"
        /\ (forall season, season_mean backend df col season = None <->
                           season_cells df col season = [])).
Proof.
  intros _ Hlen.
  pose proof (season_partition (df_dates df) (column df col) Hlen) as Hpart.
  fold (season_cells df col "winter") (season_cells df col "spring")
       (season_cells df col "summer") (season_cells df col "fall") in Hpart.
  split; [exact Hpart |].
  unfold _compute_seasonal_patterns. rewrite seasonal_means_by_season.
  cbn [flat_map]. split.
  - split.
    + intros H.
      destruct (season_mean backend df col "fall") eqn:F; [discriminate |].
      destruct (season_mean backend df col "spring") eqn:P; [discriminate |].
      destruct (season_mean backend df col "summer") eqn:U; [discriminate |].
      destruct (season_mean backend df col "winter") eqn:W; [discriminate |].
      apply season_mean_none in F, P, U, W. rewrite F, P, U, W in Hpart.
      destruct (df_dates df); [reflexivity | discriminate].
    + intros Hd. unfold season_mean, season_cells. rewrite Hd. reflexivity.
  - intros s.
    destruct (season_mean backend df col "fall") eqn:F;
      destruct (season_mean backend df col "spring") eqn:P;
      destruct (season_mean backend df col "summer") eqn:U;
      destruct (season_mean backend df col "winter") eqn:W;
      cbn; intros H; inversion H; subst s; cbn;
      repeat split; try reflexivity; try apply season_mean_none;
      try (intros Hn; apply season_mean_none; exact Hn).
Qed.

(** The theorem on days of January, April and July. *)
Lemma seasonal_patterns_by_season_witness :
  (List.length (season_cells Tables.years_table "temp" "winter")
   + List.length (season_cells Tables.years_table "temp" "spring")
   + List.length (season_cells Tables.years_table "temp" "summer")
   + List.length (season_cells Tables.years_table "temp" "fall")
   = List.length (df_dates Tables.years_table))
  /\ (_compute_seasonal_patterns Sample.backend Tables.years_table "temp" = None <->
      df_dates Tables.years_table = [])
  /\ (forall s,
        _compute_seasonal_patterns Sample.backend Tables.years_table "temp" = Some s ->
        summer s = season_mean Sample.backend Tables.years_table "temp" "summer"
        /\ winter s = season_mean Sample.backend Tables.years_table "temp" "winter"
        /\ spring s = season_mean Sample.backend Tables.years_table "temp" "spring"
        /\ fall s = season_mean Sample.backend Tables.years_table "temp" "fall"
        /\ (forall season,
              season_mean Sample.backend Tables.years_table "temp" season = None <->
              season_cells Tables.years_table "temp" season = [])).
Proof.
  apply (@seasonal_patterns_by_season Sample.backend Tables.years_table "temp"%string);
    reflexivity.
Defined.

(** *** Years *)

Lemma insert_year_In (y z : Z) (l : list Z) :
  In z (insert_year y l) <-> z = y \/ In z l.
Proof.
  induction l as [| x l IH]; simpl.
  - intuition congruence.
  - destruct (Z.ltb_spec y x); [simpl; intuition congruence |].
    destruct (Z.eqb_spec y x); [subst; simpl; intuition congruence |].
    simpl. rewrite IH. intuition congruence.
Qed.

Lemma insert_year_increasing (y : Z) (l : list Z) :
  increasing l -> increasing (insert_year y l).
Proof.
  induction l as [| x l IH]; simpl; intros H.
  - split; [intros ? [] | exact I].
  - destruct H as [Hx Hl].
    destruct (Z.ltb_spec y x).
    + simpl. split; [| split; assumption].
      intros z [<- | Hz]; [assumption |]. specialize (Hx z Hz). lia.
    + destruct (Z.eqb_spec y x); [simpl; split; assumption |].
      simpl. split; [| auto].
      intros z Hz. apply insert_year_In in Hz. destruct Hz as [-> | Hz]; [lia | auto].
Qed.

Lemma years_fold_In (dates : list Date) (acc : list Z) (z : Z) :
  In z (fold_left (fun acc d => insert_year (year d) acc) dates acc) <->
  In z acc \/ exists d, In d dates /\ year d = z.
Proof.
  revert acc. induction dates as [| d dates IH]; intros acc; simpl.
  - split; [auto | intros [H | (d & [] & _)]; exact H].
  - rewrite IH, insert_year_In. split.
    + intros [[-> | H] | (d' & Hd' & Hy)]; eauto.
    + intros [H | (d' & [<- | Hd'] & Hy)]; eauto.
Qed.

Lemma years_fold_increasing (dates : list Date) (acc : list Z) :
  increasing acc -> increasing (fold_left (fun acc d => insert_year (year d) acc) dates acc).
Proof.
  revert acc. induction dates as [| d dates IH]; intros acc H; simpl; [exact H |].
  apply IH. now apply insert_year_increasing.
Qed.

Lemma years_of_In (dates : list Date) (z : Z) :
  In z (years_of dates) <-> exists d, In d dates /\ year d = z.
Proof.
  unfold years_of. rewrite years_fold_In. split; [intros [[] | H]; exact H | auto].
Qed.

Lemma years_of_increasing (dates : list Date) : increasing (years_of dates).
Proof. apply years_fold_increasing. exact I. Qed.

Lemma years_of_nil (dates : list Date) : years_of dates = [] <-> dates = [].
Proof.
  split; [| intros ->; reflexivity].
  intros H. destruct dates as [| d dates]; [reflexivity |].
  assert (Hin : In (year d) (years_of (d :: dates)))
    by (apply years_of_In; exists d; split; [now left | reflexivity]).
  rewrite H in Hin. destruct Hin.
Qed.

Lemma increasing_nth (l : list Z) (i j : nat) (a b : Z) :
  increasing l -> nth_error l i = Some a -> nth_error l j = Some b -> i < j -> (a < b)%Z.
Proof.
  revert i j. induction l as [| x l IH]; intros i j H Hi Hj Hlt.
  - destruct i; discriminate.
  - destruct H as [Hx Hl]. destruct j as [| j]; [lia |].
    destruct i as [| i]; simpl in *.
    + inversion Hi; subst. apply Hx. eapply nth_error_In; eauto.
    + eapply (IH i j); eauto. lia.
Qed.

Lemma yearly_means_snd (backend : Backend) (df : DataFrame) (col : string) :
  map snd (yearly_means backend df col)
  = map (year_mean backend df col) (years_of (df_dates df)).
Proof. unfold yearly_means. rewrite map_map. reflexivity. Qed.

Lemma yearly_means_nth (backend : Backend) (df : DataFrame) (col : string)
    (i : nat) (h : Z * float) :
  nth_error (yearly_means backend df col) i = Some h ->
  nth_error (years_of (df_dates df)) i = Some (fst h)
  /\ snd h = year_mean backend df col (fst h).
Proof.
  unfold yearly_means. rewrite nth_error_map.
  destruct (nth_error (years_of (df_dates df)) i) as [yr |]; [| discriminate].
  intros H; inversion H; subst h. split; reflexivity.
Qed.

(** What [_compute_yearly_comparisons] returns, taken apart. *)
Lemma yearly_comparisons_inv (backend : Backend) (df : DataFrame) (col : string)
    (y : Yearly) :
  _compute_yearly_comparisons backend df col = Ok (Some y) ->
  exists hi lo h l,
    idxmax (map snd (yearly_means backend df col)) = Ok hi
    /\ idxmin (map snd (yearly_means backend df col)) = Ok lo
    /\ nth_error (yearly_means backend df col) hi = Some h
    /\ nth_error (yearly_means backend df col) lo = Some l
    /\ highest_year y = fst h /\ highest_value y = snd h
    /\ lowest_year y = fst l /\ lowest_value y = snd l
    /\ yearly_mean y = series_mean backend (map snd (yearly_means backend df col))
    /\ yearly_std y = series_std backend (map snd (yearly_means backend df col))
    /\ highest_zscore y = (if fgt (yearly_std y) 0
                           then ((snd h - yearly_mean y) / yearly_std y)%float
                           else 0%float)
    /\ lowest_zscore y = (if fgt (yearly_std y) 0
                          then ((snd l - yearly_mean y) / yearly_std y)%float
                          else 0%float).
Proof.
  unfold _compute_yearly_comparisons.
  destruct (yearly_means backend df col) as [| p ps]; [discriminate |].
  destruct (idxmax (map snd (p :: ps))) as [hi |] eqn:Ehi; [| discriminate].
  destruct (idxmin (map snd (p :: ps))) as [lo |] eqn:Elo; [| discriminate].
  cbn [bind]. unfold loc.
  destruct (nth_error (p :: ps) hi) as [h |] eqn:Eh; [| discriminate].
  destruct (nth_error (p :: ps) lo) as [l |] eqn:El; [| discriminate].
  cbn [bind]. intros H. injection H as <-.
  exists hi, lo, h, l. repeat split; first [assumption | reflexivity].
Qed.

(** X9.  Behind the test that the column is in the table,
    [_compute_yearly_comparisons] answers [None] exactly when the table
    has no rows.  In what it otherwise returns, the highest and the lowest
    year are years of the table and their values are the means of the
    column over the rows of those years; both values are numbers; the mean
    of every year that is a number lies between them; and among the years
    whose mean equals the highest (or the lowest) value, the earliest is
    the one reported. *)
Theorem yearly_comparisons_extremes (backend : Backend) (df : DataFrame) (col : string) :
  in_columns df col = true ->
  (_compute_yearly_comparisons backend df col = Ok None <-> df_dates df = [])
  /\ (forall y,
        _compute_yearly_comparisons backend df col = Ok (Some y) ->
        (exists d, In d (df_dates df) /\ year d = highest_year y)
        /\ (exists d, In d (df_dates df) /\ year d = lowest_year y)
        /\ highest_value y = year_mean backend df col (highest_year y)
        /\ lowest_value y = year_mean backend df col (lowest_year y)
        /\ isnan (highest_value y) = false
        /\ isnan (lowest_value y) = false
        /\ (forall d, In d (df_dates df) ->
                      isnan (year_mean backend df col (year d)) = false ->
                      fle (lowest_value y) (year_mean backend df col (year d)) = true
                      /\ fle (year_mean backend df col (year d)) (highest_value y) = true)
        /\ (forall d, In d (df_dates df) ->
                      feq (year_mean backend df col (year d)) (highest_value y) = true ->
                      (highest_year y <= year d)%Z)
        /\ (forall d, In d (df_dates df) ->
                      feq (year_mean backend df col (year d)) (lowest_value y) = true ->
                      (lowest_year y <= year d)%Z)).
Proof.
  intros _. split.
  - unfold _compute_yearly_comparisons, yearly_means. split.
    + intros H. apply years_of_nil.
      destruct (years_of (df_dates df)) as [| yr yrs]; [reflexivity |].
      cbn [map] in H.
      match type of H with
      | context [idxmax ?l] => destruct (idxmax l); [| discriminate]
      end.
      match type of H with
      | context [idxmin ?l] => destruct (idxmin l); [| discriminate]
      end.
      cbn [bind] in H. unfold loc in H.
      match type of H with
      | context [nth_error ?l ?i] => destruct (nth_error l i); [| discriminate]
      end.
      match type of H with
      | context [nth_error ?l ?i] => destruct (nth_error l i); [| discriminate]
      end.
      discriminate.
    + intros ->. reflexivity.
  - intros y Hy. apply yearly_comparisons_inv in Hy.
    destruct Hy as (hi & lo & h & l & Hhi & Hlo & Hh & Hl & Hhy & Hhv & Hly & Hlv & _).
    apply idxmax_first_maximum in Hhi. destruct Hhi as (vh & Hvh & Hnh & Hmaxh & Hfirsth).
    apply idxmin_first_minimum in Hlo. destruct Hlo as (vl & Hvl & Hnl & Hminl & Hfirstl).
    pose proof (yearly_means_nth _ _ _ _ Hh) as [Hyh Hsh].
    pose proof (yearly_means_nth _ _ _ _ Hl) as [Hyl Hsl].
    assert (Evh : vh = snd h).
    { rewrite nth_error_map, Hh in Hvh. now inversion Hvh. }
    assert (Evl : vl = snd l).
    { rewrite nth_error_map, Hl in Hvl. now inversion Hvl. }
    subst vh vl. rewrite Hhy, Hhv, Hly, Hlv.
    assert (Hmem : forall d, In d (df_dates df) ->
                   exists j, nth_error (years_of (df_dates df)) j = Some (year d)
                             /\ nth_error (map snd (yearly_means backend df col)) j
                                = Some (year_mean backend df col (year d))).
    { intros d Hd.
      assert (Hin : In (year d) (years_of (df_dates df)))
        by (apply years_of_In; eauto).
      apply In_nth_error in Hin. destruct Hin as (j & Hj). exists j. split; [exact Hj |].
      rewrite yearly_means_snd, nth_error_map, Hj. reflexivity. }
    repeat split.
    + apply years_of_In. eapply nth_error_In; eauto.
    + apply years_of_In. eapply nth_error_In; eauto.
    + exact Hsh.
    + exact Hsl.
    + exact Hnh.
    + exact Hnl.
    + destruct (Hmem d H) as (j & _ & Hj). apply Hminl; [| assumption].
      eapply nth_error_In; eauto.
    + destruct (Hmem d H) as (j & _ & Hj). apply Hmaxh; [| assumption].
      eapply nth_error_In; eauto.
    + intros d Hd Heq. destruct (Hmem d Hd) as (j & Hjy & Hj).
      destruct (Nat.lt_trichotomy j hi) as [Lt | [Eq | Gt]].
      * rewrite (Hfirsth j _ Lt Hj) in Heq. discriminate.
      * subst j. rewrite Hyh in Hjy. inversion Hjy. lia.
      * pose proof (@increasing_nth _ _ _ _ _ (years_of_increasing (df_dates df)) Hyh Hjy Gt). lia.
    + intros d Hd Heq. destruct (Hmem d Hd) as (j & Hjy & Hj).
      destruct (Nat.lt_trichotomy j lo) as [Lt | [Eq | Gt]].
      * rewrite (Hfirstl j _ Lt Hj) in Heq. discriminate.
      * subst j. rewrite Hyl in Hjy. inversion Hjy. lia.
      * pose proof (@increasing_nth _ _ _ _ _ (years_of_increasing (df_dates df)) Hyl Hjy Gt). lia.
Qed.

(** The theorem on days of 2019, 2020 and 2021 that are not in the order
    of their years. *)
Lemma yearly_comparisons_extremes_witness :
  (_compute_yearly_comparisons Sample.backend Tables.years_table "temp" = Ok None <->
   df_dates Tables.years_table = [])
  /\ (forall y,
        _compute_yearly_comparisons Sample.backend Tables.years_table "temp" = Ok (Some y) ->
        (exists d, In d (df_dates Tables.years_table) /\ year d = highest_year y)
        /\ (exists d, In d (df_dates Tables.years_table) /\ year d = lowest_year y)
        /\ highest_value y
           = year_mean Sample.backend Tables.years_table "temp" (highest_year y)
        /\ lowest_value y
           = year_mean Sample.backend Tables.years_table "temp" (lowest_year y)
        /\ isnan (highest_value y) = false
        /\ isnan (lowest_value y) = false
        /\ (forall d, In d (df_dates Tables.years_table) ->
              isnan (year_mean Sample.backend Tables.years_table "temp" (year d)) = false ->
              fle (lowest_value y)
                  (year_mean Sample.backend Tables.years_table "temp" (year d)) = true
              /\ fle (year_mean Sample.backend Tables.years_table "temp" (year d))
                     (highest_value y) = true)
        /\ (forall d, In d (df_dates Tables.years_table) ->
              feq (year_mean Sample.backend Tables.years_table "temp" (year d))
                  (highest_value y) = true ->
              (highest_year y <= year d)%Z)
        /\ (forall d, In d (df_dates Tables.years_table) ->
              feq (year_mean Sample.backend Tables.years_table "temp" (year d))
                  (lowest_value y) = true ->
              (lowest_year y <= year d)%Z)).
Proof.
  apply (@yearly_comparisons_extremes Sample.backend Tables.years_table "temp"%string).
  reflexivity.
Defined.

(** X10.  When the standard deviation of the yearly means is not above
    zero (a table of a single year, whose deviation is undefined, is the
    common case), both z-scores of [_compute_yearly_comparisons] are 0,
    and the planner, under any positive [extreme_threshold], does not find
    the yearly comparison notable. *)
Theorem flat_years_not_notable (backend : Backend) (df : DataFrame) (col : string)
    (y : Yearly) (config : ContentPlanner.Config) :
  in_columns df col = true ->
  _compute_yearly_comparisons backend df col = Ok (Some y) ->
  fgt (yearly_std y) 0 = false ->
  fgt (ContentPlanner.extreme_threshold config) 0 = true ->
  highest_zscore y = 0%float
  /\ lowest_zscore y = 0%float
  /\ ContentPlanner._is_yearly_comparison_notable config (Some y) = false.
Proof.
  intros _ Hy Hstd Hthr. apply yearly_comparisons_inv in Hy.
  destruct Hy as (hi & lo & h & l & _ & _ & _ & _ & _ & _ & _ & _ & _ & _ & Hhz & Hlz).
  rewrite Hstd in Hhz, Hlz.
  unfold ContentPlanner._is_yearly_comparison_notable. rewrite Hhz, Hlz.
  repeat split.
  change (fabs 0) with 0%float.
  unfold fgt in Hthr. unfold fge.
  change ((ContentPlanner.extreme_threshold config <=? 0)%float)
    with (fle (ContentPlanner.extreme_threshold config) 0).
  rewrite (flt_not_fle Hthr). reflexivity.
Qed.

(** The theorem on a table of one row, under the deployed thresholds. *)
Lemma flat_years_not_notable_witness :
  exists y,
    _compute_yearly_comparisons Sample.backend Sample.one_row_table
                                "temperature_2m_mean (°C)" = Ok (Some y)
    /\ highest_zscore y = 0%float
    /\ lowest_zscore y = 0%float
    /\ ContentPlanner._is_yearly_comparison_notable Sample.config (Some y) = false.
Proof.
  eexists. split; [reflexivity |].
  apply (@flat_years_not_notable Sample.backend Sample.one_row_table
           "temperature_2m_mean (°C)"%string _ Sample.config); reflexivity.
Defined.

End AnalyzerMore.

(** ** The analyzer: patterns across the groups, and the whole analysis *)

Module PatternsMore.

Import DatasetAnalyzer Strongest FloatOrder FloatOrderFacts FloatOrderMore DictFacts.

Lemma trending_fold (results : dict Bundle) (keys : list string) (acc : list TrendingVar) :
  fold_left (trending_step results) keys acc = acc ++ trending_candidates results keys.
Proof.
  revert acc. induction keys as [| v keys IH]; intros acc; simpl.
  - now rewrite app_nil_r.
  - rewrite IH. unfold trending_step, trending_of.
    destruct (dict_get v results) as [b |]; [| reflexivity].
    destruct (fgt (r_squared (trend b)) 0.3); [| reflexivity].
    now rewrite <- app_assoc.
Qed.

Lemma trending_candidates_In (results : dict Bundle) (keys : list string) (t : TrendingVar) :
  In t (trending_candidates results keys) <->
  exists v b, In v keys /\ dict_get v results = Some b
              /\ fgt (r_squared (trend b)) 0.3 = true /\ t = trending_of v b.
Proof.
  unfold trending_candidates. rewrite in_flat_map. split.
  - intros (v & Hv & Hin).
    destruct (dict_get v results) as [b |] eqn:E; [| destruct Hin].
    destruct (fgt (r_squared (trend b)) 0.3) eqn:G; [| destruct Hin].
    destruct Hin as [<- | []]. exists v, b. auto.
  - intros (v & b & Hv & E & G & ->). exists v. split; [exact Hv |].
    rewrite E, G. now left.
Qed.

Lemma insert_desc_In (x z : TrendingVar) (l : list TrendingVar) :
  In z (insert_desc x l) <-> z = x \/ In z l.
Proof.
  induction l as [| y l IH]; simpl.
  - intuition congruence.
  - destruct (flt (tv_r_squared y) (tv_r_squared x)); simpl.
    + intuition congruence.
    + rewrite IH. intuition congruence.
Qed.

Lemma insert_desc_length (x : TrendingVar) (l : list TrendingVar) :
  List.length (insert_desc x l) = S (List.length l).
Proof.
  induction l as [| y l IH]; simpl; [reflexivity |].
  destruct (flt (tv_r_squared y) (tv_r_squared x)); simpl; [reflexivity | now rewrite IH].
Qed.

Lemma insert_desc_descending (x : TrendingVar) (l : list TrendingVar) :
  isnan (tv_r_squared x) = false ->
  (forall y, In y l -> isnan (tv_r_squared y) = false) ->
  descending l -> descending (insert_desc x l).
Proof.
  intros Hx. induction l as [| y l IH]; intros Hnum Hd; simpl.
  - split; [intros ? [] | exact I].
  - destruct Hd as [Hy Hl].
    destruct (flt (tv_r_squared y) (tv_r_squared x)) eqn:E; simpl.
    + split; [| split; assumption].
      intros z [<- | Hz]; [now apply flt_fle |].
      eapply fle_trans; [apply (Hy z Hz) | now apply flt_fle].
    + split.
      * intros z Hz. apply insert_desc_In in Hz. destruct Hz as [-> | Hz]; [| auto].
        apply fle_of_not_flt; auto. apply Hnum. now left.
      * apply IH; [| exact Hl]. intros z Hz. apply Hnum. now right.
Qed.

Lemma sort_fold_In (l acc : list TrendingVar) (z : TrendingVar) :
  In z (fold_left (fun acc x => insert_desc x acc) l acc) <-> In z l \/ In z acc.
Proof.
  revert acc. induction l as [| x l IH]; intros acc; simpl; [tauto |].
  rewrite IH, insert_desc_In. intuition congruence.
Qed.

Lemma sort_fold_length (l acc : list TrendingVar) :
  List.length (fold_left (fun acc x => insert_desc x acc) l acc)
  = List.length l + List.length acc.
Proof.
  revert acc. induction l as [| x l IH]; intros acc; simpl; [reflexivity |].
  rewrite IH, insert_desc_length. lia.
Qed.

Lemma sort_fold_descending (l acc : list TrendingVar) :
  (forall y, In y l -> isnan (tv_r_squared y) = false) ->
  (forall y, In y acc -> isnan (tv_r_squared y) = false) ->
  descending acc ->
  descending (fold_left (fun acc x => insert_desc x acc) l acc).
Proof.
  revert acc. induction l as [| x l IH]; intros acc Hl Hacc Hd; simpl; [exact Hd |].
  apply IH.
  - intros y Hy. apply Hl. now right.
  - intros y Hy. apply insert_desc_In in Hy. destruct Hy as [-> | Hy]; [| auto].
    apply Hl. now left.
  - apply insert_desc_descending; auto. apply Hl. now left.
Qed.

Lemma descending_app (a b : list TrendingVar) :
  descending (a ++ b) ->
  descending a
  /\ forall t c, In t a -> In c b -> fle (tv_r_squared c) (tv_r_squared t) = true.
Proof.
  induction a as [| x a IH]; simpl; intros H.
  - split; [exact I | intros t c []].
  - destruct H as [Hx Ha]. destruct (IH Ha) as [Hd Hab]. split.
    + split; [| exact Hd]. intros y Hy. apply Hx. apply in_or_app. now left.
    + intros t c [<- | Ht] Hc; [| eauto]. apply Hx. apply in_or_app. now right.
Qed.

(** X12.  The [strongest_trends] entry of
    [_detect_cross_variable_patterns] is missing exactly when no analysed
    group of the schema has a trend with [r_squared] above 0.3.  Otherwise
    it lists at most two of those groups, each with the [r_squared],
    direction and slope of its own trend, the stronger first; and every
    such group that is left out has an [r_squared] no greater than that of
    each listed one. *)
Theorem strongest_trends_top_two (backend : Backend) (df : DataFrame)
    (schema : dict GroupConfig) (results : dict Bundle) :
  (strongest_trends (_detect_cross_variable_patterns backend df schema results) = None <->
   forall v b, In v (dict_keys schema) -> dict_get v results = Some b ->
               fgt (r_squared (trend b)) 0.3 = false)
  /\ (forall l,
        strongest_trends (_detect_cross_variable_patterns backend df schema results)
        = Some l ->
        List.length l
        = Nat.min 2 (List.length (trending_candidates results (dict_keys schema)))
        /\ 1 <= List.length l
        /\ (forall t, In t l ->
              exists v b, In v (dict_keys schema) /\ dict_get v results = Some b
                          /\ fgt (r_squared (trend b)) 0.3 = true
                          /\ t = trending_of v b)
        /\ descending l
        /\ (forall t v b,
              In t l -> In v (dict_keys schema) -> dict_get v results = Some b ->
              fgt (r_squared (trend b)) 0.3 = true ->
              In (trending_of v b) l
              \/ fle (r_squared (trend b)) (tv_r_squared t) = true)).
Proof.
  unfold _detect_cross_variable_patterns. cbn [strongest_trends].
  rewrite trending_fold. cbn [app].
  set (cands := trending_candidates results (dict_keys schema)).
  assert (Hnum : forall y, In y cands -> isnan (tv_r_squared y) = false).
  { intros y Hy. apply trending_candidates_In in Hy.
    destruct Hy as (v & b & _ & _ & G & ->). cbn. unfold fgt in G.
    exact (proj2 (flt_number G)). }
  split.
  - split.
    + intros H v b Hv Hb.
      destruct (fgt (r_squared (trend b)) 0.3) eqn:G; [| reflexivity].
      assert (Hin : In (trending_of v b) cands)
        by (apply trending_candidates_In; exists v, b; auto).
      destruct cands; [destruct Hin | discriminate].
    + intros H. destruct cands as [| c cs] eqn:E; [reflexivity |].
      assert (Hin : In c cands) by (rewrite E; now left).
      apply trending_candidates_In in Hin.
      destruct Hin as (v & b & Hv & Hb & G & _).
      rewrite (H v b Hv Hb) in G. discriminate.
  - intros l Hl.
    assert (Hl' : l = firstn 2 (sort_desc cands) /\ 1 <= List.length cands).
    { destruct cands as [| c cs]; [discriminate |]. injection Hl as <-.
      split; [reflexivity | cbn [List.length]; lia]. }
    clear Hl. destruct Hl' as [-> Hne].
    pose proof (sort_fold_length cands []) as Hlen. fold (sort_desc cands) in Hlen.
    cbn [List.length] in Hlen. rewrite Nat.add_0_r in Hlen.
    assert (Hdesc : descending (sort_desc cands)).
    { apply sort_fold_descending; [exact Hnum | intros ? [] | exact I]. }
    assert (Hmem : forall z, In z (sort_desc cands) <-> In z cands).
    { intros z. unfold sort_desc. rewrite sort_fold_In. simpl. tauto. }
    rewrite <- (firstn_skipn 2 (sort_desc cands)) in Hdesc.
    apply descending_app in Hdesc. destruct Hdesc as [Hd Hrest].
    repeat split.
    + rewrite length_firstn, Hlen. reflexivity.
    + rewrite length_firstn, Hlen. lia.
    + intros t Ht. apply trending_candidates_In. apply Hmem.
      rewrite <- (firstn_skipn 2 (sort_desc cands)). apply in_or_app. now left.
    + exact Hd.
    + intros t v b Ht Hv Hb G.
      assert (Hin : In (trending_of v b) (sort_desc cands)).
      { apply Hmem. apply trending_candidates_In. exists v, b. auto. }
      rewrite <- (firstn_skipn 2 (sort_desc cands)) in Hin.
      apply in_app_or in Hin. destruct Hin as [Hin | Hin]; [now left | right].
      exact (Hrest t _ Ht Hin).
Qed.

(** *** The most variable group *)

Lemma dict_set_In {V : Type} (k k' : string) (x v : V) (d : dict V) :
  In (k, x) (dict_set k' v d) -> (k = k' /\ x = v) \/ In (k, x) d.
Proof.
  induction d as [| [k0 v0] d IH]; simpl.
  - intros [H | []]. inversion H. auto.
  - destruct (String.eqb k' k0); simpl.
    + intros [H | H]; [inversion H; auto | auto].
    + intros [H | H]; [auto |]. destruct (IH H); auto.
Qed.

Lemma dict_get_In {V : Type} (k : string) (v : V) (d : dict V) :
  dict_get k d = Some v -> In (k, v) d.
Proof.
  induction d as [| [k0 v0] d IH]; simpl; [discriminate |].
  destruct (String.eqb k k0) eqn:E.
  - apply String.eqb_eq in E. subst. intros H; inversion H. now left.
  - intros H. right. auto.
Qed.

Lemma variability_sound (results : dict Bundle) (keys : list string) (acc : dict float)
    (k : string) (x : float) :
  In (k, x) (fold_left (variability_step results) keys acc) ->
  In (k, x) acc
  \/ (In k keys /\ exists b, dict_get k results = Some b
                             /\ x = coefficient_of_variation (summary b)).
Proof.
  revert acc. induction keys as [| v keys IH]; intros acc H; simpl in *; [auto |].
  destruct (IH _ H) as [Hacc | (Hk & b & Hb & Hx)]; [| right; eauto 6].
  unfold variability_step in Hacc.
  destruct (dict_get v results) as [b |] eqn:E; [| auto].
  apply dict_set_In in Hacc. destruct Hacc as [[-> ->] | Hacc]; [| auto].
  right. split; [now left | eauto].
Qed.

Lemma variability_complete (results : dict Bundle) (keys : list string) (acc : dict float)
    (v : string) (b : Bundle) :
  dict_get v results = Some b ->
  In v keys \/ dict_get v acc = Some (coefficient_of_variation (summary b)) ->
  dict_get v (fold_left (variability_step results) keys acc)
  = Some (coefficient_of_variation (summary b)).
Proof.
  intros Hb. revert acc. induction keys as [| k keys IH]; intros acc H; simpl.
  - destruct H as [[] | H]; exact H.
  - apply IH. unfold variability_step.
    destruct (String.eqb k v) eqn:E.
    + apply String.eqb_eq in E. subst k. rewrite Hb. right. apply dict_get_set_eq.
    + apply String.eqb_neq in E.
      destruct H as [[Hk | Hin] | Hacc]; [congruence | now left | right].
      destruct (dict_get k results); [| exact Hacc].
      rewrite dict_get_set_ne; auto.
Qed.

Lemma max_fold_spec (rest : dict float) (first : string * float) :
  let m := fold_left (fun best item => if fgt (snd item) (snd best) then item else best)
                     rest first in
  In m (first :: rest)
  /\ forall item, In item (first :: rest) -> fgt (snd item) (snd m) = false.
Proof.
  cbv zeta.
  assert (G : forall (seen : dict float) (best : string * float),
             In best seen ->
             (forall item, In item seen -> fgt (snd item) (snd best) = false) ->
             let m := fold_left
                        (fun best item => if fgt (snd item) (snd best) then item else best)
                        rest best in
             In m (seen ++ rest)
             /\ forall item, In item (seen ++ rest) -> fgt (snd item) (snd m) = false).
  { induction rest as [| it rest IH]; intros seen best Hin Hmax; cbv zeta; simpl.
    - rewrite app_nil_r. auto.
    - replace (seen ++ it :: rest) with ((seen ++ [it]) ++ rest)
        by now rewrite <- app_assoc.
      apply IH.
      + destruct (fgt (snd it) (snd best)); apply in_or_app; [right; now left | now left].
      + intros item Hitem. apply in_app_or in Hitem.
        destruct (fgt (snd it) (snd best)) eqn:E.
        * destruct Hitem as [Hitem | [<- | []]]; [| apply flt_irrefl].
          destruct (fgt (snd item) (snd it)) eqn:E'; [| reflexivity].
          pose proof (Hmax item Hitem) as M. unfold fgt in *.
          pose proof (flt_trans E E') as C. unfold flt in C. congruence.
        * destruct Hitem as [Hitem | [<- | []]]; auto. }
  apply (G [first] first); [now left |].
  intros item [<- | []]. apply flt_irrefl.
Qed.

(** X13.  When [_detect_cross_variable_patterns] reports a
    [most_variable] group, that group is an analysed group of the schema,
    the reported [cv] is the coefficient of variation of its summary and
    is above 0.5, and no analysed group of the schema has a greater
    coefficient of variation. *)
Theorem most_variable_greatest (backend : Backend) (df : DataFrame)
    (schema : dict GroupConfig) (results : dict Bundle) (m : MostVariable) :
  most_variable (_detect_cross_variable_patterns backend df schema results) = Some m ->
  fgt (cv m) 0.5 = true
  /\ In (variable m) (dict_keys schema)
  /\ (exists b, dict_get (variable m) results = Some b
                /\ cv m = coefficient_of_variation (summary b))
  /\ (forall v b, In v (dict_keys schema) -> dict_get v results = Some b ->
                  fgt (coefficient_of_variation (summary b)) (cv m) = false).
Proof.
  unfold _detect_cross_variable_patterns. cbn [most_variable].
  set (V := fold_left (variability_step results) (dict_keys schema) []).
  unfold max_by_value. destruct V as [| first rest] eqn:EV; [discriminate |].
  destruct (max_fold_spec rest first) as [Hin Hmax]. cbv zeta in Hin, Hmax.
  set (best := fold_left
                 (fun best item => if fgt (snd item) (snd best) then item else best)
                 rest first) in *.
  destruct (fgt (snd best) 0.5) eqn:G; [| discriminate].
  intros H. injection H as <-. cbn [cv variable].
  rewrite <- EV in Hin, Hmax.
  assert (Hsound : In (fst best) (dict_keys schema)
                   /\ exists b, dict_get (fst best) results = Some b
                                /\ snd best = coefficient_of_variation (summary b)).
  { destruct best as [k x]. unfold V in Hin.
    apply variability_sound in Hin. destruct Hin as [[] | H]. exact H. }
  destruct Hsound as [Hk Hb].
  repeat split; auto.
  intros v b Hv Hvb.
  apply (Hmax (v, coefficient_of_variation (summary b))).
  apply dict_get_In. unfold V. apply variability_complete; auto.
Qed.

(** The theorem on the results of the analysis of three days of
    temperature and of a precipitation that falls on one day. *)
Lemma most_variable_greatest_witness :
  exists results m,
    analyze_groups Sample.backend Tables.showers_table Summarizer.variable_groups []
    = Ok results
    /\ most_variable (_detect_cross_variable_patterns
                        Sample.backend Tables.showers_table
                        Summarizer.variable_groups results) = Some m
    /\ fgt (cv m) 0.5 = true
    /\ In (variable m) (dict_keys Summarizer.variable_groups)
    /\ (exists b, dict_get (variable m) results = Some b
                  /\ cv m = coefficient_of_variation (summary b))
    /\ (forall v b, In v (dict_keys Summarizer.variable_groups) ->
                    dict_get v results = Some b ->
                    fgt (coefficient_of_variation (summary b)) (cv m) = false).
Proof.
  eexists. eexists. split; [vm_compute; reflexivity |]. split; [vm_compute; reflexivity |].
  eapply (@most_variable_greatest Sample.backend Tables.showers_table
            Summarizer.variable_groups).
  vm_compute. reflexivity.
Defined.

(** *** The analysis as a whole *)

Lemma schema_entry_unique (schema : dict GroupConfig) (g : string) (c c' : GroupConfig) :
  NoDup (dict_keys schema) -> In (g, c) schema -> In (g, c') schema -> c = c'.
Proof.
  unfold dict_keys. induction schema as [| [k v] schema IH]; simpl; intros Hnd H1 H2;
    [destruct H1 |].
  inversion Hnd as [| ? ? Hnot Hnd']; subst.
  destruct H1 as [H1 | H1], H2 as [H2 | H2].
  - congruence.
  - inversion H1; subst. exfalso. apply Hnot.
    change g with (fst (g, c')). now apply in_map.
  - inversion H2; subst. exfalso. apply Hnot.
    change g with (fst (g, c)). now apply in_map.
  - auto.
Qed.

Lemma analyze_groups_keys (backend : Backend) (df : DataFrame)
    (l : dict GroupConfig) (acc results : dict Bundle) :
  NoDup (dict_keys acc ++ dict_keys l) ->
  analyze_groups backend df l acc = Ok results ->
  dict_keys results = dict_keys acc ++ analysed_groups df l.
Proof.
  unfold analysed_groups.
  revert acc. induction l as [| [g cfg] l IH]; intros acc Hnd H;
    cbn [analyze_groups] in H.
  - inversion H; subst. simpl. now rewrite app_nil_r.
  - destruct (analyze_group backend df acc (g, cfg)) as [acc' |] eqn:E;
      cbn [bind] in H; [| discriminate].
    unfold dict_keys in Hnd. cbn [map fst] in Hnd. fold (dict_keys acc) in Hnd.
    fold (dict_keys l) in Hnd.
    destruct (AnalysisFacts.analyze_group_inv _ _ _ _ _ E)
      as [[Hno ->] | (Hyes & r & y & e & _ & _ & _ & ->)].
    + cbn [filter snd]. rewrite Hno. apply IH; [| exact H].
      eapply NoDup_remove_1; eauto.
    + cbn [filter snd]. rewrite Hyes. cbn [map fst].
      assert (Hg : dict_mem g acc = false).
      { destruct (dict_mem g acc) eqn:M; [| reflexivity].
        apply dict_get_in_keys in M. apply NoDup_remove_2 in Hnd.
        exfalso. apply Hnd. apply in_or_app. now left. }
      assert (Hnd' : NoDup (dict_keys (dict_set g (Pairs.bundle_of backend df cfg
                                                     (Pairs.trend_of backend r) y e) acc)
                            ++ dict_keys l)).
      { rewrite dict_keys_set, Hg, <- app_assoc. exact Hnd. }
      rewrite (IH _ Hnd' H), dict_keys_set, Hg, <- app_assoc. reflexivity.
Qed.

(** X14.  Under a schema with distinct group names, none of which is
    [basic] or [patterns] (the two keys that [analyze] assigns itself),
    when [analyze] returns, the groups of its result are the groups of the
    schema whose primary column is in the table, in the order of the
    schema; a group whose primary column is missing has no entry; [basic]
    is the basic information of the table; and [patterns] is always there,
    computed from those groups. *)
Theorem analyze_result_keys (backend : Backend) (df : DataFrame) (station_name : string)
    (schema : dict GroupConfig) (stats : Statistics) :
  NoDup (dict_keys schema) ->
  ~ In "basic"%string (dict_keys schema) ->
  ~ In "patterns"%string (dict_keys schema) ->
  analyze backend df station_name schema = Ok stats ->
  dict_keys (groups stats) = analysed_groups df schema
  /\ (forall g cfg, In (g, cfg) schema ->
                    (in_columns df (primary cfg) = true <-> dict_mem g (groups stats) = true))
  /\ basic stats = _compute_basic_info df station_name
  /\ patterns stats
     = Some (_detect_cross_variable_patterns backend df schema (groups stats)).
Proof.
  intros Hnd _ Hpat H. unfold analyze in H.
  destruct (analyze_groups backend df schema []) as [results |] eqn:E;
    cbn [bind] in H; [| discriminate].
  pose proof (@analyze_groups_keys backend df schema [] results Hnd E) as Hk.
  cbn [dict_keys map app] in Hk.
  assert (Habs : ~ In "patterns"%string (dict_keys results)).
  { rewrite Hk. unfold analysed_groups. intros Hin. apply Hpat.
    apply in_map_iff in Hin. destruct Hin as (entry & He & Hf).
    apply filter_In in Hf. unfold dict_keys. rewrite <- He. apply in_map. tauto. }
  rewrite (dict_remove_absent _ _ Habs) in H.
  injection H as <-. cbn [groups basic patterns].
  repeat split; auto.
  - intros Hcol. apply dict_get_in_keys. rewrite Hk. unfold analysed_groups.
    change g with (fst (g, cfg)). apply in_map. apply filter_In. auto.
  - intros Hmem. apply dict_get_in_keys in Hmem. rewrite Hk in Hmem.
    unfold analysed_groups in Hmem. apply in_map_iff in Hmem.
    destruct Hmem as ([g' cfg'] & Hfst & Hin). simpl in Hfst. subst g'.
    apply filter_In in Hin. destruct Hin as [Hin Hcol]. simpl in Hcol.
    now rewrite (@schema_entry_unique schema g cfg cfg' Hnd H Hin).
Qed.

(** The theorem on three days of temperature and precipitation under the
    deployed schema: of its eight groups, the two whose columns are in the
    table are analysed. *)
Lemma analyze_result_keys_witness :
  exists stats,
    analyze Sample.backend Sample.two_group_table "Oslo" Summarizer.variable_groups
    = Ok stats
    /\ dict_keys (groups stats) = ["temperature"; "precipitation"]%string
    /\ dict_keys (groups stats)
       = analysed_groups Sample.two_group_table Summarizer.variable_groups
    /\ (forall g cfg,
          In (g, cfg) Summarizer.variable_groups ->
          (in_columns Sample.two_group_table (primary cfg) = true <->
           dict_mem g (groups stats) = true))
    /\ basic stats = _compute_basic_info Sample.two_group_table "Oslo"
    /\ patterns stats
       = Some (_detect_cross_variable_patterns Sample.backend Sample.two_group_table
                 Summarizer.variable_groups (groups stats)).
Proof.
  eexists. split; [vm_compute; reflexivity |]. split; [vm_compute; reflexivity |].
  apply (@analyze_result_keys Sample.backend Sample.two_group_table "Oslo"%string
           Summarizer.variable_groups).
  - apply AnalysisFacts.distinct_nodup. vm_compute. reflexivity.
  - vm_compute. intuition discriminate.
  - vm_compute. intuition discriminate.
  - vm_compute. reflexivity.
Defined.

(** *** The basic information *)

Lemma date_ltb_true (a b : Date) : date_ltb a b = true <-> date_lt a b.
Proof.
  unfold date_ltb, date_lt.
  rewrite !orb_true_iff, !andb_true_iff, !orb_true_iff, !andb_true_iff,
    !Z.ltb_lt, !Z.eqb_eq.
  tauto.
Qed.

Lemma date_ltb_false (a b : Date) : date_ltb a b = false <-> ~ date_lt a b.
Proof.
  rewrite <- date_ltb_true. destruct (date_ltb a b); split; congruence.
Qed.

Lemma date_min_nil (l : list Date) : date_min l = None <-> l = [].
Proof.
  destruct l as [| d l]; simpl; [tauto |].
  destruct (date_min l); split; discriminate.
Qed.

Lemma date_max_nil (l : list Date) : date_max l = None <-> l = [].
Proof.
  destruct l as [| d l]; simpl; [tauto |].
  destruct (date_max l); split; discriminate.
Qed.

Lemma date_min_least (l : list Date) (m : Date) :
  date_min l = Some m -> In m l /\ forall d, In d l -> date_leb m d = true.
Proof.
  unfold date_leb. revert m. induction l as [| x l IH]; intros m; simpl; [discriminate |].
  destruct (date_min l) as [m' |] eqn:E.
  - destruct (IH m' eq_refl) as [Hin Hle]. intros H. injection H as <-.
    destruct (date_ltb m' x) eqn:C.
    + split; [now right |]. intros d [<- | Hd]; [| auto].
      apply negb_true_iff. apply date_ltb_false. apply date_ltb_true in C.
      unfold date_lt in *. lia.
    + split; [now left |]. intros d [<- | Hd].
      * apply negb_true_iff. apply date_ltb_false. unfold date_lt. lia.
      * specialize (Hle d Hd). apply negb_true_iff in Hle.
        apply negb_true_iff. apply date_ltb_false.
        apply date_ltb_false in C, Hle. unfold date_lt in *. lia.
  - apply date_min_nil in E. subst l. intros H. injection H as <-.
    split; [now left |]. intros d [<- | []].
    apply negb_true_iff. apply date_ltb_false. unfold date_lt. lia.
Qed.

Lemma date_max_greatest (l : list Date) (m : Date) :
  date_max l = Some m -> In m l /\ forall d, In d l -> date_leb d m = true.
Proof.
  unfold date_leb. revert m. induction l as [| x l IH]; intros m; simpl; [discriminate |].
  destruct (date_max l) as [m' |] eqn:E.
  - destruct (IH m' eq_refl) as [Hin Hle]. intros H. injection H as <-.
    destruct (date_ltb x m') eqn:C.
    + split; [now right |]. intros d [<- | Hd]; [| auto].
      apply negb_true_iff. apply date_ltb_false. apply date_ltb_true in C.
      unfold date_lt in *. lia.
    + split; [now left |]. intros d [<- | Hd].
      * apply negb_true_iff. apply date_ltb_false. unfold date_lt. lia.
      * specialize (Hle d Hd). apply negb_true_iff in Hle.
        apply negb_true_iff. apply date_ltb_false.
        apply date_ltb_false in C, Hle. unfold date_lt in *. lia.
  - apply date_max_nil in E. subst l. intros H. injection H as <-.
    split; [now left |]. intros d [<- | []].
    apply negb_true_iff. apply date_ltb_false. unfold date_lt. lia.
Qed.

(** X15.  [_compute_basic_info] counts the rows of the table and copies
    the station name.  On a table without rows both dates are missing; on
    any other table [start_date] and [end_date] are dates of the table,
    no date of the table is before [start_date] and none is after
    [end_date]. *)
Theorem basic_info_span (df : DataFrame) (station_name : string) :
  n_records (_compute_basic_info df station_name) = Z.of_nat (List.length (df_dates df))
  /\ station (_compute_basic_info df station_name) = station_name
  /\ (start_date (_compute_basic_info df station_name) = None <-> df_dates df = [])
  /\ (end_date (_compute_basic_info df station_name) = None <-> df_dates df = [])
  /\ (forall first,
        start_date (_compute_basic_info df station_name) = Some first ->
        In first (df_dates df)
        /\ forall d, In d (df_dates df) -> date_leb first d = true)
  /\ (forall last,
        end_date (_compute_basic_info df station_name) = Some last ->
        In last (df_dates df)
        /\ forall d, In d (df_dates df) -> date_leb d last = true).
Proof.
  unfold _compute_basic_info. cbn [n_records station start_date end_date].
  repeat split; try reflexivity;
    try apply date_min_nil; try apply date_max_nil;
    try (apply date_min_least; assumption);
    try (apply date_max_greatest; assumption).
Qed.

End PatternsMore.

(** ** The realizer and the pipeline *)

Module RealizerMore.

Import ContentPlanner TemplateRealizer Summarizer Rendering Prepared DictFacts.

(** Taking a sequence of calls apart: each one returned. *)
Ltac bind_inv H :=
  repeat match type of H with
         | bind ?r _ = Ok _ =>
             let x := fresh "x" in
             let E := fresh "E" in
             destruct r as [x |] eqn:E; cbn [bind] in H; [| discriminate H]
         end.

Lemma frame_refl (keys : list string) (a : dict pyval) : frame keys a a.
Proof. split; auto. Qed.

Lemma frame_trans (keys : list string) (a b c : dict pyval) :
  frame keys a b -> frame keys b c -> frame keys a c.
Proof.
  intros [H1 M1] [H2 M2]. split.
  - intros k Hk. now rewrite H2, H1.
  - auto.
Qed.

Lemma frame_set (keys : list string) (k : string) (v : pyval) (a : dict pyval) :
  In k keys -> frame keys a (dict_set k v a).
Proof.
  intros Hk. split.
  - intros k' Hk'. apply dict_get_set_ne. congruence.
  - intros k' Hk'. now apply AnalysisFacts.dict_mem_set.
Qed.

Lemma prepare_date_frame (key : string) (a b : dict pyval) :
  In key derived_keys -> prepare_date key a = Ok b -> frame derived_keys a b.
Proof.
  intros Hk. unfold prepare_date.
  destruct (dict_get key a) as [v |]; [| intros H; inversion H; apply frame_refl].
  intros H. bind_inv H. inversion H. now apply frame_set.
Qed.

Lemma prepare_temperature_summary_frame (data : pyval) (a b : dict pyval) :
  prepare_temperature_summary data a = Ok b -> frame derived_keys a b.
Proof.
  unfold prepare_temperature_summary. intros H. bind_inv H.
  inversion H; subst b. clear H.
  eapply frame_trans; [| apply frame_set; simpl; tauto].
  destruct x0.
  - bind_inv E1. inversion E1.
    eapply frame_trans; apply frame_set; simpl; tauto.
  - bind_inv E1. inversion E1.
    eapply frame_trans; apply frame_set; simpl; tauto.
Qed.

Lemma prepare_trend_frame (var_type : string) (data : pyval) (a b : dict pyval) :
  prepare_trend var_type data a = Ok b -> frame derived_keys a b.
Proof.
  unfold prepare_trend. intros H. bind_inv H. inversion H.
  apply frame_set; simpl; tauto.
Qed.

Lemma prepare_precipitation_summary_frame (data : pyval) (a b : dict pyval) :
  prepare_precipitation_summary data a = Ok b -> frame derived_keys a b.
Proof.
  unfold prepare_precipitation_summary. intros H. bind_inv H. inversion H.
  eapply frame_trans; apply frame_set; simpl; tauto.
Qed.

Lemma prepare_extreme_frame (side : string) (data : pyval) (a b : dict pyval) :
  side = "highest"%string \/ side = "lowest"%string ->
  prepare_extreme side data a = Ok b -> frame derived_keys a b.
Proof.
  unfold prepare_extreme. intros Hside H. bind_inv H.
  destruct x; [| inversion H; apply frame_refl].
  bind_inv H. inversion H.
  destruct Hside as [-> | ->]; eapply frame_trans; apply frame_set; simpl; tauto.
Qed.

Lemma prepare_pattern_correlation_frame (data : pyval) (a b : dict pyval) :
  prepare_pattern_correlation data a = Ok b -> frame derived_keys a b.
Proof.
  unfold prepare_pattern_correlation. intros H. bind_inv H.
  destruct x1; try discriminate. inversion H.
  eapply frame_trans; apply frame_set; simpl; tauto.
Qed.

(** X17.  When [_prepare_data] returns, the dictionary it hands to
    [format] holds every key of the payload (of no key when the payload is
    not a dictionary), and every key other than the fourteen that its
    branches assign has the value the payload gave it: the preparation
    adds and overwrites, and never removes. *)
Theorem prepare_data_frame (fact_type : string) (data : pyval) (formatted : dict pyval) :
  _prepare_data fact_type data = Ok formatted ->
  (forall k, ~ In k derived_keys ->
             dict_get k formatted = dict_get k (payload_dict data))
  /\ (forall k, dict_mem k (payload_dict data) = true -> dict_mem k formatted = true).
Proof.
  unfold _prepare_data. intros H. bind_inv H.
  inversion H; subst formatted. clear H.
  change (frame derived_keys (payload_dict data) x6).
  eapply frame_trans; [eapply prepare_date_frame; [| exact E]; simpl; tauto |].
  eapply frame_trans; [eapply prepare_date_frame; [| exact E0]; simpl; tauto |].
  eapply frame_trans.
  { destruct (String.eqb fact_type "temperature_summary");
      [eapply prepare_temperature_summary_frame; exact E1
      | inversion E1; apply frame_refl]. }
  eapply frame_trans.
  { destruct (String.eqb fact_type "temperature_trend");
      [eapply prepare_trend_frame; exact E2 | inversion E2; apply frame_refl]. }
  eapply frame_trans.
  { destruct (String.eqb fact_type "precipitation_summary");
      [eapply prepare_precipitation_summary_frame; exact E3
      | inversion E3; apply frame_refl]. }
  eapply frame_trans.
  { destruct (String.eqb fact_type "precipitation_trend");
      [eapply prepare_trend_frame; exact E4 | inversion E4; apply frame_refl]. }
  eapply frame_trans.
  { destruct (contains "extremes" fact_type); [| inversion E5; apply frame_refl].
    bind_inv E5.
    eapply frame_trans;
      [ eapply prepare_extreme_frame; [left; reflexivity | eassumption]
      | eapply prepare_extreme_frame; [right; reflexivity | eassumption] ]. }
  destruct (String.eqb fact_type "pattern_correlation");
    [eapply prepare_pattern_correlation_frame; exact E6
    | inversion E6; apply frame_refl].
Qed.

(** The theorem on the payload of a temperature summary. *)
Lemma prepare_data_frame_witness :
  exists formatted,
    _prepare_data "temperature_summary" (PyOf.of_bundle Sample.warm_bundle) = Ok formatted
    /\ (forall k, ~ In k derived_keys ->
                  dict_get k formatted
                  = dict_get k (payload_dict (PyOf.of_bundle Sample.warm_bundle)))
    /\ (forall k, dict_mem k (payload_dict (PyOf.of_bundle Sample.warm_bundle)) = true ->
                  dict_mem k formatted = true).
Proof.
  eexists. split; [reflexivity |].
  apply (@prepare_data_frame "temperature_summary"%string
           (PyOf.of_bundle Sample.warm_bundle)).
  reflexivity.
Defined.

(** *** What a call of [realize] does besides answering *)

Lemma realize_inv (format_value : pyval -> string -> result string)
    (fact_type : string) (data : pyval) (w w' : World) (text : string) :
  realize format_value fact_type data w = Ok (text, w') ->
  (registered fact_type = false /\ text = EmptyString /\ w' = w)
  \/ (registered fact_type = true
      /\ draws w' = tl (draws w)
      /\ (printed w' = printed w
          \/ (text = EmptyString
              /\ exists key, printed w' = printed w ++ [missing_key_warning key fact_type]))).
Proof.
  unfold realize, registered, dict_mem.
  destruct (dict_get fact_type templates) as [choices |];
    [| intros H; inversion H; left; auto].
  intros H. right. split; [reflexivity |].
  assert (Hw : draws (snd (random_choice choices w)) = tl (draws w)
               /\ printed (snd (random_choice choices w)) = printed w).
  { unfold random_choice. destruct (draws w) eqn:D; simpl; auto. }
  destruct (random_choice choices w) as [template w1]. cbn [snd] in Hw.
  destruct Hw as [Hd Hp].
  destruct (_prepare_data fact_type data) as [formatted_data |]; cbn [bind] in H;
    [| discriminate].
  destruct (str_format format_value template formatted_data) as [t | e].
  - inversion H; subst. auto.
  - destruct e; try discriminate. inversion H; subst. cbn [print draws printed].
    split; [exact Hd |]. right. split; [reflexivity |]. exists key. now rewrite Hp.
Qed.

(** X16.  A call of [realize] that returns has drawn from the random
    generator once when the kind of the fact has templates and not at all
    when it has none, in which case the text is empty and nothing is
    printed.  It prints at most one line, the warning about a missing key,
    and when it prints it the text it returns is empty. *)
Theorem realize_effects (format_value : pyval -> string -> result string)
    (fact_type : string) (data : pyval) (w w' : World) (text : string) :
  realize format_value fact_type data w = Ok (text, w') ->
  draws w' = (if registered fact_type then tl (draws w) else draws w)
  /\ (printed w' = printed w
      \/ (text = EmptyString /\ registered fact_type = true
          /\ exists key, printed w' = printed w ++ [missing_key_warning key fact_type]))
  /\ (registered fact_type = false -> text = EmptyString /\ w' = w).
Proof.
  intros H. apply realize_inv in H.
  destruct H as [(Hr & -> & ->) | (Hr & Hd & Hp)]; rewrite Hr.
  - repeat split; auto.
  - split; [exact Hd |]. split; [| discriminate].
    destruct Hp as [Hp | (-> & key & Hp)]; [now left | right; eauto].
Qed.

(** The theorem on an extremes fact whose [lowest] side is missing: one
    draw is consumed and the warning is printed. *)
Lemma realize_effects_witness :
  exists w',
    realize Reference.ref_format_value "temperature_extremes"
            (PyOf.of_extremes Sample.highest_only) Sample.world = Ok (EmptyString, w')
    /\ draws w' = (if registered "temperature_extremes"
                   then tl (draws Sample.world) else draws Sample.world)
    /\ (printed w' = printed Sample.world
        \/ (EmptyString = EmptyString /\ registered "temperature_extremes" = true
            /\ exists key,
                printed w' = printed Sample.world
                             ++ [missing_key_warning key "temperature_extremes"]))
    /\ (registered "temperature_extremes" = false ->
        EmptyString = EmptyString /\ w' = Sample.world).
Proof.
  eexists. split; [reflexivity |].
  apply (@realize_effects Reference.ref_format_value "temperature_extremes"%string
           (PyOf.of_extremes Sample.highest_only) Sample.world).
  reflexivity.
Defined.

Lemma skipn_tl {A : Type} (n : nat) (l : list A) : skipn (S n) l = skipn n (tl l).
Proof. destruct l; simpl; [now rewrite skipn_nil | reflexivity]. Qed.

Lemma render_fact_effects (format_value : pyval -> string -> result string)
    (fact : Fact) (w w' : World) (sentence : string) :
  render_fact format_value fact w = Ok (sentence, w') ->
  draws w' = skipn (List.length (registered_facts [fact])) (draws w)
  /\ exists lines,
       printed w' = printed w ++ lines
       /\ List.length lines <= List.length (registered_facts [fact]).
Proof.
  destruct fact as [fact_type data]. unfold render_fact, registered_facts.
  cbn [filter fst].
  destruct (String.eqb fact_type "other_conditions") eqn:Eo.
  - apply String.eqb_eq in Eo. subst fact_type.
    destruct data; try discriminate.
    destruct (realize_combined_conditions format_value l); cbn [bind]; [| discriminate].
    intros H; inversion H; subst. cbn.
    split; [reflexivity |]. exists []. split; [now rewrite app_nil_r | cbn; lia].
  - intros H. apply realize_inv in H.
    destruct H as [(Hr & -> & ->) | (Hr & Hd & Hp)]; rewrite Hr; cbn [List.length].
    + split; [reflexivity |]. exists []. split; [now rewrite app_nil_r | cbn; lia].
    + split; [rewrite Hd; now destruct (draws w) |].
      destruct Hp as [Hp | (_ & key & Hp)].
      * exists []. split; [now rewrite app_nil_r | cbn; lia].
      * eexists. split; [exact Hp | cbn; lia].
Qed.

Lemma registered_facts_cons (fact : Fact) (rest : list Fact) :
  List.length (registered_facts (fact :: rest))
  = List.length (registered_facts [fact]) + List.length (registered_facts rest).
Proof.
  unfold registered_facts. cbn [filter].
  destruct (registered (fst fact)); reflexivity.
Qed.

Lemma render_each_effects (format_value : pyval -> string -> result string)
    (content : list Fact) (w w' : World) (sentences : list string) :
  render_each format_value content w = Ok (sentences, w') ->
  draws w' = skipn (List.length (registered_facts content)) (draws w)
  /\ List.length sentences = List.length content
  /\ exists lines,
       printed w' = printed w ++ lines
       /\ List.length lines <= List.length (registered_facts content).
Proof.
  revert w sentences. induction content as [| fact rest IH]; intros w sentences H.
  - inversion H; subst. repeat split. exists []. split; [now rewrite app_nil_r | cbn; lia].
  - cbn [render_each] in H.
    destruct (render_fact format_value fact w) as [[s w1] |] eqn:E; cbn [bind] in H;
      [| discriminate].
    cbn [snd fst] in H.
    destruct (render_each format_value rest w1) as [[ss w2] |] eqn:E'; cbn [bind] in H;
      [| discriminate].
    inversion H; subst. clear H.
    apply render_fact_effects in E. destruct E as (Hd1 & l1 & Hp1 & Hl1).
    destruct (IH _ _ E') as (Hd2 & Hlen & l2 & Hp2 & Hl2).
    rewrite registered_facts_cons. repeat split.
    + rewrite Hd2, Hd1, skipn_skipn. f_equal. lia.
    + cbn [List.length]. now rewrite Hlen.
    + exists (l1 ++ l2). split; [now rewrite Hp2, Hp1, app_assoc |].
      rewrite length_app. lia.
Qed.

(** Each sentence is the rendering of its fact, in the world that the
    facts before it have left. *)
Lemma render_each_nth (format_value : pyval -> string -> result string)
    (content : list Fact) (w w' : World) (rendered : list string) :
  render_each format_value content w = Ok (rendered, w') ->
  forall i fact,
    nth_error content i = Some fact ->
    exists sentence wi wi',
      nth_error rendered i = Some sentence
      /\ render_fact format_value fact wi = Ok (sentence, wi')
      /\ draws wi = skipn (List.length (registered_facts (firstn i content))) (draws w)
      /\ exists lines, printed wi = printed w ++ lines.
Proof.
  revert w rendered. induction content as [| f0 rest IH]; intros w rendered H i fact Hi.
  - destruct i; discriminate.
  - cbn [render_each] in H.
    destruct (render_fact format_value f0 w) as [[s0 w1] |] eqn:E; cbn [bind] in H;
      [| discriminate].
    cbn [snd fst] in H.
    destruct (render_each format_value rest w1) as [[ss w2] |] eqn:E'; cbn [bind] in H;
      [| discriminate].
    inversion H; subst. clear H.
    destruct i as [| i].
    + cbn in Hi. inversion Hi; subst fact.
      exists s0, w, w1. repeat split; auto.
      exists []. now rewrite app_nil_r.
    + cbn [nth_error] in Hi.
      destruct (IH _ _ E' i fact Hi) as (s & wi & wi' & Hs & Hr & Hd & lines & Hp).
      apply render_fact_effects in E. destruct E as (Hd1 & l1 & Hp1 & _).
      exists s, wi, wi'. repeat split; auto.
      * cbn [firstn]. rewrite registered_facts_cons, Hd, Hd1, skipn_skipn.
        f_equal. lia.
      * exists (l1 ++ lines). now rewrite Hp, Hp1, app_assoc.
Qed.

(** X23.  A summary that is produced has drawn from the random generator
    once for every fact whose kind has templates, and only for those; it
    has printed at most one line for each of them, after the lines that
    were there.  It is made of one sentence for each fact, in the order of
    the facts: the sentence of a fact is what [render_fact] returns for it
    in the world left by the facts before it, in which one draw has been
    consumed for each earlier fact whose kind has templates; and the
    summary joins, with single spaces, those of the sentences that are not
    empty. *)
Theorem summary_effects (format_value : pyval -> string -> result string)
    (content : list Fact) (w w' : World) (summary : string) :
  summarize_content format_value content w = Ok (summary, w') ->
  draws w' = skipn (List.length (registered_facts content)) (draws w)
  /\ (exists lines,
        printed w' = printed w ++ lines
        /\ List.length lines <= List.length (registered_facts content))
  /\ (exists rendered,
        List.length rendered = List.length content
        /\ summary = join " " (filter str_truthy rendered)
        /\ forall i fact,
             nth_error content i = Some fact ->
             exists sentence wi wi',
               nth_error rendered i = Some sentence
               /\ render_fact format_value fact wi = Ok (sentence, wi')
               /\ draws wi
                  = skipn (List.length (registered_facts (firstn i content))) (draws w)
               /\ exists lines, printed wi = printed w ++ lines).
Proof.
  rewrite RealizerFacts.summarize_content_join.
  destruct (render_each format_value content w) as [[ss w1] |] eqn:E; cbn [bind];
    [| discriminate].
  cbn [fst snd]. intros H; inversion H; subst. clear H.
  pose proof (render_each_nth _ _ _ E) as Hnth.
  apply render_each_effects in E. destruct E as (Hd & Hlen & Hp).
  split; [exact Hd |]. split; [exact Hp |].
  exists ss. split; [exact Hlen |]. split; [reflexivity | exact Hnth].
Qed.

(** The theorem on the content planned for a windy station. *)
Lemma summary_effects_witness :
  exists summary w',
    summarize_content Reference.ref_format_value
      (select_content Sample.config Sample.windy_stats) Sample.world = Ok (summary, w')
    /\ draws w'
       = skipn (List.length (registered_facts
                               (select_content Sample.config Sample.windy_stats)))
               (draws Sample.world)
    /\ (exists lines,
          printed w' = printed Sample.world ++ lines
          /\ List.length lines
             <= List.length (registered_facts
                               (select_content Sample.config Sample.windy_stats)))
    /\ (exists rendered,
          List.length rendered
          = List.length (select_content Sample.config Sample.windy_stats)
          /\ summary = join " " (filter str_truthy rendered)
          /\ forall i fact,
               nth_error (select_content Sample.config Sample.windy_stats) i = Some fact ->
               exists sentence wi wi',
                 nth_error rendered i = Some sentence
                 /\ render_fact Reference.ref_format_value fact wi = Ok (sentence, wi')
                 /\ draws wi
                    = skipn (List.length
                               (registered_facts
                                  (firstn i (select_content Sample.config
                                               Sample.windy_stats))))
                            (draws Sample.world)
                 /\ exists lines, printed wi = printed Sample.world ++ lines).
Proof.
  eexists. eexists. split; [vm_compute; reflexivity |].
  apply (@summary_effects Reference.ref_format_value
           (select_content Sample.config Sample.windy_stats) Sample.world).
  vm_compute. reflexivity.
Defined.

(** *** The sentences of the overview and of the other conditions *)

Lemma random_choice_single (template : string) (w : World) :
  random_choice [template] w
  = (template, {| draws := tl (draws w); printed := printed w |}).
Proof.
  unfold random_choice. destruct w as [ds ps]. cbn [draws printed].
  destruct ds as [| n rest]; cbn [tl]; [reflexivity |].
  cbn [List.length]. rewrite Nat.mod_1_r. reflexivity.
Qed.

(** X18.  With a formatter that writes a string as it is, the first fact
    of every planned content is the overview, and on statistics whose two
    dates are there it renders, whatever the random draws, to the sentence
    that names the station and the two dates written as month name, day
    in two digits and year; one draw is consumed and nothing is printed. *)
Theorem overview_sentence (format_value : pyval -> string -> result string)
    (config : Config) (stats : Statistics) (first last : Date) (w : World) :
  (forall s, format_value (VStr s) EmptyString = Ok s) ->
  start_date (basic stats) = Some first ->
  end_date (basic stats) = Some last ->
  hd_error (select_content config stats) = Some ("overview"%string, PBasic (basic stats))
  /\ render_fact format_value ("overview"%string, PBasic (basic stats)) w
     = Ok (("This analysis covers daily weather observations from "
            ++ station (basic stats) ++ ", spanning "
            ++ Lexicalizer.format_date first ++ " to "
            ++ Lexicalizer.format_date last ++ ".")%string,
           {| draws := tl (draws w); printed := printed w |}).
Proof.
  intros Hfmt Hs He. split; [rewrite PlannerFacts.select_content_shape; reflexivity |].
  unfold render_fact. cbn [String.eqb Ascii.eqb Bool.eqb].
  unfold realize. cbn [templates dict_get String.eqb Ascii.eqb Bool.eqb].
  rewrite random_choice_single.
  unfold PyOf.of_payload, PyOf.of_basic. rewrite Hs, He.
  unfold _prepare_data, prepare_date. cbn. rewrite !Hfmt. cbn.
  reflexivity.
Qed.

(** The theorem on the statistics of a windy station, with the reference
    formatter. *)
Lemma overview_sentence_witness :
  hd_error (select_content Sample.config Sample.windy_stats)
  = Some ("overview"%string, PBasic (basic Sample.windy_stats))
  /\ render_fact Reference.ref_format_value
       ("overview"%string, PBasic (basic Sample.windy_stats)) Sample.world
     = Ok (("This analysis covers daily weather observations from "
            ++ station (basic Sample.windy_stats) ++ ", spanning "
            ++ Lexicalizer.format_date (mkDate 2021 1 1) ++ " to "
            ++ Lexicalizer.format_date (mkDate 2021 12 31) ++ ".")%string,
           {| draws := tl (draws Sample.world); printed := printed Sample.world |}).
Proof.
  apply (@overview_sentence Reference.ref_format_value Sample.config Sample.windy_stats
           (mkDate 2021 1 1) (mkDate 2021 12 31) Sample.world).
  - intros s. reflexivity.
  - reflexivity.
  - reflexivity.
Defined.

Lemma describe_conditions_total (format_value : pyval -> string -> result string)
    (secondary_vars : list (string * Bundle)) :
  (forall f, exists s, format_value (VFloat f) ".1f"%string = Ok s) ->
  exists descriptions,
    describe_conditions format_value secondary_vars = Ok descriptions
    /\ List.length descriptions = List.length secondary_vars.
Proof.
  intros Hfmt. induction secondary_vars as [| [var_name var_data] rest IH].
  - exists []. split; reflexivity.
  - destruct IH as (ds & Hds & Hlen). cbn [describe_conditions].
    unfold describe_condition.
    destruct (Hfmt (summary_mean (summary var_data))) as (mean_val & ->). cbn [bind].
    destruct (String.eqb var_name "wind_speed"); [| destruct (String.eqb var_name "rain");
      [| destruct (String.eqb var_name "snow");
         [| destruct (String.eqb var_name "relative_humidity")]]];
      cbn [bind]; rewrite Hds; cbn [bind]; eexists; (split; [reflexivity |]);
      cbn [List.length]; now rewrite Hlen.
Qed.

(** X19.  [realize_combined_conditions] raises [IndexError] on an empty
    list.  The planner never hands it one: with a formatter that writes
    every float to one decimal, the [other_conditions] fact of every
    planned content renders to a sentence that begins with
    [Other conditions included]; nothing is drawn and nothing printed. *)
Theorem other_conditions_rendered (format_value : pyval -> string -> result string)
    (config : Config) (stats : Statistics) (payload : Payload) (w : World) :
  (forall f, exists s, format_value (VFloat f) ".1f"%string = Ok s) ->
  In ("other_conditions"%string, payload) (select_content config stats) ->
  realize_combined_conditions format_value []
  = Raise (IndexError "list index out of range")
  /\ exists sentence,
       render_fact format_value ("other_conditions"%string, payload) w = Ok (sentence, w)
       /\ (exists rest, sentence = ("Other conditions included " ++ rest)%string)
       /\ str_truthy sentence = true.
Proof.
  intros Hfmt Hin. split; [reflexivity |].
  apply PlannerMore.other_conditions_fact in Hin. destruct Hin as [-> Hne].
  unfold render_fact. cbn [String.eqb Ascii.eqb Bool.eqb].
  unfold realize_combined_conditions.
  destruct (@describe_conditions_total format_value
              (Vocabulary.notable_secondary config stats) Hfmt) as (ds & -> & Hlen).
  cbn [bind].
  destruct (Vocabulary.notable_secondary config stats) as [| sv svs];
    [exfalso; apply Hne; reflexivity |].
  destruct ds as [| d0 [| d1 [| d2 ds]]]; [discriminate | | |];
    cbn [bind]; eexists; (split; [reflexivity |]);
    (split; [eexists; reflexivity | reflexivity]).
Qed.

(** The theorem on the statistics of a windy station. *)
Lemma other_conditions_rendered_witness :
  realize_combined_conditions Reference.ref_format_value []
  = Raise (IndexError "list index out of range")
  /\ exists sentence,
       render_fact Reference.ref_format_value
         ("other_conditions"%string, PSecondary [("wind_speed"%string, Sample.windy_bundle)])
         Sample.world = Ok (sentence, Sample.world)
       /\ (exists rest, sentence = ("Other conditions included " ++ rest)%string)
       /\ str_truthy sentence = true.
Proof.
  apply (@other_conditions_rendered Reference.ref_format_value Sample.config
           Sample.windy_stats
           (PSecondary [("wind_speed"%string, Sample.windy_bundle)]) Sample.world).
  - intros f. eexists. reflexivity.
  - vm_compute. right. left. reflexivity.
Defined.

(** *** What the summaries are prepared with *)

(** X21.  For the payload of a [precipitation_summary] fact, which is
    the bundle of a group, [_prepare_data] sets [total] to the mean of the
    primary column times 1826 and [annual_avg] to that mean times 365.25:
    a bundle has no [n_records] key, so the default of the lookup is the
    factor for every table, whatever its number of rows. *)
Theorem precipitation_total_default (b : Bundle) :
  exists formatted,
    _prepare_data "precipitation_summary" (PyOf.of_bundle b) = Ok formatted
    /\ dict_get "total" formatted
       = Some (VFloat (summary_mean (summary b) * 1826)%float)
    /\ dict_get "annual_avg" formatted
       = Some (VFloat (summary_mean (summary b) * 365.25)%float)
    /\ dict_get "n_records" formatted = None.
Proof.
  eexists. split; [reflexivity |]. repeat split; reflexivity.
Qed.

(** X22.  For the payload of a [temperature_summary] fact,
    [_prepare_data] takes [absolute_min] and [absolute_max] from the
    range of the supporting columns where the range has them and from the
    minimum and maximum of the primary column where it has not, each key
    on its own; [mean] is the mean of the primary column. *)
Theorem temperature_summary_range (b : Bundle) :
  exists formatted,
    _prepare_data "temperature_summary" (PyOf.of_bundle b) = Ok formatted
    /\ dict_get "absolute_min" formatted
       = Some (VFloat (match range b with
                       | Some r => match absolute_min r with
                                   | Some m => m
                                   | None => summary_min (summary b)
                                   end
                       | None => summary_min (summary b)
                       end))
    /\ dict_get "absolute_max" formatted
       = Some (VFloat (match range b with
                       | Some r => match absolute_max r with
                                   | Some m => m
                                   | None => summary_max (summary b)
                                   end
                       | None => summary_max (summary b)
                       end))
    /\ dict_get "mean" formatted = Some (VFloat (summary_mean (summary b))).
Proof.
  destruct b as [s r t se y e o]. cbn [range summary].
  destruct r as [[[mn |] [mx |]] |]; eexists; (split; [reflexivity |]);
    repeat split; reflexivity.
Qed.

(** *** The correlation that is reported *)

Lemma fabs_positive (x : float) : fgt x 0 = true -> fabs x = x.
Proof.
  unfold fgt, fabs. intros H. rewrite FloatAxioms.ltb_spec in H.
  apply Prim2SF_inj. rewrite FloatAxioms.abs_spec.
  change (Prim2SF 0) with (S754_zero false) in H.
  destruct (Prim2SF x) as [sg | sg | | sg m e]; try destruct sg;
    try discriminate H; reflexivity.
Qed.

Lemma corr_pair_labelled (backend : Backend) (df : DataFrame) (results : dict Bundle)
    (vi vj : string * DatasetAnalyzer.GroupConfig) (acc : dict Correlation) :
  (forall k c, In (k, c) acc -> labelled c) ->
  forall k c, In (k, c) (DatasetAnalyzer.corr_pair backend df results vi acc vj) ->
              labelled c.
Proof.
  intros Hacc k c. unfold DatasetAnalyzer.corr_pair.
  destruct (_ && _)%bool; [| apply Hacc].
  destruct (_ && _)%bool; [| apply Hacc].
  match goal with |- context [fgt (fabs ?r) 0.5] => destruct (fgt (fabs r) 0.5) eqn:G end;
    [| apply Hacc].
  intros H. apply PatternsMore.dict_set_In in H. destruct H as [[_ ->] | H]; [| eauto].
  split; [reflexivity | exact G].
Qed.

Lemma corr_fold_labelled (backend : Backend) (df : DataFrame) (results : dict Bundle)
    (vi : string * DatasetAnalyzer.GroupConfig)
    (rest : list (string * DatasetAnalyzer.GroupConfig)) (acc : dict Correlation) :
  (forall k c, In (k, c) acc -> labelled c) ->
  forall k c,
    In (k, c) (fold_left (DatasetAnalyzer.corr_pair backend df results vi) rest acc) ->
    labelled c.
Proof.
  revert acc. induction rest as [| vj rest IH]; intros acc Hacc; [exact Hacc |].
  cbn [fold_left]. apply IH. now apply corr_pair_labelled.
Qed.

Lemma corr_loops_labelled (backend : Backend) (df : DataFrame) (results : dict Bundle)
    (l : list (string * DatasetAnalyzer.GroupConfig)) (acc : dict Correlation) :
  (forall k c, In (k, c) acc -> labelled c) ->
  forall k c, In (k, c) (DatasetAnalyzer.corr_loops backend df results l acc) ->
              labelled c.
Proof.
  revert acc. induction l as [| vi rest IH]; intros acc Hacc; [exact Hacc |].
  cbn [DatasetAnalyzer.corr_loops]. apply IH. now apply corr_fold_labelled.
Qed.

Lemma pattern_correlation_fact (config : Config) (stats : Statistics) (payload : Payload) :
  In ("pattern_correlation"%string, payload) (select_content config stats) ->
  exists p,
    patterns stats = Some p
    /\ payload = PCorrelation (snd (fold_left corr_step (correlations p) (0%float, None))).
Proof.
  rewrite PlannerFacts.select_content_shape.
  assert (Hprim : forall g,
             g = "temperature"%string \/ g = "precipitation"%string ->
             ~ In ("pattern_correlation"%string, payload)
                  (Planned.primary_facts config stats g)).
  { intros g Hg Hin.
    assert (Hk : In "pattern_correlation"%string (Vocabulary.primary_kinds g)).
    { eapply PlannerMore.Subseq_In; [apply PlannerMore.primary_facts_kinds |].
      change "pattern_correlation"%string
        with (fst ("pattern_correlation"%string, payload)).
      apply in_map. exact Hin. }
    pose proof (PlannerMore.primary_kind_not_cross Hg Hk) as C. discriminate. }
  intros [H | H]; [discriminate |].
  apply in_app_or in H.
  destruct H as [H | H]; [exfalso; exact (Hprim _ (or_introl eq_refl) H) |].
  apply in_app_or in H.
  destruct H as [H | H]; [exfalso; exact (Hprim _ (or_intror eq_refl) H) |].
  unfold Planned.cross_facts in H. apply in_app_or in H. destruct H as [H | H].
  - destruct (fold_left _ secondary_var_names []); [destruct H |].
    destruct H as [H | []]. discriminate.
  - destruct (patterns stats) as [p |]; [| destruct H].
    exists p. split; [reflexivity |].
    apply in_app_or in H. destruct H as [H | H].
    + destruct (strongest_trends p) as [[| t ts] |];
        [destruct H | destruct H as [H | []]; discriminate | destruct H].
    + destruct H as [H | []]. now inversion H.
Qed.

(** X24.  On the patterns that [_detect_cross_variable_patterns]
    computes, the pair that the planner reports in a [pattern_correlation]
    fact is labelled [direct] and has a correlation above 0.5: an entry of
    the mapping is labelled [inverse] only when its correlation is below
    zero, and the scan of the planner keeps positive correlations only.
    [_prepare_data] therefore writes the relationship of every reported
    pair as [positive], and the branch that writes [inverse] is not
    reached from the pipeline. *)
Theorem reported_correlation_is_direct (backend : Backend) (df : DataFrame)
    (schema : dict DatasetAnalyzer.GroupConfig) (results : dict Bundle)
    (config : Config) (stats : Statistics) (m : MaxCorr) :
  patterns stats
  = Some (DatasetAnalyzer._detect_cross_variable_patterns backend df schema results) ->
  In ("pattern_correlation"%string, PCorrelation (Some m)) (select_content config stats) ->
  mc_relationship m = "direct"%string
  /\ fgt (mc_correlation m) 0.5 = true
  /\ exists formatted,
       _prepare_data "pattern_correlation" (PyOf.of_payload (PCorrelation (Some m)))
       = Ok formatted
       /\ dict_get "relationship" formatted = Some (VStr "positive")
       /\ dict_get "vars" formatted = Some (VStr (replace_char "_" " " (variables m))).
Proof.
  intros Hp Hin. apply pattern_correlation_fact in Hin.
  destruct Hin as (p & Hp' & Hm). rewrite Hp in Hp'. injection Hp' as <-.
  injection Hm as Hm.
  cbn [correlations DatasetAnalyzer._detect_cross_variable_patterns] in Hm.
  set (entries := DatasetAnalyzer.corr_loops backend df results schema []) in *.
  pose proof (@PlannerMore.corr_scan_ok entries [] (0%float, None)) as Hscan.
  cbn [app] in Hscan.
  specialize (Hscan (conj eq_refl (fun k c (F : False) => match F with end))).
  unfold Vocabulary.scan_ok in Hscan. rewrite <- Hm in Hscan.
  destruct Hscan as (c & Hc & _ & Hcorr & Hrel & Hpos & _).
  assert (Hlab : labelled c).
  { apply (@corr_loops_labelled backend df results schema [] (fun _ _ F => match F with end)
             (variables m) c Hc). }
  destruct Hlab as [Hlabel Hstrong].
  assert (Hdirect : mc_relationship m = "direct"%string).
  { rewrite Hrel, Hlabel. unfold fgt in Hpos.
    rewrite (FloatOrderMore.flt_asym Hpos). reflexivity. }
  split; [exact Hdirect |]. split.
  - rewrite Hcorr. rewrite (fabs_positive Hpos) in Hstrong. exact Hstrong.
  - destruct m as [vars corr rel]. cbn in Hdirect. subst rel.
    eexists. split; [reflexivity |]. split; reflexivity.
Qed.

(** The theorem on the patterns of a table whose two columns fall and
    rise together. *)
Lemma reported_correlation_is_direct_witness :
  exists m,
    In ("pattern_correlation"%string, PCorrelation (Some m))
       (select_content Sample.config Tables.pair_stats)
    /\ mc_relationship m = "direct"%string
    /\ fgt (mc_correlation m) 0.5 = true
    /\ exists formatted,
         _prepare_data "pattern_correlation" (PyOf.of_payload (PCorrelation (Some m)))
         = Ok formatted
         /\ dict_get "relationship" formatted = Some (VStr "positive")
         /\ dict_get "vars" formatted = Some (VStr (replace_char "_" " " (variables m))).
Proof.
  exists {| variables := "temp_and_feels"; mc_correlation := 1;
            mc_relationship := "direct" |}.
  assert (Hin : In ("pattern_correlation"%string,
                    PCorrelation (Some {| variables := "temp_and_feels";
                                          mc_correlation := 1;
                                          mc_relationship := "direct" |}))
                   (select_content Sample.config Tables.pair_stats))
    by (vm_compute; repeat first [left; reflexivity | right]).
  split; [exact Hin |].
  exact (@reported_correlation_is_direct Sample.backend Tables.feels_table
           Tables.feels_pair_schema Tables.pair_results Sample.config
           Tables.pair_stats _ eq_refl Hin).
Defined.

End RealizerMore.

(** ** [ai.py]: the standard column names *)

Module AiFacts.

Import AiSummarizer.

Lemma standard_name_in (col name : string) :
  standard_name col = Some name -> In name standard_names.
Proof.
  unfold standard_name, standard_names.
  repeat match goal with
         | |- context [if ?b then _ else _] => destruct b
         end;
    intros H; inversion H; simpl; tauto.
Qed.

Lemma rename_standard (name : string) :
  In name standard_names -> rename_column name = name.
Proof.
  unfold standard_names. simpl.
  intros [<- | [<- | [<- | [<- | [<- | [<- | [<- | [<- | []]]]]]]]]; reflexivity.
Qed.

Lemma rename_column_idempotent (col : string) :
  rename_column (rename_column col) = rename_column col.
Proof.
  unfold rename_column at 2 3. destruct (standard_name col) as [name |] eqn:E.
  - apply rename_standard. eapply standard_name_in; eauto.
  - unfold rename_column. now rewrite E.
Qed.

(** X20.  [_standardize_columns] of [ai.py] keeps the number and the
    order of the columns; it gives a column one of the eight standard
    names or leaves its name as it is; a standard name is left as it is;
    and standardizing a second time changes nothing. *)
Theorem standardize_columns_idempotent (columns : list string) :
  _standardize_columns (_standardize_columns columns) = _standardize_columns columns
  /\ List.length (_standardize_columns columns) = List.length columns
  /\ (forall i col, nth_error columns i = Some col ->
        nth_error (_standardize_columns columns) i = Some (rename_column col)
        /\ (In (rename_column col) standard_names \/ rename_column col = col))
  /\ (forall name, In name standard_names -> rename_column name = name).
Proof.
  unfold _standardize_columns. repeat split.
  - rewrite map_map. apply map_ext. intros col. apply rename_column_idempotent.
  - apply length_map.
  - rewrite nth_error_map, H. reflexivity.
  - unfold rename_column. destruct (standard_name col) as [name |] eqn:E; [left | now right].
    eapply standard_name_in; eauto.
  - apply rename_standard.
Qed.

(** Two columns of the deployed table, the daily precipitation and the
    hours of precipitation, are given the same standard name. *)
Example standardize_columns_collision :
  _standardize_columns ["temperature_2m_mean (°C)"; "precipitation_sum (mm)";
                        "precipitation_hours (h)"; "wind_speed_10m_mean (km/h)"]%string
  = ["temp_mean"; "precipitation_mean"; "precipitation_mean"; "wind_speed_mean"]%string.
Proof. reflexivity. Qed.

End AiFacts.

(** ** The analysis and the plan together *)

Module PipelineMore.

Import DatasetAnalyzer ContentPlanner Planned Vocabulary FloatOrder FloatOrderFacts
       AnalyzerFacts DictFacts.

Lemma idxmax_series_max (l : list float) (i : nat) :
  idxmax l = Ok i -> nth_error l i = Some (series_max l) /\ isnan (series_max l) = false.
Proof.
  unfold idxmax, series_max.
  pose proof (@arg_best_from_start flt key_lt key_lt_irrefl key_lt_trans
                key_lt_total ltb_rank l) as Inv.
  destruct (arg_best flt l 0 None) as [[i' b] |]; [| discriminate].
  intros H; inversion H; subst i'. simpl in Inv.
  destruct Inv as (Hi & kb & Hkb & _).
  split; [exact Hi | apply isnan_rank; eauto].
Qed.

Lemma idxmin_series_min (l : list float) (i : nat) :
  idxmin l = Ok i -> nth_error l i = Some (series_min l) /\ isnan (series_min l) = false.
Proof.
  unfold idxmin, series_min.
  pose proof (@arg_best_from_start fgt (fun a b => key_lt b a)
                key_lt_irrefl
                (fun a b c H1 H2 => @key_lt_trans c b a H2 H1)
                (fun a b => match key_lt_total a b with
                            | or_introl L => or_intror (or_intror L)
                            | or_intror (or_introl E) => or_intror (or_introl E)
                            | or_intror (or_intror G) => or_introl G
                            end)
                fgt_rank l) as Inv.
  destruct (arg_best fgt l 0 None) as [[i' b] |]; [| discriminate].
  intros H; inversion H; subst i'. simpl in Inv.
  destruct Inv as (Hi & kb & Hkb & _).
  split; [exact Hi | apply isnan_rank; eauto].
Qed.

Lemma resolve_col_primary (token primary_col : string) (supporting_cols : list string) :
  (forall c, In c supporting_cols -> contains token (lower c) = false) ->
  resolve_col token primary_col supporting_cols = primary_col.
Proof.
  intros H. unfold resolve_col.
  destruct (find (fun c => contains token (lower c)) supporting_cols) as [c |] eqn:E;
    [| reflexivity].
  apply find_some in E. destruct E as [Hin Hc]. rewrite (H c Hin) in Hc. discriminate.
Qed.

(** X25.  For a group none of whose supporting columns is named as a
    maximum, the value of the highest extreme that [_identify_extremes]
    reports is the [max] of the summary that [_summarize_primary] computes
    for the same column, and it is a number; likewise the lowest extreme
    and the [min] of the summary when no supporting column is named as a
    minimum. *)
Theorem extremes_match_summary (backend : Backend) (df : DataFrame)
    (primary_col : string) (supporting_cols : list string) (e : Extremes) :
  in_columns df primary_col = true ->
  _identify_extremes df primary_col supporting_cols = Ok (Some e) ->
  ((forall c, In c supporting_cols -> contains "max" (lower c) = false) ->
   exists h, highest e = Some h
             /\ value h = summary_max (_summarize_primary backend df primary_col)
             /\ isnan (value h) = false)
  /\ ((forall c, In c supporting_cols -> contains "min" (lower c) = false) ->
      exists l, lowest e = Some l
                /\ value l = summary_min (_summarize_primary backend df primary_col)
                /\ isnan (value l) = false).
Proof.
  intros Hcol H. unfold _identify_extremes in H.
  destruct (extreme_of df idxmax (resolve_col "max" primary_col supporting_cols))
    as [hi |] eqn:Ehi; cbn [bind] in H; [| discriminate].
  destruct (extreme_of df idxmin (resolve_col "min" primary_col supporting_cols))
    as [lo |] eqn:Elo; cbn [bind] in H; [| discriminate].
  destruct (extremes_truthy {| highest := hi; lowest := lo |}); [| discriminate].
  injection H as <-. cbn [highest lowest _summarize_primary summary_max summary_min].
  split; intros Hnone.
  - rewrite (resolve_col_primary _ _ _ Hnone) in Ehi. apply extreme_of_inv in Ehi.
    destruct Ehi as [[Hno _] | (_ & idx & x & Hidx & -> & Hv & _)]; [congruence |].
    apply idxmax_series_max in Hidx. destruct Hidx as [Hnth Hnum].
    rewrite Hnth in Hv. injection Hv as Hv.
    exists x. rewrite <- Hv. auto.
  - rewrite (resolve_col_primary _ _ _ Hnone) in Elo. apply extreme_of_inv in Elo.
    destruct Elo as [[Hno _] | (_ & idx & x & Hidx & -> & Hv & _)]; [congruence |].
    apply idxmin_series_min in Hidx. destruct Hidx as [Hnth Hnum].
    rewrite Hnth in Hv. injection Hv as Hv.
    exists x. rewrite <- Hv. auto.
Qed.

(** The theorem on three days of temperature, without supporting
    columns. *)
Lemma extremes_match_summary_witness :
  exists e,
    _identify_extremes Sample.extremes_table "temp" [] = Ok (Some e)
    /\ ((forall c, In c [] -> contains "max" (lower c) = false) ->
        exists h, highest e = Some h
                  /\ value h = summary_max (_summarize_primary Sample.backend
                                              Sample.extremes_table "temp")
                  /\ isnan (value h) = false)
    /\ ((forall c, In c [] -> contains "min" (lower c) = false) ->
        exists l, lowest e = Some l
                  /\ value l = summary_min (_summarize_primary Sample.backend
                                              Sample.extremes_table "temp")
                  /\ isnan (value l) = false).
Proof.
  eexists. split; [reflexivity |].
  apply (@extremes_match_summary Sample.backend Sample.extremes_table "temp"%string []);
    reflexivity.
Defined.

Lemma analyze_groups_member (backend : Backend) (df : DataFrame)
    (schema : dict GroupConfig) (results : dict Bundle) (g : string) (cfg : GroupConfig) :
  NoDup (dict_keys schema) ->
  analyze_groups backend df schema [] = Ok results ->
  In (g, cfg) schema ->
  (in_columns df (primary cfg) = true <-> dict_mem g results = true).
Proof.
  intros Hnd E H.
  pose proof (@PatternsMore.analyze_groups_keys backend df schema [] results Hnd E) as Hk.
  cbn [dict_keys map app] in Hk. split.
  - intros Hcol. apply dict_get_in_keys. rewrite Hk. unfold Strongest.analysed_groups.
    change g with (fst (g, cfg)). apply in_map. apply filter_In. auto.
  - intros Hmem. apply dict_get_in_keys in Hmem. rewrite Hk in Hmem.
    unfold Strongest.analysed_groups in Hmem. apply in_map_iff in Hmem.
    destruct Hmem as ([g' cfg'] & Hfst & Hin). simpl in Hfst. subst g'.
    apply filter_In in Hin. destruct Hin as [Hin Hcol]. simpl in Hcol.
    now rewrite (@PatternsMore.schema_entry_unique schema g cfg cfg' Hnd H Hin).
Qed.

Lemma primary_kinds_apart (g g' kind : string) :
  g = "temperature"%string \/ g = "precipitation"%string ->
  g' = "temperature"%string \/ g' = "precipitation"%string ->
  In kind (primary_kinds g) -> In kind (primary_kinds g') -> g = g'.
Proof.
  intros [-> | ->] [-> | ->] H H'; try reflexivity; exfalso; simpl in H, H';
    repeat (destruct H as [<- | H];
            [repeat (destruct H' as [H' | H']; [discriminate H' |]); exact H' |]);
    exact H.
Qed.

(** X26.  When [analyze] returns under a schema with distinct group
    names, a primary variable (temperature or precipitation) whose column
    is missing from the table gives no fact to the plan: no kind of that
    variable occurs in [select_content].  One whose column is in the table
    has its bundle in the statistics and its summary fact in the plan,
    whatever the thresholds. *)
Theorem missing_group_not_planned (backend : Backend) (df : DataFrame)
    (station_name : string) (schema : dict GroupConfig) (config : Config)
    (stats : Statistics) (g : string) (cfg : GroupConfig) :
  NoDup (dict_keys schema) ->
  analyze backend df station_name schema = Ok stats ->
  In (g, cfg) schema ->
  g = "temperature"%string \/ g = "precipitation"%string ->
  (in_columns df (primary cfg) = false ->
   forall kind payload,
     In (kind, payload) (select_content config stats) -> ~ In kind (primary_kinds g))
  /\ (in_columns df (primary cfg) = true ->
      exists b, dict_get g (groups stats) = Some b
                /\ In ((g ++ "_summary")%string, PBundle b) (select_content config stats)).
Proof.
  intros Hnd H Hin Hg. unfold analyze in H.
  destruct (analyze_groups backend df schema []) as [results |] eqn:E;
    cbn [bind] in H; [| discriminate].
  pose proof (@analyze_groups_member backend df schema results g cfg Hnd E Hin) as Hmem.
  assert (Hget : dict_get g (groups stats) = dict_get g results).
  { injection H as <-. cbn [groups]. apply dict_get_remove_ne.
    destruct Hg as [-> | ->]; discriminate. }
  clear H. rewrite PlannerFacts.select_content_shape. split.
  - intros Hcol kind payload Hk Hkind.
    assert (Hnone : primary_facts config stats g = []).
    { unfold primary_facts. rewrite Hget.
      destruct (dict_get g results) as [b |] eqn:G; [| reflexivity].
      assert (M : dict_mem g results = true) by (unfold dict_mem; now rewrite G).
      apply Hmem in M. congruence. }
    assert (Hpf : forall g', g' = "temperature"%string \/ g' = "precipitation"%string ->
                  ~ In (kind, payload) (primary_facts config stats g')).
    { intros g' Hg' Hin'.
      assert (Hk' : In kind (primary_kinds g')).
      { eapply PlannerMore.Subseq_In; [apply PlannerMore.primary_facts_kinds |].
        change kind with (fst (kind, payload)). apply in_map. exact Hin'. }
      pose proof (primary_kinds_apart Hg Hg' Hkind Hk') as <-.
      rewrite Hnone in Hin'. destruct Hin'. }
    destruct Hk as [Hk | Hk].
    + inversion Hk; subst kind.
      destruct Hg as [-> | ->]; simpl in Hkind;
        repeat (destruct Hkind as [Hkind | Hkind]; [discriminate Hkind |]); exact Hkind.
    + apply in_app_or in Hk. destruct Hk as [Hk | Hk];
        [exact (Hpf _ (or_introl eq_refl) Hk) |].
      apply in_app_or in Hk. destruct Hk as [Hk | Hk];
        [exact (Hpf _ (or_intror eq_refl) Hk) |].
      pose proof (PlannerFacts.cross_facts_kinds config stats) as Hc.
      rewrite forallb_forall in Hc. specialize (Hc _ Hk). cbn [fst] in Hc.
      rewrite (PlannerMore.primary_kind_not_cross Hg Hkind) in Hc. discriminate.
  - intros Hcol. apply Hmem in Hcol. unfold dict_mem in Hcol. rewrite Hget.
    destruct (dict_get g results) as [b |] eqn:G; [| discriminate].
    exists b. split; [reflexivity |]. right.
    destruct Hg as [-> | ->].
    + apply in_or_app. left. unfold primary_facts. rewrite Hget. now left.
    + apply in_or_app. right. apply in_or_app. left.
      unfold primary_facts. rewrite Hget. now left.
Qed.

(** The theorem on a table of temperature only: precipitation is in the
    schema and not in the table. *)
Lemma missing_group_not_planned_witness :
  exists stats,
    analyze Sample.backend Tables.warm_days_table "Oslo" Summarizer.variable_groups
    = Ok stats
    /\ (in_columns Tables.warm_days_table "precipitation_sum (mm)" = false ->
        forall kind payload,
          In (kind, payload) (select_content Sample.config stats) ->
          ~ In kind (primary_kinds "precipitation"))
    /\ (in_columns Tables.warm_days_table "precipitation_sum (mm)" = true ->
        exists b, dict_get "precipitation" (groups stats) = Some b
                  /\ In (("precipitation" ++ "_summary")%string, PBundle b)
                        (select_content Sample.config stats)).
Proof.
  eexists. split; [vm_compute; reflexivity |].
  apply (@missing_group_not_planned Sample.backend Tables.warm_days_table "Oslo"%string
           Summarizer.variable_groups Sample.config _ "precipitation"%string
           {| primary := "precipitation_sum (mm)"; supporting := []; comparison := [] |}).
  - apply AnalysisFacts.distinct_nodup. vm_compute. reflexivity.
  - vm_compute. reflexivity.
  - right. left. reflexivity.
  - right. reflexivity.
Defined.

End PipelineMore.
